(** * Bookstore sales manager: a shallow embedding of [bookstore_manager.py]

    The development follows the source file top to bottom: the date
    validator, the connection with its implicit transactions, the three
    tables, and the create / update / delete paths of the sale engine.

    Conventions.
    - A Python [str] is a [string]; every [ascii] stands for one character
      (a code point below 256), so [String.length] is Python's [len].
      Texts with other characters are outside the model.
    - A Python [int] is a [Z].  SQLite stores an INTEGER in 64 bits, and the
      [sqlite3] module refuses to bind a Python [int] outside that range
      with an [OverflowError]; that is written out in [bind_int].
    - The [member] and [book] tables have a TEXT primary key and are maps
      from that key; the [sale] table is a map from its integer [sid],
      together with the AUTOINCREMENT counter SQLite keeps for it. *)

From Stdlib Require Import ZArith String Ascii List Bool Lia.
From stdpp Require Import gmap strings list fin_maps sorting pretty.

Local Open Scope string_scope.
Local Open Scope Z_scope.

(** ** Dates: [validate_date] and the library call it relies on *)

Module DateFormat.

(** [DATE_FORMAT = "%Y-%m-%d"] is handed to [datetime.strptime], which
    turns it into the regular expression
<<
 (?P<Y>\d\d\d\d)-(?P<m>1[0-2]|0[1-9]|[1-9])-(?P<d>3[0-1]|[1-2]\d|0[1-9]|[1-9]| [1-9])
>>
    (CPython, [Lib/_strptime.py]), matches it at the start of the text,
    complains when text is left over, and finally builds the date, which
    fails for a year below 1 or a day the month does not have.  A
    matcher is a function from the text to the list of its possible
    matches (captured text, rest), in the order a backtracking engine
    tries them. *)

Definition matcher : Type := string → list (string * string).

Definition between (lo hi : ascii) (c : ascii) : bool :=
  (nat_of_ascii lo <=? nat_of_ascii c)%nat && (nat_of_ascii c <=? nat_of_ascii hi)%nat.

(** [\d]: among the characters below 256 the decimal digits are 0..9. *)
Definition digit : ascii → bool := between "0" "9".

Definition one (p : ascii → bool) : matcher := λ s,
  match s with
  | String c rest => if p c then [(String c EmptyString, rest)] else []
  | EmptyString => []
  end.

Definition lit (c : ascii) : matcher := one (λ x, bool_decide (x = c)).

Definition cat (r1 r2 : matcher) : matcher := λ s,
  '(a, s1) ← r1 s; '(b, s2) ← r2 s1; [(a +:+ b, s2)].

Definition alt (r1 r2 : matcher) : matcher := λ s, (r1 s ++ r2 s)%list.

Infix "··" := cat (at level 40, left associativity).
Infix "|||" := alt (at level 50, left associativity).

Definition re_Y : matcher := one digit ·· one digit ·· one digit ·· one digit.

Definition re_m : matcher :=
  lit "1" ·· one (between "0" "2")
  ||| lit "0" ·· one (between "1" "9")
  ||| one (between "1" "9").

Definition re_d : matcher :=
  lit "3" ·· one (between "0" "1")
  ||| one (between "1" "2") ·· one digit
  ||| lit "0" ·· one (between "1" "9")
  ||| one (between "1" "9")
  ||| lit " " ·· one (between "1" "9").

(** All matches of the whole pattern, first choice first: the three
    groups and the text left over. *)
Definition re_date (s : string) : list (string * string * string * string) :=
  '(y, s1) ← re_Y s;
  '(_, s2) ← lit "-" s1;
  '(m, s3) ← re_m s2;
  '(_, s4) ← lit "-" s3;
  '(d, s5) ← re_d s4;
  [(y, m, d, s5)].

(** [int(group)]: the groups hold digits, the day possibly after one
    blank, which [int] skips. *)
Fixpoint int_acc (acc : Z) (s : string) : Z :=
  match s with
  | EmptyString => acc
  | String c rest =>
      if digit c then int_acc (10 * acc + (Z.of_nat (nat_of_ascii c) - 48)) rest
      else int_acc acc rest
  end.
Definition int_of_group : string → Z := int_acc 0.

Definition is_leap (y : Z) : bool :=
  (y mod 4 =? 0) && (negb (y mod 100 =? 0) || (y mod 400 =? 0)).

Definition days_in_month (y m : Z) : Z :=
  if m =? 2 then (if is_leap y then 29 else 28)
  else if (m =? 4) || (m =? 6) || (m =? 9) || (m =? 11) then 30
  else 31.

(** [datetime.date(y, m, d)] raises [ValueError] unless this holds
    ([MINYEAR = 1], [MAXYEAR = 9999]). *)
Definition date_exists (y m d : Z) : bool :=
  (1 <=? y) && (y <=? 9999) && (1 <=? m) && (m <=? 12)
  && (1 <=? d) && (d <=? days_in_month y m).

(** [datetime.strptime(s, "%Y-%m-%d")]: [Some (y, m, d)] for the date it
    returns, [None] where it raises [ValueError]. *)
Definition strptime (s : string) : option (Z * Z * Z) :=
  match re_date s with
  | [] => None                                  (* does not match format *)
  | (y, m, d, rest) :: _ =>
      if bool_decide (rest = "") then
        let '(y, m, d) := (int_of_group y, int_of_group m, int_of_group d) in
        if date_exists y m d then Some (y, m, d) else None
      else None                                 (* unconverted data remains *)
  end.

(** [sdate.count('-')] *)
Fixpoint count (c : ascii) (s : string) : nat :=
  match s with
  | EmptyString => 0
  | String x rest => (if bool_decide (x = c) then 1 else 0) + count c rest
  end%nat.

(** lines 70-85 *)
Definition validate_date (sdate : string) : bool :=
  if negb (String.length sdate =? 10)%nat || negb (count "-" sdate =? 2)%nat then false
  else match strptime sdate with
       | Some _ => true
       | None => false
       end.

(** The reading of the date the specification gives: ten characters,
    four digits of year, two of month, two of day, a [-] between them,
    and the date is one the calendar has. *)
Definition digit_val (c : ascii) : Z := Z.of_nat (nat_of_ascii c) - 48.

Definition spec_is_valid_date (s : string) : bool :=
  match s with
  | String y1 (String y2 (String y3 (String y4 (String s1
    (String m1 (String m2 (String s2 (String d1 (String d2 EmptyString))))))))) =>
      forallb digit [y1; y2; y3; y4; m1; m2; d1; d2]
      && bool_decide (s1 = "-"%char) && bool_decide (s2 = "-"%char)
      && date_exists
           (1000 * digit_val y1 + 100 * digit_val y2 + 10 * digit_val y3 + digit_val y4)
           (10 * digit_val m1 + digit_val m2)
           (10 * digit_val d1 + digit_val d2)
  | _ => false
  end.

(** *** Vocabulary for the statements about dates *)

(** The number of a character. *)
Definition code (c : ascii) : nat := nat_of_ascii c.

(** Two characters that make a month for the pattern of [%m]. *)
Definition month2 (m1 m2 : ascii) : bool :=
  (bool_decide (m1 = "1"%char) && between "0" "2" m2)
  || (bool_decide (m1 = "0"%char) && between "1" "9" m2).

(** Two characters that make a day for the first three choices of [%d],
    and for the last one. *)
Definition day2 (d1 d2 : ascii) : bool :=
  (bool_decide (d1 = "3"%char) && between "0" "1" d2)
  || (between "1" "2" d1 && digit d2)
  || (bool_decide (d1 = "0"%char) && between "1" "9" d2).

Definition blank2 (d1 d2 : ascii) : bool :=
  bool_decide (d1 = " "%char) && between "1" "9" d2.

Definition ten (y1 y2 y3 y4 s1 m1 m2 s2 d1 d2 : ascii) : string :=
  String y1 (String y2 (String y3 (String y4 (String s1
    (String m1 (String m2 (String s2 (String d1 (String d2 ""))))))))).

Definition year_of (y1 y2 y3 y4 : ascii) : Z :=
  1000 * digit_val y1 + 100 * digit_val y2 + 10 * digit_val y3 + digit_val y4.

Definition two (a b : ascii) : Z := 10 * digit_val a + digit_val b.

(** A day written as a blank and a digit, rewritten with a zero. *)
Definition unblank (s : string) : string :=
  match s with
  | String y1 (String y2 (String y3 (String y4 (String s1
    (String m1 (String m2 (String s2 (String d1 (String d2 ""))))))))) =>
      if blank2 d1 d2 then ten y1 y2 y3 y4 s1 m1 m2 s2 "0" d2 else s
  | _ => s
  end.

End DateFormat.

Import DateFormat.

(** ** Text: the f-strings the engine builds *)

Module Text.

(** [str(n)] and [{n}] for an [int]. *)
Definition str (n : Z) : string := pretty n.

(** Insert a comma after every third character of the reversed digits. *)
Fixpoint group3 (k : nat) (rev_digits : list ascii) : list ascii :=
  match rev_digits with
  | [] => []
  | c :: rest =>
      if (k =? 3)%nat then ","%char :: c :: group3 1 rest
      else c :: group3 (S k) rest
  end.

(** [{n:,}]: the sign, then the digits in groups of three. *)
Definition with_commas (n : Z) : string :=
  let digits := list_ascii_of_string (pretty (Z.abs n)) in
  (if n <? 0 then "-" else "")
  +:+ string_of_list_ascii (rev (group3 0 (rev digits))).

End Text.

(** ** The three tables (lines 28-50) *)

Module Member.
Record row := { mname : string; mphone : string; memail : option string }.
End Member.

Module Book.
Record row := { btitle : string; bprice : Z; bstock : Z }.

Definition set_bstock (n : Z) (b : row) : row :=
  {| btitle := btitle b; bprice := bprice b; bstock := n |}.
End Book.

Module Sale.
Record row := {
  sdate : string; mid : string; bid : string;
  sqty : Z; sdiscount : Z; stotal : Z
}.

Definition set_discount_total (d t : Z) (s : row) : row :=
  {| sdate := sdate s; mid := mid s; bid := bid s;
     sqty := sqty s; sdiscount := d; stotal := t |}.
End Sale.

(** [sale_seq] is the row SQLite keeps in [sqlite_sequence] for a table
    declared AUTOINCREMENT: the largest [sid] ever handed out. *)
Record database := {
  member : gmap string Member.row;
  book : gmap string Book.row;
  sale : gmap Z Sale.row;
  sale_seq : Z
}.

Definition with_book (b : gmap string Book.row) (d : database) : database :=
  {| member := member d; book := b; sale := sale d; sale_seq := sale_seq d |}.

Definition with_sale (s : gmap Z Sale.row) (d : database) : database :=
  {| member := member d; book := book d; sale := s; sale_seq := sale_seq d |}.

(** ** The connection

    [sqlite3.connect] leaves the connection in the module's default mode:
    a transaction is opened silently before the first INSERT, UPDATE or
    DELETE and stays open until [commit] or [rollback].  [journal] holds
    the tables as they were when the open transaction began. *)

Record connection := { tables : database; journal : option database }.

(** What the program works on: the connection, the lines still to be
    typed at the console, and what has been written to it. *)
Record world := { conn : connection; stdin : list string; stdout : list string }.

Definition set_conn (c : connection) (w : world) : world :=
  {| conn := c; stdin := stdin w; stdout := stdout w |}.

Definition write (text : string) (w : world) : world :=
  {| conn := conn w; stdin := stdin w; stdout := stdout w ++ [text] |}.

Inductive exn :=
  | SqliteError (text : string)   (* sqlite3.Error and its subclasses *)
  | OverflowError                 (* Python int too large to convert to SQLite INTEGER *)
  | EOFError.                     (* input() at the end of the input *)

Inductive outcome (A : Type) :=
  | Return (a : A)
  | Raise (e : exn).
Arguments Return {A} a.
Arguments Raise {A} e.

(** A piece of the program: it changes the world and returns or raises. *)
Definition py (A : Type) : Type := world → world * outcome A.

#[export] Instance py_ret : MRet py := λ A a w, (w, Return a).

#[export] Instance py_bind : MBind py := λ A B k m w,
  match m w with
  | (w', Return a) => k a w'
  | (w', Raise e) => (w', Raise e)
  end.

Definition raise {A} (e : exn) : py A := λ w, (w, Raise e).

Definition on_conn (g : connection → connection) : py unit := λ w,
  (set_conn (g (conn w)) w, Return tt).

Definition get_tables : py database := λ w, (w, Return (tables (conn w))).

Definition print (line : string) : py unit := λ w, (write line w, Return tt).

(** [input(prompt)] *)
Definition input (prompt : string) : py string := λ w,
  match stdin w with
  | [] => (write prompt w, Raise EOFError)
  | line :: rest =>
      ({| conn := conn w; stdin := rest; stdout := stdout w ++ [prompt] |}, Return line)
  end.

(** [try: body  except sqlite3.Error as e: handler(str(e))] — any other
    exception passes through. *)
Definition try_except {A} (body : py A) (handler : string → py A) : py A := λ w,
  match body w with
  | (w', Raise (SqliteError e)) => handler e w'
  | r => r
  end.

Definition begin_implicitly (c : connection) : connection :=
  match journal c with
  | None => {| tables := tables c; journal := Some (tables c) |}
  | Some _ => c
  end.

Definition commit_conn (c : connection) : connection :=
  {| tables := tables c; journal := None |}.

Definition rollback_conn (c : connection) : connection :=
  match journal c with
  | Some before => {| tables := before; journal := None |}
  | None => c
  end.

(** [with conn: body] — [Connection.__exit__] commits when the body ends
    without an exception (a [return] inside it included) and rolls back,
    letting the exception through, when it raises.  The two calls
    themselves are taken not to fail. *)
Definition with_conn {A} (body : py A) : py A := λ w,
  match body w with
  | (w', Return a) => (set_conn (commit_conn (conn w')) w', Return a)
  | (w', Raise e) => (set_conn (rollback_conn (conn w')) w', Raise e)
  end.

(** ** Statements

    The statements of the three [try] blocks can fail in the storage
    layer.  Which of them does, and with what text, is given from outside. *)

Inductive stmt :=
  | InsertSale | UpdateBookStock            (* add_sale *)
  | SelectSale | UpdateSale                 (* update_sale *)
  | DeleteSale                              (* delete_sale *)
  | Commit.

Definition faults : Type := stmt → option string.
Definition no_faults : faults := λ _, None.

Definition min_int64 : Z := - 2 ^ 63.
Definition max_int64 : Z := 2 ^ 63 - 1.
Definition fits_int64 (n : Z) : bool := (min_int64 <=? n) && (n <=? max_int64).

(** Binding the [int] parameters of a statement. *)
Definition bind_int (params : list Z) : py unit :=
  if forallb fits_int64 params then mret tt else raise OverflowError.

Definition storage (f : faults) (s : stmt) : py unit :=
  match f s with
  | Some text => raise (SqliteError text)
  | None => mret tt
  end.

(** [cursor.execute] of an INSERT, UPDATE or DELETE inside a [try]: open
    the transaction if none is open, bind, run.  A statement that fails
    leaves the tables as they were. *)
Definition execute_dml (f : faults) (s : stmt) (params : list Z)
    (run : database → string + database) : py unit :=
  on_conn begin_implicitly;;
  bind_int params;;
  storage f s;;
  d ← get_tables;
  match run d with
  | inl text => raise (SqliteError text)
  | inr d' => on_conn (λ c, {| tables := d'; journal := journal c |})
  end.

(** [cursor.execute] of a SELECT inside a [try]. *)
Definition execute_select {A} (f : faults) (s : stmt) (params : list Z)
    (query : database → A) : py A :=
  bind_int params;;
  storage f s;;
  d ← get_tables;
  mret (query d).

Definition commit (f : faults) : py unit :=
  storage f Commit;; on_conn commit_conn.

Definition rollback : py unit := on_conn rollback_conn.

(** The largest [sid] in the table, if it has a row. *)
Definition max_rowid (t : gmap Z Sale.row) : option Z :=
  map_fold (λ k _ acc, Some (match acc with Some a => Z.max k a | None => k end)) None t.

(** The [sid] AUTOINCREMENT gives the next row: one more than the largest
    in the table, and more than any handed out before; none is left once
    the largest possible one has been used. *)
Definition next_sid (d : database) : option Z :=
  let top := max_rowid (sale d) in
  if (match top with Some m => max_int64 <=? m | None => false end)
     || (max_int64 <=? sale_seq d)
  then None
  else Some (Z.max (match top with Some m => m + 1 | None => 1 end) (sale_seq d + 1)).

(** [INSERT INTO sale (sdate, mid, bid, sqty, sdiscount, stotal) VALUES (...)] *)
Definition insert_sale (r : Sale.row) (d : database) : string + database :=
  match next_sid d with
  | None => inl "database or disk is full"
  | Some sid =>
      inr {| member := member d; book := book d;
             sale := <[sid := r]> (sale d); sale_seq := sid |}
  end.

(** [UPDATE book SET bstock = bstock - ? WHERE bid = ?].  [add_sale] gets
    here with [0 < sqty <= bstock] only, where the 64-bit subtraction of
    SQLite is the subtraction of [Z]. *)
Definition update_book_stock (sqty : Z) (bid : string) (d : database) : string + database :=
  inr (with_book (alter (λ b, Book.set_bstock (Book.bstock b - sqty) b) bid (book d)) d).

(** [UPDATE sale SET sdiscount = ?, stotal = ? WHERE sid = ?] *)
Definition update_sale_row (sdiscount stotal sid : Z) (d : database) : string + database :=
  inr (with_sale (alter (Sale.set_discount_total sdiscount stotal) sid (sale d)) d).

(** [DELETE FROM sale WHERE sid = ?] *)
Definition delete_sale_row (sid : Z) (d : database) : string + database :=
  inr (with_sale (delete sid (sale d)) d).

(** [SELECT mid FROM member WHERE mid = ?] *)
Definition select_member (mid : string) (d : database) : option string :=
  _ ← member d !! mid; Some mid.

(** [SELECT bprice, bstock FROM book WHERE bid = ?] *)
Definition select_book (bid : string) (d : database) : option (Z * Z) :=
  b ← book d !! bid; Some (Book.bprice b, Book.bstock b).

(** [SELECT s.sqty, b.bprice FROM sale s JOIN book b ON s.bid = b.bid
    WHERE s.sid = ?] *)
Definition select_sale_qty_price (sid : Z) (d : database) : option (Z * Z) :=
  s ← sale d !! sid;
  b ← book d !! Sale.bid s;
  Some (Sale.sqty s, Book.bprice b).

(** The [sid]s of the table in ascending order ([ORDER BY s.sid]). *)
Definition sids (d : database) : list Z :=
  merge_sort Z.le (map fst (map_to_list (sale d))).

(** [SELECT s.sid, m.mname, s.sdate FROM sale s JOIN member m
    ON s.mid = m.mid ORDER BY s.sid] *)
Definition select_sale_list (d : database) : list (Z * string * string) :=
  omap (λ sid,
          s ← sale d !! sid;
          m ← member d !! Sale.mid s;
          Some (sid, Member.mname m, Sale.sdate s))
       (sids d).

(** The query of [print_sale_report] (lines 155-161): sid, sdate, mname,
    btitle, bprice, sqty, sdiscount, stotal. *)
Definition select_sale_report (d : database)
    : list (Z * string * string * string * Z * Z * Z * Z) :=
  omap (λ sid,
          s ← sale d !! sid;
          m ← member d !! Sale.mid s;
          b ← book d !! Sale.bid s;
          Some (sid, Sale.sdate s, Member.mname m, Book.btitle b, Book.bprice b,
                Sale.sqty s, Sale.sdiscount s, Sale.stotal s))
       (sids d).

(** ** The messages *)

Definition msg_invalid_date : string := "錯誤：無效的日期格式，必須為 YYYY-MM-DD".
Definition msg_invalid_reference : string := "錯誤：會員編號或書籍編號無效".
Definition msg_invalid_quantity : string := "錯誤：數量必須為正整數".
Definition msg_insufficient_stock (bstock : Z) : string :=
  "錯誤：書籍庫存不足 (現有庫存: " +:+ Text.str bstock +:+ ")".
Definition msg_invalid_discount : string := "錯誤：折扣金額不能為負數".
Definition msg_sale_added (stotal : Z) : string :=
  "銷售記錄已新增！(銷售總額: " +:+ Text.with_commas stotal +:+ ")".
Definition msg_database_error (text : string) : string :=
  "錯誤：資料庫操作失敗 - " +:+ text.
Definition msg_sale_updated (sid stotal : Z) : string :=
  "=> 銷售編號 " +:+ Text.str sid +:+ " 已更新！(銷售總額: "
  +:+ Text.with_commas stotal +:+ ")".
Definition msg_sale_deleted (sid : Z) : string :=
  "=> 銷售編號 " +:+ Text.str sid +:+ " 已刪除".

(** ** Create (lines 87-145) *)

Definition add_sale (f : faults) (sdate mid bid : string) (sqty sdiscount : Z)
    : py (bool * string) :=
  if negb (validate_date sdate) then mret (false, msg_invalid_date)
  else with_conn (
    d ← get_tables;
    match select_member mid d with
    | None => mret (false, msg_invalid_reference)
    | Some _ =>
    match select_book bid d with
    | None => mret (false, msg_invalid_reference)
    | Some (bprice, bstock) =>
        if sqty <=? 0 then mret (false, msg_invalid_quantity)
        else if sqty >? bstock then mret (false, msg_insufficient_stock bstock)
        else if sdiscount <? 0 then mret (false, msg_invalid_discount)
        else
          let stotal := bprice * sqty - sdiscount in
          try_except
            (execute_dml f InsertSale [sqty; sdiscount; stotal]
               (insert_sale {| Sale.sdate := sdate; Sale.mid := mid; Sale.bid := bid;
                               Sale.sqty := sqty; Sale.sdiscount := sdiscount;
                               Sale.stotal := stotal |});;
             execute_dml f UpdateBookStock [sqty] (update_book_stock sqty bid);;
             commit f;;
             mret (true, msg_sale_added stotal))
            (λ e, rollback;; mret (false, msg_database_error e))
    end end).

(** ** Update: the part of [update_sale] after the prompts (lines 223-242) *)

Definition update_sale_apply (f : faults) (sid sdiscount : Z) : py unit :=
  try_except
    (sale ← execute_select f SelectSale [sid] (select_sale_qty_price sid);
     match sale with
     | Some (sqty, bprice) =>
         let stotal := bprice * sqty - sdiscount in
         execute_dml f UpdateSale [sdiscount; stotal; sid]
           (update_sale_row sdiscount stotal sid);;
         commit f;;
         print (msg_sale_updated sid stotal)
     | None => mret tt
     end)
    (λ e, rollback;; print (msg_database_error e)).

(** ** Delete: the part of [delete_sale] after the prompt (lines 278-284) *)

Definition delete_sale_apply (f : faults) (sid : Z) : py unit :=
  try_except
    (execute_dml f DeleteSale [sid] (delete_sale_row sid);;
     commit f;;
     print (msg_sale_deleted sid))
    (λ e, rollback;; print (msg_database_error e)).

(** What [update_sale] and [delete_sale] do to the connection once the
    prompts have produced their answers: the listing before the prompts
    only reads, and the whole body stands under [with conn]. *)
Definition update_sale_chosen (f : faults) (sid sdiscount : Z) : py unit :=
  with_conn (update_sale_apply f sid sdiscount).

Definition delete_sale_chosen (f : faults) (sid : Z) : py unit :=
  with_conn (delete_sale_apply f sid).

(** ** The two functions with their prompts (lines 179-242 and 244-284)

    [str.strip] and [int] are Python's; [int] gives [None] where Python
    raises [ValueError]. *)

Section Console.

Variable strip : string → string.
Variable int : string → option Z.

Definition newline : string := String "010"%char "".

(** [print("=" * 32)] *)
Definition rule32 : string := "================================".

Definition sale_line (i : nat) (sale : Z * string * string) : string :=
  let '(sid, mname, sdate) := sale in
  Text.str (Z.of_nat (S i)) +:+ ". 銷售編號: " +:+ Text.str sid
  +:+ " - 會員: " +:+ mname +:+ " - 日期: " +:+ sdate.

Fixpoint print_all (lines : list string) : py unit :=
  match lines with
  | [] => mret tt
  | l :: rest => print l;; print_all rest
  end.

Definition print_sale_list (sales : list (Z * string * string)) : py unit :=
  print (newline +:+ "======== 銷售記錄列表 ========");;
  print_all (imap sale_line sales);;
  print rule32.

(** Lines 199-211 and 264-276: the number typed picks a row of the
    list; [None] stands for the plain [return]. *)
Definition choose_sid (prompt : string) (sales : list (Z * string * string))
    : py (option Z) :=
  choice ← input prompt;
  let choice := strip choice in
  if bool_decide (choice = "") then mret None
  else match int choice with
       | None => print "錯誤：請輸入有效的數字";; mret None
       | Some choice =>
           if (choice <? 1) || (choice >? Z.of_nat (length sales))
           then print "錯誤：請輸入有效的數字";; mret None
           else mret (fst ∘ fst <$> sales !! Z.to_nat (choice - 1))
       end.

(** Lines 213-221: ask until a whole number that is not negative comes. *)
Fixpoint read_discount (lines out : list string) : list string * list string * outcome Z :=
  let prompt := "請輸入新的折扣金額：" in
  match lines with
  | [] => ([], (out ++ [prompt])%list, Raise EOFError)
  | line :: rest =>
      match int (strip line) with
      | Some sdiscount =>
          if sdiscount <? 0
          then read_discount rest (out ++ [prompt; "錯誤：折扣金額不能為負數，請重新輸入"])%list
          else (rest, (out ++ [prompt])%list, Return sdiscount)
      | None =>
          read_discount rest (out ++ [prompt; "錯誤：折扣金額必須為整數，請重新輸入"])%list
      end
  end.

Definition ask_discount : py Z := λ w,
  let '(rest, out, r) := read_discount (stdin w) (stdout w) in
  ({| conn := conn w; stdin := rest; stdout := out |}, r).

Definition update_sale (f : faults) : py unit :=
  with_conn (
    d ← get_tables;
    let sales := select_sale_list d in
    match sales with
    | [] => print "無銷售記錄可更新"
    | _ =>
        print_sale_list sales;;
        sid ← choose_sid "請選擇要更新的銷售編號 (輸入數字或按 Enter 取消): " sales;
        match sid with
        | None => mret tt
        | Some sid =>
            sdiscount ← ask_discount;
            update_sale_apply f sid sdiscount
        end
    end).

Definition delete_sale (f : faults) : py unit :=
  with_conn (
    d ← get_tables;
    let sales := select_sale_list d in
    match sales with
    | [] => print "無銷售記錄可刪除"
    | _ =>
        print_sale_list sales;;
        sid ← choose_sid "請選擇要刪除的銷售編號 (輸入數字或按 Enter 取消): " sales;
        match sid with
        | None => mret tt
        | Some sid => delete_sale_apply f sid
        end
    end).

End Console.

(** ** Sequences of engine operations *)

Inductive op :=
  | Create (f : faults) (sdate mid bid : string) (sqty sdiscount : Z)
  | Update (f : faults) (sid sdiscount : Z)
  | Delete (f : faults) (sid : Z).

Definition run_op (o : op) : py unit :=
  match o with
  | Create f sdate mid bid sqty sdiscount =>
      add_sale f sdate mid bid sqty sdiscount;; mret tt
  | Update f sid sdiscount => update_sale_chosen f sid sdiscount
  | Delete f sid => delete_sale_chosen f sid
  end.

(** One operation after the other; an exception nobody catches ends the
    program. *)
Fixpoint run_ops (ops : list op) : py unit :=
  match ops with
  | [] => mret tt
  | o :: rest => run_op o;; run_ops rest
  end.

(** Every book has a stock that is not negative. *)
Definition stock_nonneg (d : database) : Prop :=
  map_Forall (λ _ b, 0 ≤ Book.bstock b) (book d).

(** ** The seed data of [initialize_db] (lines 52-66) *)

Definition seed_member : gmap string Member.row :=
  <["M001" := {| Member.mname := "Alice"; Member.mphone := "0912-345678";
                 Member.memail := Some "alice@example.com" |}]>
  (<["M002" := {| Member.mname := "Bob"; Member.mphone := "0923-456789";
                  Member.memail := Some "bob@example.com" |}]>
  (<["M003" := {| Member.mname := "Cathy"; Member.mphone := "0934-567890";
                  Member.memail := Some "cathy@example.com" |}]> ∅)).

Definition seed_book : gmap string Book.row :=
  <["B001" := {| Book.btitle := "Python Programming"; Book.bprice := 600; Book.bstock := 50 |}]>
  (<["B002" := {| Book.btitle := "Data Science Basics"; Book.bprice := 800; Book.bstock := 30 |}]>
  (<["B003" := {| Book.btitle := "Machine Learning Guide"; Book.bprice := 1200; Book.bstock := 20 |}]> ∅)).

Definition seed_row (sdate mid bid : string) (sqty sdiscount stotal : Z) : Sale.row :=
  {| Sale.sdate := sdate; Sale.mid := mid; Sale.bid := bid;
     Sale.sqty := sqty; Sale.sdiscount := sdiscount; Sale.stotal := stotal |}.

Definition seed_sale : gmap Z Sale.row :=
  <[1 := seed_row "2024-01-15" "M001" "B001" 2 100 1100]>
  (<[2 := seed_row "2024-01-16" "M002" "B002" 1 50 750]>
  (<[3 := seed_row "2024-01-17" "M001" "B003" 3 200 3400]>
  (<[4 := seed_row "2024-01-18" "M003" "B001" 1 0 600]> ∅))).

Definition seed_db : database :=
  {| member := seed_member; book := seed_book; sale := seed_sale; sale_seq := 4 |}.

(** A connection on which no transaction is open, and a quiet console. *)
Definition idle (d : database) : connection := {| tables := d; journal := None |}.
Definition start (d : database) : world := {| conn := idle d; stdin := []; stdout := [] |}.

(** ** Vocabulary for the statements *)

(** The five checks of [add_sale] after the date all pass; [b] is the row
    of the book. *)
Definition valid_sale (d : database) (sdate mid bid : string) (sqty sdiscount : Z)
    (b : Book.row) : Prop :=
  validate_date sdate = true
  ∧ is_Some (member d !! mid)
  ∧ book d !! bid = Some b
  ∧ 0 < sqty ≤ Book.bstock b
  ∧ 0 ≤ sdiscount.

Definition new_sale (sdate mid bid : string) (sqty sdiscount : Z) (b : Book.row) : Sale.row :=
  {| Sale.sdate := sdate; Sale.mid := mid; Sale.bid := bid;
     Sale.sqty := sqty; Sale.sdiscount := sdiscount;
     Sale.stotal := Book.bprice b * sqty - sdiscount |}.

(** The world after a create that was undone. *)
Definition undone (w : world) : world :=
  set_conn (rollback_conn (begin_implicitly (conn w))) w.

(** The world after a create that was turned down by a check. *)
Definition turned_down (sdate : string) (w : world) : world :=
  if validate_date sdate then set_conn (commit_conn (conn w)) w else w.

(** A create fails when it does not return [(True, _)]: it returns
    [(False, _)] or it raises. *)
Definition failed (r : outcome (bool * string)) : Prop :=
  match r with
  | Return (true, _) => False
  | _ => True
  end.

(** The storage fails on the stock update, after the sale row went in. *)
Definition stock_update_fails : faults := λ s,
  match s with
  | UpdateBookStock => Some "disk I/O error"
  | _ => None
  end.

(** The price of a book changed behind the back of the engine. *)
Definition reprice (bid : string) (bprice : Z) (d : database) : database :=
  with_book (alter (λ b, {| Book.btitle := Book.btitle b; Book.bprice := bprice;
                            Book.bstock := Book.bstock b |}) bid (book d)) d.

(** ** The rest of the program *)

(** *** Opening the file and seeding it (lines 9-68) *)

(** [connect_db]: a connection on the tables of the file, with no
    transaction open. *)
Definition connect_db (file : database) : connection := idle file.

Definition empty_db : database :=
  {| member := ∅; book := ∅; sale := ∅; sale_seq := 0 |}.

Definition with_member (m : gmap string Member.row) (d : database) : database :=
  {| member := m; book := book d; sale := sale d; sale_seq := sale_seq d |}.

(** One row of [INSERT OR IGNORE INTO t VALUES ...] on a table with a
    TEXT primary key: a row whose key is taken is left out. *)
Definition insert_or_ignore {A} (k : string) (v : A) (t : gmap string A) : gmap string A :=
  match t !! k with
  | Some _ => t
  | None => <[k := v]> t
  end.

Fixpoint insert_or_ignore_all {A} (rows : list (string * A)) (t : gmap string A)
    : gmap string A :=
  match rows with
  | [] => t
  | (k, v) :: rest => insert_or_ignore_all rest (insert_or_ignore k v t)
  end.

Definition seed_member_rows : list (string * Member.row) :=
  [("M001", {| Member.mname := "Alice"; Member.mphone := "0912-345678";
               Member.memail := Some "alice@example.com" |});
   ("M002", {| Member.mname := "Bob"; Member.mphone := "0923-456789";
               Member.memail := Some "bob@example.com" |});
   ("M003", {| Member.mname := "Cathy"; Member.mphone := "0934-567890";
               Member.memail := Some "cathy@example.com" |})].

Definition seed_book_rows : list (string * Book.row) :=
  [("B001", {| Book.btitle := "Python Programming"; Book.bprice := 600; Book.bstock := 50 |});
   ("B002", {| Book.btitle := "Data Science Basics"; Book.bprice := 800; Book.bstock := 30 |});
   ("B003", {| Book.btitle := "Machine Learning Guide"; Book.bprice := 1200;
               Book.bstock := 20 |})].

Definition seed_sale_rows : list Sale.row :=
  [seed_row "2024-01-15" "M001" "B001" 2 100 1100;
   seed_row "2024-01-16" "M002" "B002" 1 50 750;
   seed_row "2024-01-17" "M001" "B003" 3 200 3400;
   seed_row "2024-01-18" "M003" "B001" 1 0 600].

(** [INSERT OR IGNORE INTO sale (sdate, ...) VALUES ...] with several
    rows: no [sid] is given, so no row can clash and each one gets the
    next [sid]; when the [sid]s run out the statement fails as a whole. *)
Fixpoint insert_sales (rows : list Sale.row) (d : database) : string + database :=
  match rows with
  | [] => inr d
  | r :: rest =>
      match insert_sale r d with
      | inl text => inl text
      | inr d' => insert_sales rest d'
      end
  end.

(** [cursor.executescript(...)] (lines 27-67): an open transaction is
    committed first, then every statement of the script is run and kept
    on its own.  The three tables of the model always exist, so the
    [CREATE TABLE IF NOT EXISTS] statements change nothing. *)
Definition run_seed_script : py unit :=
  on_conn commit_conn;;
  d ← get_tables;
  let d1 := with_member (insert_or_ignore_all seed_member_rows (member d)) d in
  let d2 := with_book (insert_or_ignore_all seed_book_rows (book d1)) d1 in
  on_conn (λ _, idle d2);;
  match insert_sales seed_sale_rows d2 with
  | inl text => raise (SqliteError text)
  | inr d3 => on_conn (λ _, idle d3)
  end.

Definition initialize_db : py unit :=
  with_conn (run_seed_script;; on_conn commit_conn).

(** *** The report (lines 147-177) *)

Fixpoint repeat_char (c : ascii) (n : nat) : string :=
  match n with
  | O => ""
  | S n => String c (repeat_char c n)
  end.

Definition tab : string := String "009"%char "".

Definition report_entry (i : nat) (sale : Z * string * string * string * Z * Z * Z * Z)
    : list string :=
  let '(sid, sdate, mname, btitle, bprice, sqty, sdiscount, stotal) := sale in
  [ newline +:+ "銷售 #" +:+ Text.str (Z.of_nat (S i));
    "銷售編號: " +:+ Text.str sid;
    "銷售日期: " +:+ sdate;
    "會員姓名: " +:+ mname;
    "書籍標題: " +:+ btitle;
    repeat_char "-" 50;
    "單價" +:+ tab +:+ "數量" +:+ tab +:+ "折扣" +:+ tab +:+ "小計";
    repeat_char "-" 50;
    Text.with_commas bprice +:+ tab +:+ Text.str sqty +:+ tab
      +:+ Text.with_commas sdiscount +:+ tab +:+ Text.with_commas stotal;
    repeat_char "-" 50;
    "銷售總額: " +:+ Text.with_commas stotal;
    repeat_char "=" 50 ].

Definition print_sale_report : py unit :=
  with_conn (
    d ← get_tables;
    let sales := select_sale_report d in
    print (newline +:+ "==================== 銷售報表 ====================");;
    print_all (concat (imap report_entry sales))).

(** *** The menu (lines 286-350) *)

Section Program.

Variable strip : string → string.
Variable int : string → option Z.

(** What the storage layer does in each round of the menu. *)
Variable storage_in : nat → faults.

(** The two loops of lines 309-327: ask until [int] succeeds with a
    number that is not [bad]. *)
Fixpoint read_number (prompt : string) (bad : Z → bool) (msg_bad msg_not_int : string)
    (lines out : list string) : list string * list string * outcome Z :=
  match lines with
  | [] => ([], (out ++ [prompt])%list, Raise EOFError)
  | line :: rest =>
      match int (strip line) with
      | Some n =>
          if bad n
          then read_number prompt bad msg_bad msg_not_int rest (out ++ [prompt; msg_bad])%list
          else (rest, (out ++ [prompt])%list, Return n)
      | None =>
          read_number prompt bad msg_bad msg_not_int rest (out ++ [prompt; msg_not_int])%list
      end
  end.

Definition ask_number (prompt : string) (bad : Z → bool) (msg_bad msg_not_int : string)
    : py Z := λ w,
  let '(rest, out, r) := read_number prompt bad msg_bad msg_not_int (stdin w) (stdout w) in
  ({| conn := conn w; stdin := rest; stdout := out |}, r).

(** Choice 1 (lines 305-330). *)
Definition add_sale_dialog (f : faults) : py unit :=
  sdate ← input "請輸入銷售日期 (YYYY-MM-DD)：";
  mid ← input "請輸入會員編號：";
  bid ← input "請輸入書籍編號：";
  sqty ← ask_number "請輸入購買數量：" (λ n, n <=? 0)
           "錯誤：數量必須為正整數，請重新輸入" "錯誤：數量必須為整數，請重新輸入";
  sdiscount ← ask_number "請輸入折扣金額：" (λ n, n <? 0)
                "錯誤：折扣金額不能為負數，請重新輸入" "錯誤：折扣金額必須為整數，請重新輸入";
  '(success, message) ← add_sale f (strip sdate) (strip mid) (strip bid) sqty sdiscount;
  print ("=> " +:+ message).

Definition menu : list string :=
  [ newline +:+ "***************選單***************";
    "1. 新增銷售記錄";
    "2. 顯示銷售報表";
    "3. 更新銷售記錄";
    "4. 刪除銷售記錄";
    "5. 離開";
    "**********************************" ].

(** What one round of the loop is asked to do. *)
Inductive request :=
  | Leave
  | Run (body : py unit).

Definition dispatch (round : nat) (choice : string) : request :=
  if bool_decide (choice = "") then Leave
  else if bool_decide (choice = "1") then Run (add_sale_dialog (storage_in round))
  else if bool_decide (choice = "2") then Run print_sale_report
  else if bool_decide (choice = "3") then Run (update_sale strip int (storage_in round))
  else if bool_decide (choice = "4") then Run (delete_sale strip int (storage_in round))
  else if bool_decide (choice = "5") then Leave
  else Run (print "=> 請輸入有效的選項（1-5）").

(** The [while True] of [main].  Every round reads a line, so a number
    of rounds above the number of lines typed is never used up; [None]
    stands for a loop that was cut short. *)
Fixpoint menu_loop (rounds : nat) (round : nat) (w : world) : option (world * outcome unit) :=
  match rounds with
  | O => None
  | S rounds =>
      match (print_all menu;; input "請選擇操作項目(Enter 離開)：") w with
      | (w1, Raise e) => Some (w1, Raise e)
      | (w1, Return choice) =>
          match dispatch round (strip choice) with
          | Leave => Some (w1, Return tt)
          | Run body =>
              match body w1 with
              | (w2, Raise e) => Some (w2, Raise e)
              | (w2, Return _) => menu_loop rounds (S round) w2
              end
          end
      end
  end.

(** [main] on a file and the lines typed; [conn.close()] gives up a
    transaction that is still open. *)
Definition main (file : database) (typed : list string) : option (world * outcome unit) :=
  let w0 := {| conn := connect_db file; stdin := typed; stdout := [] |} in
  match initialize_db w0 with
  | (w1, Raise e) => Some (w1, Raise e)
  | (w1, Return _) =>
      match menu_loop (S (length typed)) 0 w1 with
      | Some (w2, Return _) => Some (set_conn (rollback_conn (conn w2)) w2, Return tt)
      | r => r
      end
  end.

End Program.

(** Stand-ins for [str.strip] and [int] on texts of plain digits without
    blanks around them, for running examples. *)
Definition keep : string → string := λ s, s.

Fixpoint digits_value (acc : Z) (s : string) : option Z :=
  match s with
  | EmptyString => Some acc
  | String c rest =>
      if digit c then digits_value (10 * acc + digit_val c) rest else None
  end.

Definition plain_int (s : string) : option Z :=
  match s with
  | EmptyString => None
  | String "-" (String c rest) => Z.opp <$> digits_value 0 (String c rest)
  | _ => digits_value 0 s
  end.

(** *** Vocabulary for the statements about the whole engine *)

(** What one operation can do to the tables: nothing; one sale put in
    under the next [sid] with the stock of its book lowered; the discount
    and the total of one sale set; one sale taken out.  [P] is what is
    known of the discount of an update. *)
Inductive change (P : Z → Prop) (d : database) : database → Prop :=
  | change_nothing : change P d d
  | change_create sdate mid bid sqty sdiscount b sid :
      valid_sale d sdate mid bid sqty sdiscount b →
      next_sid d = Some sid →
      change P d
        {| member := member d;
           book := <[bid := Book.set_bstock (Book.bstock b - sqty) b]> (book d);
           sale := <[sid := new_sale sdate mid bid sqty sdiscount b]> (sale d);
           sale_seq := sid |}
  | change_update sid sdiscount s b :
      sale d !! sid = Some s →
      book d !! Sale.bid s = Some b →
      P sdiscount →
      change P d
        (with_sale (<[sid := Sale.set_discount_total sdiscount
                               (Book.bprice b * Sale.sqty s - sdiscount) s]> (sale d)) d)
  | change_delete sid :
      change P d (with_sale (delete sid (sale d)) d).

(** Every total is the price the book has now times the quantity minus
    the discount. *)
Definition totals_hold (d : database) : Prop :=
  ∀ sid s b, sale d !! sid = Some s → book d !! Sale.bid s = Some b →
    Sale.stotal s = Book.bprice b * Sale.sqty s - Sale.sdiscount s.

(** Every sale names a member and a book that exist. *)
Definition references_hold (d : database) : Prop :=
  ∀ sid s, sale d !! sid = Some s →
    is_Some (member d !! Sale.mid s) ∧ is_Some (book d !! Sale.bid s).

(** Every sale has a positive quantity and a discount that is not
    negative. *)
Definition amounts_hold (d : database) : Prop :=
  ∀ sid s, sale d !! sid = Some s → 0 < Sale.sqty s ∧ 0 ≤ Sale.sdiscount s.

(** Every quantity is positive. *)
Definition quantities_hold (d : database) : Prop :=
  ∀ sid s, sale d !! sid = Some s → 0 < Sale.sqty s.

(** No [sid] in the table is above the AUTOINCREMENT counter. *)
Definition sids_counted (d : database) : Prop :=
  ∀ sid s, sale d !! sid = Some s → sid ≤ sale_seq d.

(** The books of the seed data, where the file has them, have the price
    the seed data gives them. *)
Definition seed_prices (d : database) : Prop :=
  ∀ k v b, (k, v) ∈ seed_book_rows → book d !! k = Some b →
    Book.bprice b = Book.bprice v.

(** What the program keeps true of its file. *)
Definition sound (d : database) : Prop :=
  stock_nonneg d ∧ totals_hold d ∧ references_hold d ∧ amounts_hold d
  ∧ sids_counted d ∧ seed_prices d.

(** The members are never written, no book comes or goes, and the only
    thing that changes in a book is its stock. *)
Definition books_kept (d d' : database) : Prop :=
  member d' = member d
  ∧ ∀ k, match book d !! k, book d' !! k with
         | Some b, Some b' =>
             Book.btitle b' = Book.btitle b ∧ Book.bprice b' = Book.bprice b
         | None, None => True
         | _, _ => False
         end.

(** The seed data with every sale id used up. *)
Definition seed_db_full : database :=
  {| member := seed_member; book := seed_book; sale := seed_sale; sale_seq := max_int64 |}.

(** The sale id of a row of the report. *)
Definition sid_of_report (row : Z * string * string * string * Z * Z * Z * Z) : Z :=
  row.1.1.1.1.1.1.1.

(** *** Vocabulary for the statements about the menu *)

(** How a piece of the program may end: it never gives lines back to the
    input, and it raises [EOFError] only when the input is used up. *)
Definition ends_well {A} (r : outcome A) (w' : world) : Prop :=
  match r with
  | Raise EOFError => stdin w' = []
  | _ => True
  end.

Definition mild {A} (m : py A) : Prop :=
  ∀ w, (length (stdin (m w).1) ≤ length (stdin w))%nat ∧ ends_well (m w).2 (m w).1.

(** The same, and no [sqlite3.Error] gets out of it. *)
Definition polite {A} (m : py A) : Prop :=
  ∀ w, (length (stdin (m w).1) ≤ length (stdin w))%nat
       ∧ ends_well (m w).2 (m w).1
       ∧ ∀ text, (m w).2 ≠ Raise (SqliteError text).

(** It does not touch the connection. *)
Definition calm {A} (m : py A) : Prop := ∀ w, conn (m w).1 = conn w.

(** Started with no transaction open it leaves none open, and what it
    does to the tables is a chain of the four changes, every discount set
    by an update being not negative. *)
Definition careful {A} (m : py A) : Prop :=
  ∀ w, journal (conn w) = None →
       journal (conn (m w).1) = None
       ∧ rtc (change (λ x, 0 ≤ x)) (tables (conn w)) (tables (conn (m w).1)).

(** A row that can be put into the sale table without harm. *)
Definition row_fine (d : database) (r : Sale.row) : Prop :=
  is_Some (member d !! Sale.mid r)
  ∧ (∃ b, book d !! Sale.bid r = Some b
          ∧ Sale.stotal r = Book.bprice b * Sale.sqty r - Sale.sdiscount r)
  ∧ 0 < Sale.sqty r ∧ 0 ≤ Sale.sdiscount r.

Section Lines.

Variable strip : string → string.
Variable int : string → option Z.

(** A line the loop of [update_sale] asks again about. *)
Definition no_discount (line : string) : Prop :=
  match int (strip line) with
  | Some n => n < 0
  | None => True
  end.

(** A line a loop of [main] asks again about. *)
Definition no_number (bad : Z → bool) (line : string) : Prop :=
  match int (strip line) with
  | Some n => bad n = true
  | None => True
  end.

End Lines.

(** A text with its commas taken out. *)
Definition no_comma (c : ascii) : bool := negb (Ascii.eqb c ",").

Definition without_commas (s : string) : string :=
  string_of_list_ascii (List.filter no_comma (list_ascii_of_string s)).

(** * Properties *)

(** ** The date validator *)

(** The five dates the specification lists. *)
Lemma validate_date_examples :
  validate_date "2024-01-15" = true
  ∧ validate_date "2024-1-15" = false
  ∧ validate_date "2024/01/15" = false
  ∧ validate_date "2024-02-30" = false
  ∧ validate_date "15-01-2024" = false.
Proof. repeat split; reflexivity. Qed.

(** C4 — the validator is meant to accept exactly the real calendar dates
    written YYYY-MM-DD, but it also accepts a day written as a blank and
    one digit: ["2024-01- 5"] has ten characters and two [-], and
    [strptime] reads its day as 5, so [validate_date] returns [True] on a
    text that is not of the form YYYY-MM-DD. *)
Theorem validate_date_accepts_blank_day :
  let s := "2024-01- 5" in
  String.length s = 10%nat
  ∧ count "-" s = 2%nat
  ∧ strptime s = Some (2024, 1, 5)
  ∧ validate_date s = true
  ∧ spec_is_valid_date s = false.
Proof. repeat split; reflexivity. Qed.

(** ** What the validator accepts, exactly *)

Section DateFacts.

Lemma is_char c l : bool_decide (c = l) = (code c =? code l)%nat.
Proof.
  apply eq_true_iff_eq. rewrite bool_decide_eq_true, Nat.eqb_eq. unfold code. split.
  - by intros ->.
  - intros H. by rewrite <- (ascii_nat_embedding c), H, ascii_nat_embedding.
Qed.

Lemma between_spec lo hi c :
  between lo hi c = true ↔ (code lo ≤ code c ≤ code hi)%nat.
Proof. unfold between, code. rewrite andb_true_iff, !Nat.leb_le. tauto. Qed.

#[local] Arguments between : simpl never.
#[local] Arguments digit : simpl never.

(** Decide the tests on characters that are known. *)
Ltac known_chars :=
  repeat match goal with
    | |- context [bool_decide (?a = ?b)] =>
        first [ rewrite (bool_decide_eq_true_2 (a = b)) by done
              | rewrite (bool_decide_eq_false_2 (a = b)) by done ]
    | |- context [between ?lo ?hi (Ascii ?b0 ?b1 ?b2 ?b3 ?b4 ?b5 ?b6 ?b7)] =>
        let v := eval vm_compute in (between lo hi (Ascii b0 b1 b2 b3 b4 b5 b6 b7)) in
        change (between lo hi (Ascii b0 b1 b2 b3 b4 b5 b6 b7)) with v
    | |- context [digit (Ascii ?b0 ?b1 ?b2 ?b3 ?b4 ?b5 ?b6 ?b7)] =>
        let v := eval vm_compute in (digit (Ascii b0 b1 b2 b3 b4 b5 b6 b7)) in
        change (digit (Ascii b0 b1 b2 b3 b4 b5 b6 b7)) with v
    end.

(** Split on a test on a character that is not known. *)
Ltac split_char :=
  match goal with
  | |- context [bool_decide (?c = ?l)] =>
      destruct (decide (c = l)) as [->|?]; known_chars
  | |- context [between ?lo ?hi ?c] => destruct (between lo hi c) eqn:?
  | |- context [digit ?c] => destruct (digit c) eqn:?
  end.

Lemma re_Y_cons y1 y2 y3 y4 rest :
  re_Y (String y1 (String y2 (String y3 (String y4 rest)))) =
    if digit y1 && digit y2 && digit y3 && digit y4
    then [(String y1 (String y2 (String y3 (String y4 ""))), rest)] else [].
Proof. unfold re_Y, cat, one. repeat (split_char; simpl; try done). Qed.

Lemma lit_cons c x rest :
  lit c (String x rest) = if bool_decide (x = c) then [(String x "", rest)] else [].
Proof. done. Qed.

Lemma re_m_cons m1 m2 rest :
  re_m (String m1 (String m2 rest)) =
    ((if month2 m1 m2 then [(String m1 (String m2 ""), rest)] else [])
     ++ (if between "1" "9" m1 then [(String m1 "", String m2 rest)] else []))%list.
Proof.
  unfold re_m, month2, alt, cat, lit, one.
  repeat (split_char; simpl; try done).
Qed.

Lemma re_d_cons d1 d2 rest :
  re_d (String d1 (String d2 rest)) =
    ((if day2 d1 d2 then [(String d1 (String d2 ""), rest)] else [])
     ++ (if between "1" "9" d1 then [(String d1 "", String d2 rest)] else [])
     ++ (if blank2 d1 d2 then [(String d1 (String d2 ""), rest)] else []))%list.
Proof.
  unfold re_d, day2, blank2, alt, cat, lit, one.
  repeat (split_char; simpl; try done).
Qed.

Lemma month2_no_dash m1 : month2 m1 "-" = false.
Proof. unfold month2. repeat (split_char; simpl; try done). Qed.

#[local] Arguments lit : simpl never.
#[local] Arguments re_Y : simpl never.
#[local] Arguments re_m : simpl never.
#[local] Arguments re_d : simpl never.

Lemma blank2_no_digit d1 d2 : between "1" "9" d1 = true → blank2 d1 d2 = false.
Proof.
  unfold blank2. intros H.
  destruct (decide (d1 = " "%char)) as [->|?]; [done|].
  by rewrite (bool_decide_eq_false_2 (d1 = " "%char)).
Qed.

(** [strptime] on a text of ten characters. *)
Lemma strptime_ten y1 y2 y3 y4 s1 m1 m2 s2 d1 d2 :
  strptime (ten y1 y2 y3 y4 s1 m1 m2 s2 d1 d2) =
    if digit y1 && digit y2 && digit y3 && digit y4
       && bool_decide (s1 = "-"%char) && month2 m1 m2
       && bool_decide (s2 = "-"%char) && (day2 d1 d2 || blank2 d1 d2)
    then
      let y := int_of_group (String y1 (String y2 (String y3 (String y4 "")))) in
      let m := int_of_group (String m1 (String m2 "")) in
      let d := int_of_group (String d1 (String d2 "")) in
      if date_exists y m d then Some (y, m, d) else None
    else None.
Proof.
  unfold strptime, re_date, ten. rewrite re_Y_cons.
  destruct (digit y1 && digit y2 && digit y3 && digit y4); [|done].
  simpl. rewrite lit_cons.
  destruct (decide (s1 = "-"%char)) as [->|?]; known_chars; [|done].
  simpl. rewrite re_m_cons.
  destruct (month2 m1 m2) eqn:Hm; simpl.
  - rewrite lit_cons.
    destruct (decide (s2 = "-"%char)) as [->|?]; known_chars; simpl.
    + rewrite re_d_cons.
      destruct (day2 d1 d2) eqn:Hd; simpl; [done|].
      destruct (between "1" "9" d1) eqn:Hd1; simpl; [by rewrite blank2_no_digit|].
      destruct (blank2 d1 d2) eqn:Hb; simpl; [done|].
      destruct (between "1" "9" m1); simpl; [|done].
      rewrite lit_cons.
      destruct (decide (m2 = "-"%char)) as [->|?]; known_chars; simpl; [|done].
      by rewrite month2_no_dash in Hm.
    + destruct (between "1" "9" m1); simpl; [|done].
      rewrite lit_cons.
      destruct (decide (m2 = "-"%char)) as [->|?]; known_chars; simpl; [|done].
      by rewrite month2_no_dash in Hm.
  - destruct (between "1" "9" m1); simpl; [|done].
    rewrite lit_cons.
    destruct (decide (m2 = "-"%char)) as [->|?]; known_chars; simpl; [|done].
    rewrite re_d_cons.
    destruct (day2 s2 d1); simpl; [done|].
    destruct (between "1" "9" s2); simpl; [done|].
    by destruct (blank2 s2 d1).
Qed.

(** The tests on characters as arithmetic on their codes. *)
Ltac to_codes :=
  unfold month2, day2, blank2, digit, between, digit_val in *;
  rewrite ?is_char in *;
  repeat match goal with
    | |- context [nat_of_ascii ?c] => change (nat_of_ascii c) with (code c)
    end;
  repeat match goal with
    | |- context [code (Ascii ?b0 ?b1 ?b2 ?b3 ?b4 ?b5 ?b6 ?b7)] =>
        let v := eval vm_compute in (code (Ascii b0 b1 b2 b3 b4 b5 b6 b7)) in
        change (code (Ascii b0 b1 b2 b3 b4 b5 b6 b7)) with v
    end.

Ltac compare_all :=
  repeat match goal with
    | |- context [(?a <=? ?b)%nat] => destruct (Nat.leb_spec a b); try lia
    | |- context [(?a =? ?b)%nat] => destruct (Nat.eqb_spec a b); try lia
    | |- context [(?a <=? ?b)%Z] => destruct (Z.leb_spec a b); try lia
    end;
  simpl; try reflexivity; try lia.

Lemma month2_spec m1 m2 :
  month2 m1 m2 =
    digit m1 && digit m2
    && (1 <=? 10 * digit_val m1 + digit_val m2) && (10 * digit_val m1 + digit_val m2 <=? 12).
Proof. to_codes. generalize (code m1) (code m2). intros a b. compare_all. Qed.

Lemma day2_spec d1 d2 :
  day2 d1 d2 =
    digit d1 && digit d2
    && (1 <=? 10 * digit_val d1 + digit_val d2) && (10 * digit_val d1 + digit_val d2 <=? 31).
Proof. to_codes. generalize (code d1) (code d2). intros a b. compare_all. Qed.

Lemma digit_no_dash c : digit c = true → bool_decide (c = "-"%char) = false.
Proof.
  intros H. destruct (decide (c = "-"%char)) as [->|?]; [done|].
  by apply bool_decide_eq_false_2.
Qed.

Lemma int_of_group_4 a b c d :
  digit a = true → digit b = true → digit c = true → digit d = true →
  int_of_group (String a (String b (String c (String d ""))))
  = 1000 * digit_val a + 100 * digit_val b + 10 * digit_val c + digit_val d.
Proof.
  intros Ha Hb Hc Hd. unfold int_of_group; simpl. rewrite Ha, Hb, Hc, Hd.
  unfold digit_val. lia.
Qed.

Lemma int_of_group_2 a b :
  digit a = true → digit b = true →
  int_of_group (String a (String b "")) = 10 * digit_val a + digit_val b.
Proof.
  intros Ha Hb. unfold int_of_group; simpl. rewrite Ha, Hb. unfold digit_val. lia.
Qed.

Lemma int_of_group_blank b :
  digit b = true → int_of_group (String " " (String b "")) = digit_val b.
Proof. intros Hb. unfold int_of_group; simpl. rewrite Hb. unfold digit_val. lia. Qed.

Lemma date_exists_ranges y m d : date_exists y m d = true → 1 ≤ m ≤ 12 ∧ 1 ≤ d ≤ 31.
Proof.
  unfold date_exists, days_in_month. rewrite !andb_true_iff, !Z.leb_le.
  intros (((((? & ?) & ?) & ?) & ?) & Hd).
  repeat case_match; lia.
Qed.

(** The validator on a text of ten characters. *)
Lemma validate_date_ten y1 y2 y3 y4 s1 m1 m2 s2 d1 d2 :
  validate_date (ten y1 y2 y3 y4 s1 m1 m2 s2 d1 d2) =
    digit y1 && digit y2 && digit y3 && digit y4
    && bool_decide (s1 = "-"%char) && month2 m1 m2
    && bool_decide (s2 = "-"%char) && (day2 d1 d2 || blank2 d1 d2)
    && date_exists (year_of y1 y2 y3 y4) (two m1 m2)
         (if blank2 d1 d2 then digit_val d2 else two d1 d2).
Proof.
  unfold validate_date. rewrite strptime_ten.
  change (String.length (ten y1 y2 y3 y4 s1 m1 m2 s2 d1 d2)) with 10%nat.
  change (negb (10 =? 10)%nat) with false. rewrite orb_false_l.
  destruct (digit y1) eqn:Hy1; [|cbn [andb]; by destruct (negb _)].
  destruct (digit y2) eqn:Hy2; [|cbn [andb]; by destruct (negb _)].
  destruct (digit y3) eqn:Hy3; [|cbn [andb]; by destruct (negb _)].
  destruct (digit y4) eqn:Hy4; [|cbn [andb]; by destruct (negb _)].
  destruct (decide (s1 = "-"%char)) as [->|?]; known_chars; [|cbn [andb]; by destruct (negb _)].
  destruct (month2 m1 m2) eqn:Hm; [|cbn [andb]; by destruct (negb _)].
  destruct (decide (s2 = "-"%char)) as [->|?]; known_chars; [|cbn [andb]; by destruct (negb _)].
  destruct (day2 d1 d2 || blank2 d1 d2) eqn:Hd; [|cbn [andb]; by destruct (negb _)].
  cbn [andb]. cbv zeta.
  pose proof Hm as Hm'. rewrite month2_spec in Hm'.
  apply andb_true_iff in Hm' as [Hm' _]. apply andb_true_iff in Hm' as [Hm' _].
  apply andb_true_iff in Hm' as [Hm1 Hm2].
  assert (digit d2 = true
          ∧ bool_decide (d1 = "-"%char) = false
          ∧ int_of_group (String d1 (String d2 ""))
            = (if blank2 d1 d2 then digit_val d2 else two d1 d2)) as (Hd2 & Hd1 & Hday).
  { destruct (blank2 d1 d2) eqn:Hb.
    - unfold blank2 in Hb. apply andb_true_iff in Hb as [Hb1 Hb2].
      apply bool_decide_eq_true in Hb1 as ->.
      assert (digit d2 = true) as Hd2.
      { revert Hb2. to_codes. generalize (code d2). intros a. compare_all. }
      split_and!; [done|done|]. by apply int_of_group_blank.
    - rewrite orb_false_r in Hd. rewrite day2_spec in Hd.
      apply andb_true_iff in Hd as [Hd _]. apply andb_true_iff in Hd as [Hd _].
      apply andb_true_iff in Hd as [Hd1 Hd2].
      split_and!; [done|by apply digit_no_dash|]. by apply int_of_group_2. }
  assert (count "-" (ten y1 y2 y3 y4 "-" m1 m2 "-" d1 d2) = 2%nat) as ->.
  { unfold ten, count.
    rewrite (digit_no_dash y1), (digit_no_dash y2), (digit_no_dash y3), (digit_no_dash y4),
      (digit_no_dash m1), (digit_no_dash m2), (digit_no_dash d2), Hd1 by done.
    by known_chars. }
  change (negb (2 =? 2)%nat) with false. cbn [orb].
  rewrite int_of_group_4, int_of_group_2, Hday by done.
  fold (year_of y1 y2 y3 y4) (two m1 m2).
  by destruct (date_exists _ _ _).
Qed.

(** The reading of the specification on a text of ten characters. *)
Lemma spec_is_valid_date_ten y1 y2 y3 y4 s1 m1 m2 s2 d1 d2 :
  spec_is_valid_date (ten y1 y2 y3 y4 s1 m1 m2 s2 d1 d2) =
    digit y1 && digit y2 && digit y3 && digit y4
    && bool_decide (s1 = "-"%char) && month2 m1 m2
    && bool_decide (s2 = "-"%char) && day2 d1 d2
    && date_exists (year_of y1 y2 y3 y4) (two m1 m2) (two d1 d2).
Proof.
  unfold spec_is_valid_date, ten. cbn [forallb].
  fold (year_of y1 y2 y3 y4) (two m1 m2) (two d1 d2).
  rewrite month2_spec, day2_spec. fold (two m1 m2) (two d1 d2).
  destruct (date_exists _ _ _) eqn:He.
  - apply date_exists_ranges in He as [[? ?] [? ?]].
    destruct (Z.leb_spec 1 (two m1 m2)); [|lia].
    destruct (Z.leb_spec (two m1 m2) 12); [|lia].
    destruct (Z.leb_spec 1 (two d1 d2)); [|lia].
    destruct (Z.leb_spec (two d1 d2) 31); [|lia].
    destruct (digit y1), (digit y2), (digit y3), (digit y4), (digit m1), (digit m2),
      (digit d1), (digit d2), (bool_decide (s1 = "-"%char)),
      (bool_decide (s2 = "-"%char)); reflexivity.
  - by rewrite !andb_false_r.
Qed.

Lemma length_ten s :
  String.length s = 10%nat →
  ∃ y1 y2 y3 y4 s1 m1 m2 s2 d1 d2, s = ten y1 y2 y3 y4 s1 m1 m2 s2 d1 d2.
Proof.
  intros H. do 10 (destruct s as [|? s]; [done|]). destruct s; [|done].
  by repeat eexists.
Qed.

Lemma spec_is_valid_date_length s :
  spec_is_valid_date s = true → String.length s = 10%nat.
Proof.
  unfold spec_is_valid_date. do 10 (destruct s as [|? s]; [done|]). by destruct s.
Qed.

Lemma unblank_length s : String.length (unblank s) = String.length s.
Proof.
  unfold unblank. do 10 (destruct s as [|? s]; [done|]). destruct s; [|done].
  by case_match.
Qed.

(** [validate_date] accepts the dates of the form YYYY-MM-DD that the
    calendar has, and the same with a blank in place of the zero of a day
    from 1 to 9, and nothing else. *)
Lemma validate_date_accepts s :
  validate_date s = spec_is_valid_date (unblank s).
Proof.
  destruct (decide (String.length s = 10%nat)) as [Hlen|Hlen].
  2:{ transitivity false.
      - unfold validate_date. apply Nat.eqb_neq in Hlen. by rewrite Hlen.
      - symmetry. apply not_true_is_false. intros H.
        apply spec_is_valid_date_length in H. by rewrite unblank_length in H. }
  destruct (length_ten s Hlen) as (y1 & y2 & y3 & y4 & s1 & m1 & m2 & s2 & d1 & d2 & ->).
  rewrite validate_date_ten.
  assert (unblank (ten y1 y2 y3 y4 s1 m1 m2 s2 d1 d2)
          = if blank2 d1 d2 then ten y1 y2 y3 y4 s1 m1 m2 s2 "0" d2
            else ten y1 y2 y3 y4 s1 m1 m2 s2 d1 d2) as -> by done.
  destruct (blank2 d1 d2) eqn:Hb.
  - rewrite spec_is_valid_date_ten.
    unfold blank2 in Hb. apply andb_true_iff in Hb as [Hb1 Hb2].
    apply bool_decide_eq_true in Hb1 as ->.
    assert (day2 " " d2 = false) as -> by (unfold day2; by known_chars).
    assert (day2 "0" d2 = true) as ->.
    { unfold day2. known_chars. by rewrite Hb2. }
    assert (two "0" d2 = digit_val d2) as -> by (unfold two; by vm_compute (digit_val "0")).
    by rewrite orb_true_r.
  - rewrite spec_is_valid_date_ten. by rewrite orb_false_r.
Qed.

(** In particular it agrees with the specification on every text whose
    ninth character is not a blank. *)
Lemma validate_date_agrees s :
  unblank s = s → validate_date s = spec_is_valid_date s.
Proof. intros H. by rewrite validate_date_accepts, H. Qed.

End DateFacts.

(** ** The monad and the statements, unfolded *)

Lemma bind_return {A B} (m : py A) (k : A → py B) w w' a :
  m w = (w', Return a) → (m ≫= k) w = k a w'.
Proof. intros H. unfold mbind, py_bind. by rewrite H. Qed.

Lemma bind_raise {A B} (m : py A) (k : A → py B) w w' e :
  m w = (w', Raise e) → (m ≫= k) w = (w', Raise e).
Proof. intros H. unfold mbind, py_bind. by rewrite H. Qed.

Lemma fits_int64_spec n : fits_int64 n = true ↔ min_int64 ≤ n ≤ max_int64.
Proof. unfold fits_int64. rewrite andb_true_iff, !Z.leb_le. tauto. Qed.

(** What [execute_dml] does, case by case. *)
Lemma execute_dml_unfold f s params run w :
  execute_dml f s params run w =
    let w0 := set_conn (begin_implicitly (conn w)) w in
    if forallb fits_int64 params then
      match f s with
      | Some text => (w0, Raise (SqliteError text))
      | None =>
          match run (tables (conn w0)) with
          | inl text => (w0, Raise (SqliteError text))
          | inr d' =>
              (set_conn {| tables := d'; journal := journal (conn w0) |} w0, Return tt)
          end
      end
    else (w0, Raise OverflowError).
Proof.
  unfold execute_dml, bind_int, storage, on_conn, get_tables, raise,
    mbind, py_bind, mret, py_ret; simpl.
  destruct (forallb fits_int64 params); [|done].
  destruct (f s); [done|]. simpl.
  by destruct (run _).
Qed.

Lemma commit_unfold f w :
  commit f w =
    match f Commit with
    | Some text => (w, Raise (SqliteError text))
    | None => (set_conn (commit_conn (conn w)) w, Return tt)
    end.
Proof.
  unfold commit, storage, on_conn, raise, mbind, py_bind, mret, py_ret.
  by destruct (f Commit).
Qed.

Lemma execute_select_unfold {A} f s params (query : database → A) w :
  execute_select f s params query w =
    if forallb fits_int64 params then
      match f s with
      | Some text => (w, Raise (SqliteError text))
      | None => (w, Return (query (tables (conn w))))
      end
    else (w, Raise OverflowError).
Proof.
  unfold execute_select, bind_int, storage, get_tables, raise,
    mbind, py_bind, mret, py_ret.
  destruct (forallb fits_int64 params); [|done].
  by destruct (f s).
Qed.

Lemma set_conn_same w : set_conn (conn w) w = w.
Proof. by destruct w. Qed.

Lemma set_conn_twice c c' w : set_conn c (set_conn c' w) = set_conn c w.
Proof. done. Qed.

Lemma rollback_then {A} (k : py A) w :
  (rollback ≫= λ _, k) w = k (set_conn (rollback_conn (conn w)) w).
Proof. done. Qed.

Lemma return_at {A} (a : A) w : (mret a : py A) w = (w, Return a).
Proof. done. Qed.

Lemma begin_implicitly_tables c : tables (begin_implicitly c) = tables c.
Proof. unfold begin_implicitly. by destruct (journal c). Qed.

Lemma begin_implicitly_idle c :
  journal c = None → begin_implicitly c = {| tables := tables c; journal := Some (tables c) |}.
Proof. unfold begin_implicitly. by intros ->. Qed.

Lemma rollback_begin_idle c :
  journal c = None → rollback_conn (begin_implicitly c) = c.
Proof. intros H. rewrite begin_implicitly_idle by done. destruct c; simpl in *. by subst. Qed.

Lemma commit_idle c : journal c = None → commit_conn c = c.
Proof. destruct c; simpl. by intros ->. Qed.

(** ** AUTOINCREMENT hands out a [sid] that is not in the table *)

Lemma max_rowid_bounds (t : gmap Z Sale.row) k r :
  t !! k = Some r → ∃ m, max_rowid t = Some m ∧ k ≤ m.
Proof.
  unfold max_rowid. revert k r.
  apply (map_fold_weak_ind (λ acc (t : gmap Z Sale.row),
    ∀ k r, t !! k = Some r → ∃ m, acc = Some m ∧ k ≤ m)).
  - intros k r H. by rewrite lookup_empty in H.
  - intros i x m acc Hi IH k r Hk.
    destruct (decide (i = k)) as [->|Hne].
    + destruct acc as [a|]; eexists; split; try done; lia.
    + rewrite lookup_insert_ne in Hk by done.
      destruct (IH k r Hk) as (a & -> & Hle).
      eexists; split; [done|]. lia.
Qed.

Lemma next_sid_fresh d sid : next_sid d = Some sid → sale d !! sid = None.
Proof.
  unfold next_sid. intros H.
  destruct (sale d !! sid) as [r|] eqn:Hr; [|done].
  destruct (max_rowid_bounds _ _ _ Hr) as (m & Hm & Hle).
  rewrite Hm in H. case_match; [done|]. simplify_eq. lia.
Qed.

Lemma next_sid_above_seq d sid : next_sid d = Some sid → sale_seq d < sid ≤ max_int64.
Proof.
  unfold next_sid. intros H. case_match eqn:Hfull; [done|]. simplify_eq.
  apply orb_false_iff in Hfull as [H1 H2]. apply Z.leb_gt in H2.
  destruct (max_rowid (sale d)) as [m|]; [apply Z.leb_gt in H1|];
    unfold max_int64 in *; lia.
Qed.

(** ** Create, case by case *)

Lemma undone_idle w : journal (conn w) = None → undone w = w.
Proof. intros H. unfold undone. rewrite rollback_begin_idle by done. apply set_conn_same. Qed.

Lemma commit_rollback_begin c :
  commit_conn (rollback_conn (begin_implicitly c)) = rollback_conn (begin_implicitly c).
Proof. by destruct c as [t [j|]]. Qed.

Lemma add_sale_persist f sdate mid bid sqty sdiscount w b :
  let d := tables (conn w) in
  let stotal := Book.bprice b * sqty - sdiscount in
  valid_sale d sdate mid bid sqty sdiscount b →
  add_sale f sdate mid bid sqty sdiscount w =
    if forallb fits_int64 [sqty; sdiscount; stotal] then
      match f InsertSale, next_sid d, f UpdateBookStock, f Commit with
      | Some text, _, _, _ => (undone w, Return (false, msg_database_error text))
      | None, None, _, _ =>
          (undone w, Return (false, msg_database_error "database or disk is full"))
      | None, Some _, Some text, _ => (undone w, Return (false, msg_database_error text))
      | None, Some _, None, Some text => (undone w, Return (false, msg_database_error text))
      | None, Some sid, None, None =>
          (set_conn (idle {| member := member d;
                             book := alter (λ b, Book.set_bstock (Book.bstock b - sqty) b)
                                           bid (book d);
                             sale := <[sid := new_sale sdate mid bid sqty sdiscount b]> (sale d);
                             sale_seq := sid |}) w,
           Return (true, msg_sale_added stotal))
      end
    else (undone w, Raise OverflowError).
Proof.
  intros d stotal (Hdate & [m Hm] & Hb & [Hq1 Hq2] & Hdisc).
  unfold add_sale. rewrite Hdate. simpl.
  unfold with_conn, try_except.
  unfold mbind at 1, py_bind at 1, get_tables at 1.
  unfold select_member, select_book. fold d. rewrite Hm, Hb. simpl.
  destruct (Z.leb_spec sqty 0); [lia|].
  destruct (Z.gtb_spec sqty (Book.bstock b)); [lia|].
  destruct (Z.ltb_spec sdiscount 0); [lia|].
  fold stotal.
  unfold mbind at 1, py_bind at 1. rewrite execute_dml_unfold. cbv zeta.
  simpl forallb.
  destruct (fits_int64 sqty && _) eqn:Hfit; [|done].
  assert (forallb fits_int64 [sqty] = true) as Hq.
  { simpl. apply andb_true_iff in Hfit as [-> _]. done. }
  assert (∀ t, begin_implicitly {| tables := t; journal := journal (begin_implicitly (conn w)) |}
               = {| tables := t; journal := journal (begin_implicitly (conn w)) |}) as Hbb.
  { intros t. by destruct (conn w) as [t0 [j|]]. }
  assert (∀ t, rollback_conn {| tables := t; journal := journal (begin_implicitly (conn w)) |}
               = rollback_conn (begin_implicitly (conn w))) as Hrb.
  { intros t. by destruct (conn w) as [t0 [j|]]. }
  assert (∀ t, commit_conn {| tables := t; journal := journal (begin_implicitly (conn w)) |}
               = idle t) as Hcm by done.
  destruct (f InsertSale) as [e|].
  { rewrite rollback_then, return_at. cbn [conn set_conn stdin stdout].
    by rewrite commit_rollback_begin. }
  cbn [conn set_conn]. rewrite begin_implicitly_tables. fold d.
  unfold insert_sale. destruct (next_sid d) as [sid|].
  2:{ rewrite rollback_then, return_at. cbn [conn set_conn stdin stdout].
      by rewrite commit_rollback_begin. }
  unfold mbind at 1, py_bind at 1. rewrite execute_dml_unfold. cbv zeta.
  rewrite Hq. cbn [conn set_conn stdin stdout tables journal]. rewrite Hbb.
  destruct (f UpdateBookStock) as [e|].
  { rewrite rollback_then, return_at. cbn [conn set_conn stdin stdout].
    rewrite Hrb. by rewrite commit_rollback_begin. }
  cbn [update_book_stock conn set_conn stdin stdout tables journal].
  unfold mbind at 1, py_bind at 1. rewrite commit_unfold.
  destruct (f Commit) as [e|].
  { rewrite rollback_then, return_at. cbn [conn set_conn stdin stdout].
    rewrite Hrb. by rewrite commit_rollback_begin. }
  rewrite return_at. cbn [conn set_conn stdin stdout]. rewrite Hcm. reflexivity.
Qed.

Lemma turned_down_idle sdate w : journal (conn w) = None → turned_down sdate w = w.
Proof.
  intros H. unfold turned_down. destruct (validate_date sdate); [|done].
  rewrite commit_idle by done. apply set_conn_same.
Qed.

Ltac unfold_checks :=
  unfold add_sale, with_conn, select_member, select_book, get_tables,
    mbind, py_bind, mret, py_ret, turned_down; simpl.

Lemma valid_sale_dec d sdate mid bid sqty sdiscount :
  (∃ b, valid_sale d sdate mid bid sqty sdiscount b)
  ∨ ¬ (∃ b, valid_sale d sdate mid bid sqty sdiscount b).
Proof.
  unfold valid_sale.
  destruct (validate_date sdate); [|right; intros (b & ? & _); done].
  destruct (member d !! mid) as [m|] eqn:Hm;
    [|right; intros (b & _ & [? ?] & _); done].
  destruct (book d !! bid) as [b|] eqn:Hb; [|right; intros (b & _ & _ & ? & _); done].
  destruct (decide (0 < sqty ≤ Book.bstock b ∧ 0 ≤ sdiscount)) as [[? ?]|Hn].
  - left. exists b. eauto.
  - right. intros (b' & _ & _ & ? & ? & ?). simplify_eq. tauto.
Qed.

Lemma add_sale_invalid f sdate mid bid sqty sdiscount w :
  ¬ (∃ b, valid_sale (tables (conn w)) sdate mid bid sqty sdiscount b) →
  ∃ msg, add_sale f sdate mid bid sqty sdiscount w
         = (turned_down sdate w, Return (false, msg)).
Proof.
  intros Hn. unfold_checks.
  destruct (validate_date sdate) eqn:Hdate; simpl; [|by eexists].
  destruct (member (tables (conn w)) !! mid) as [m|] eqn:Hm; simpl; [|by eexists].
  destruct (book (tables (conn w)) !! bid) as [b|] eqn:Hb; simpl; [|by eexists].
  destruct (Z.leb_spec sqty 0); [by eexists|].
  destruct (Z.gtb_spec sqty (Book.bstock b)); [by eexists|].
  destruct (Z.ltb_spec sdiscount 0); [by eexists|].
  destruct Hn. exists b. unfold valid_sale. eauto with lia.
Qed.

Lemma alter_as_insert {K A} `{Countable K} (g : A → A) (m : gmap K A) i x :
  m !! i = Some x → alter g i m = <[i := g x]> m.
Proof.
  intros Hx. apply map_eq. intros j. destruct (decide (i = j)) as [->|Hne].
  - by rewrite lookup_alter_eq, lookup_insert_eq, Hx.
  - by rewrite lookup_alter_ne, lookup_insert_ne.
Qed.

Lemma string_length_app s t : String.length (s +:+ t) = (String.length s + String.length t)%nat.
Proof. induction s as [|a s IH]; [reflexivity | simpl; by f_equal]. Qed.

Lemma string_app_inv_tail s1 s2 t : s1 +:+ t = s2 +:+ t → s1 = s2.
Proof.
  revert s2. induction s1 as [|a s1 IH]; intros [|b s2] H; simpl in *.
  - done.
  - apply (f_equal String.length) in H. change ("" +:+ t) with t in H.
    simpl in H. rewrite string_length_app in H. lia.
  - apply (f_equal String.length) in H. change ("" +:+ t) with t in H.
    simpl in H. rewrite string_length_app in H. lia.
  - injection H as -> H. f_equal. by apply IH.
Qed.

Lemma msg_insufficient_stock_inj n n' :
  msg_insufficient_stock n = msg_insufficient_stock n' → n = n'.
Proof.
  unfold msg_insufficient_stock, Text.str. intros H.
  apply String.app_inj in H. apply string_app_inv_tail in H.
  by apply (inj pretty) in H.
Qed.

(** ** The claims about create *)

(** C1 — every create that succeeds has inserted one new sale row whose
    [stotal] is the price the book had before the call times the quantity
    minus the discount, and has lowered the stock of that book by exactly
    the quantity; nothing else in the tables changed and the transaction
    is committed. *)
Theorem add_sale_success_effect f sdate mid bid sqty sdiscount w msg :
  let d := tables (conn w) in
  let w' := (add_sale f sdate mid bid sqty sdiscount w).1 in
  (add_sale f sdate mid bid sqty sdiscount w).2 = Return (true, msg) →
  ∃ b sid,
    book d !! bid = Some b
    ∧ sale d !! sid = None
    ∧ sale (tables (conn w'))
      = <[sid := {| Sale.sdate := sdate; Sale.mid := mid; Sale.bid := bid;
                    Sale.sqty := sqty; Sale.sdiscount := sdiscount;
                    Sale.stotal := Book.bprice b * sqty - sdiscount |}]> (sale d)
    ∧ book (tables (conn w'))
      = <[bid := {| Book.btitle := Book.btitle b; Book.bprice := Book.bprice b;
                    Book.bstock := Book.bstock b - sqty |}]> (book d)
    ∧ member (tables (conn w')) = member d
    ∧ journal (conn w') = None
    ∧ msg = msg_sale_added (Book.bprice b * sqty - sdiscount).
Proof.
  intros d w' Hok. subst w'.
  destruct (valid_sale_dec d sdate mid bid sqty sdiscount) as [[b Hv]|Hn].
  2:{ destruct (add_sale_invalid f _ _ _ _ _ w Hn) as [m Hm].
      rewrite Hm in Hok. done. }
  pose proof Hv as (_ & _ & Hb & _).
  rewrite (add_sale_persist f _ _ _ _ _ w b Hv) in Hok |- *. fold d in Hok |- *.
  destruct (forallb fits_int64 _); [|done].
  destruct (f InsertSale); [done|].
  destruct (next_sid d) as [sid|] eqn:Hsid; [|done].
  destruct (f UpdateBookStock); [done|].
  destruct (f Commit); [done|].
  simpl in Hok. exists b, sid. simpl.
  split_and!; try done.
  - by apply next_sid_fresh.
  - by rewrite (alter_as_insert _ (book d) bid b Hb).
  - congruence.
Qed.

Lemma add_sale_success_effect_witness :
  ∃ b sid,
    book seed_db !! "B001" = Some b
    ∧ sale seed_db !! sid = None
    ∧ sale (tables (conn (add_sale no_faults "2024-02-01" "M001" "B001" 2 100
                            (start seed_db)).1))
      = <[sid := {| Sale.sdate := "2024-02-01"; Sale.mid := "M001"; Sale.bid := "B001";
                    Sale.sqty := 2; Sale.sdiscount := 100;
                    Sale.stotal := Book.bprice b * 2 - 100 |}]> (sale seed_db)
    ∧ book (tables (conn (add_sale no_faults "2024-02-01" "M001" "B001" 2 100
                            (start seed_db)).1))
      = <[ "B001" := {| Book.btitle := Book.btitle b; Book.bprice := Book.bprice b;
                        Book.bstock := Book.bstock b - 2 |}]> (book seed_db)
    ∧ member (tables (conn (add_sale no_faults "2024-02-01" "M001" "B001" 2 100
                              (start seed_db)).1)) = member seed_db
    ∧ journal (conn (add_sale no_faults "2024-02-01" "M001" "B001" 2 100
                       (start seed_db)).1) = None
    ∧ "銷售記錄已新增！(銷售總額: 1,100)" = msg_sale_added (Book.bprice b * 2 - 100).
Proof.
  apply (add_sale_success_effect no_faults "2024-02-01" "M001" "B001" 2 100
           (start seed_db) "銷售記錄已新增！(銷售總額: 1,100)").
  reflexivity.
Defined.

(** C2 — the checks of create run in a fixed order and the first one that
    fails decides the answer: the date, then the member, then the book,
    then a quantity that is not positive, then a quantity above the
    stock, then a negative discount.  A missing member and a missing book
    give the very same answer, and the answer for a short stock carries
    the stock of the book, which can be read back from it. *)
Theorem add_sale_validation_order f sdate mid bid sqty sdiscount w :
  let d := tables (conn w) in
  let r := (add_sale f sdate mid bid sqty sdiscount w).2 in
  (validate_date sdate = false → r = Return (false, msg_invalid_date))
  ∧ (validate_date sdate = true → member d !! mid = None →
     r = Return (false, msg_invalid_reference))
  ∧ (validate_date sdate = true → is_Some (member d !! mid) → book d !! bid = None →
     r = Return (false, msg_invalid_reference))
  ∧ (∀ b, validate_date sdate = true → is_Some (member d !! mid) →
          book d !! bid = Some b →
          (sqty ≤ 0 → r = Return (false, msg_invalid_quantity))
          ∧ (0 < sqty → Book.bstock b < sqty →
             r = Return (false, msg_insufficient_stock (Book.bstock b)))
          ∧ (0 < sqty ≤ Book.bstock b → sdiscount < 0 →
             r = Return (false, msg_invalid_discount)))
  ∧ (∀ n, msg_insufficient_stock n
          = "錯誤：書籍庫存不足 (現有庫存: " +:+ Text.str n +:+ ")")
  ∧ (∀ n n', msg_insufficient_stock n = msg_insufficient_stock n' → n = n').
Proof.
  intros d r. subst r d. split_and!.
  - intros Hd. unfold_checks. by rewrite Hd.
  - intros Hd Hm. unfold_checks. rewrite Hd. simpl. by rewrite Hm.
  - intros Hd [m Hm] Hb. unfold_checks. rewrite Hd. simpl. by rewrite Hm, Hb.
  - intros b Hd [m Hm] Hb. split_and!.
    + intros Hq. unfold_checks. rewrite Hd. simpl. rewrite Hm, Hb. simpl.
      by destruct (Z.leb_spec sqty 0); [|lia].
    + intros Hq Hs. unfold_checks. rewrite Hd. simpl. rewrite Hm, Hb. simpl.
      destruct (Z.leb_spec sqty 0); [lia|].
      by destruct (Z.gtb_spec sqty (Book.bstock b)); [|lia].
    + intros Hq Hs. unfold_checks. rewrite Hd. simpl. rewrite Hm, Hb. simpl.
      destruct (Z.leb_spec sqty 0); [lia|].
      destruct (Z.gtb_spec sqty (Book.bstock b)); [lia|].
      by destruct (Z.ltb_spec sdiscount 0); [|lia].
  - done.
  - apply msg_insufficient_stock_inj.
Qed.

(** Each check in turn is the first to fail, on the seed data; the last
    three calls are wrong in everything that comes after the failing
    check as well. *)
Lemma add_sale_validation_order_witness :
  let r sdate mid bid sqty sdiscount :=
    (add_sale no_faults sdate mid bid sqty sdiscount (start seed_db)).2 in
  r "2024-02-30" "M009" "B009" 0 (-1) = Return (false, msg_invalid_date)
  ∧ r "2024-02-01" "M009" "B009" 0 (-1) = Return (false, msg_invalid_reference)
  ∧ r "2024-02-01" "M001" "B009" 0 (-1) = Return (false, msg_invalid_reference)
  ∧ r "2024-02-01" "M001" "B001" 0 (-1) = Return (false, msg_invalid_quantity)
  ∧ r "2024-02-01" "M001" "B001" 51 (-1)
    = Return (false, "錯誤：書籍庫存不足 (現有庫存: 50)")
  ∧ r "2024-02-01" "M001" "B001" 50 (-1) = Return (false, msg_invalid_discount).
Proof.
  intros r. subst r. cbv beta.
  pose (b := {| Book.btitle := "Python Programming"; Book.bprice := 600;
                Book.bstock := 50 |}).
  assert (is_Some (member (tables (conn (start seed_db))) !! "M001")) as HM
    by (eexists; reflexivity).
  split_and!.
  - destruct (add_sale_validation_order no_faults "2024-02-30" "M009" "B009" 0 (-1)
                (start seed_db)) as (H & _).
    apply H. reflexivity.
  - destruct (add_sale_validation_order no_faults "2024-02-01" "M009" "B009" 0 (-1)
                (start seed_db)) as (_ & H & _).
    apply H; reflexivity.
  - destruct (add_sale_validation_order no_faults "2024-02-01" "M001" "B009" 0 (-1)
                (start seed_db)) as (_ & _ & H & _).
    apply H; [reflexivity | exact HM | reflexivity].
  - destruct (add_sale_validation_order no_faults "2024-02-01" "M001" "B001" 0 (-1)
                (start seed_db)) as (_ & _ & _ & H & _).
    apply (H b); [reflexivity | exact HM | reflexivity | lia].
  - destruct (add_sale_validation_order no_faults "2024-02-01" "M001" "B001" 51 (-1)
                (start seed_db)) as (_ & _ & _ & H & _).
    apply (H b); [reflexivity | exact HM | reflexivity | lia | simpl; lia].
  - destruct (add_sale_validation_order no_faults "2024-02-01" "M001" "B001" 50 (-1)
                (start seed_db)) as (_ & _ & _ & H & _).
    apply (H b); [reflexivity | exact HM | reflexivity | simpl; lia | lia].
Defined.

(** C3 — a create that fails, by a check or in the storage layer after
    the checks, leaves the connection as it found it: the tables are the
    same, no transaction is left open, and nothing was printed. *)
Theorem add_sale_failure_no_effect f sdate mid bid sqty sdiscount w :
  journal (conn w) = None →
  failed (add_sale f sdate mid bid sqty sdiscount w).2 →
  (add_sale f sdate mid bid sqty sdiscount w).1 = w.
Proof.
  intros Hidle Hfail.
  destruct (valid_sale_dec (tables (conn w)) sdate mid bid sqty sdiscount) as [[b Hv]|Hn].
  2:{ destruct (add_sale_invalid f _ _ _ _ _ w Hn) as [m Hm].
      rewrite Hm. simpl. by apply turned_down_idle. }
  rewrite (add_sale_persist f _ _ _ _ _ w b Hv) in Hfail |- *.
  rewrite (undone_idle w Hidle) in *.
  destruct (forallb fits_int64 _); [|done].
  destruct (f InsertSale); [done|].
  destruct (next_sid _); [|done].
  destruct (f UpdateBookStock); [done|].
  destruct (f Commit); [done|].
  destruct Hfail.
Qed.

Lemma add_sale_failure_no_effect_witness :
  (add_sale stock_update_fails "2024-02-01" "M001" "B001" 2 100 (start seed_db)).2
    = Return (false, msg_database_error "disk I/O error")
  ∧ (add_sale stock_update_fails "2024-02-01" "M001" "B001" 2 100 (start seed_db)).1
    = start seed_db.
Proof.
  split; [reflexivity|].
  apply (add_sale_failure_no_effect stock_update_fails "2024-02-01" "M001" "B001" 2 100
           (start seed_db)); [reflexivity | exact I].
Defined.

(** C9 — the total is not kept above zero: on the seed data a discount of
    700 on one copy of a book that costs 600, with a valid date, an
    existing member and book and enough stock, is accepted and a total of
    -100 is stored. *)
Theorem add_sale_negative_total :
  ∃ d sdate mid bid sqty sdiscount b sid r,
    validate_date sdate = true
    ∧ is_Some (member d !! mid)
    ∧ book d !! bid = Some b
    ∧ 0 < sqty ≤ Book.bstock b
    ∧ 0 ≤ sdiscount
    ∧ Book.bprice b * sqty < sdiscount
    ∧ (add_sale no_faults sdate mid bid sqty sdiscount (start d)).2
      = Return (true, msg_sale_added (Book.bprice b * sqty - sdiscount))
    ∧ sale d !! sid = None
    ∧ sale (tables (conn (add_sale no_faults sdate mid bid sqty sdiscount (start d)).1)) !! sid
      = Some r
    ∧ Sale.sdiscount r = sdiscount
    ∧ Sale.stotal r = Book.bprice b * sqty - sdiscount
    ∧ Sale.stotal r < 0.
Proof.
  exists seed_db, "2024-02-01", "M001", "B001", 1, 700.
  exists {| Book.btitle := "Python Programming"; Book.bprice := 600; Book.bstock := 50 |}.
  exists 5.
  exists {| Sale.sdate := "2024-02-01"; Sale.mid := "M001"; Sale.bid := "B001";
            Sale.sqty := 1; Sale.sdiscount := 700; Sale.stotal := -100 |}.
  split_and!; try reflexivity; try (simpl; lia).
  eexists; reflexivity.
Qed.

(** ** Update and delete, case by case *)

Lemma begin_twice_tables c t :
  begin_implicitly {| tables := t; journal := journal (begin_implicitly c) |}
  = {| tables := t; journal := journal (begin_implicitly c) |}.
Proof. by destruct c as [t0 [j|]]. Qed.

Lemma rollback_after_change c t :
  rollback_conn {| tables := t; journal := journal (begin_implicitly c) |}
  = rollback_conn (begin_implicitly c).
Proof. by destruct c as [t0 [j|]]. Qed.

Lemma update_sale_chosen_unfold f sid sdiscount w :
  let d := tables (conn w) in
  update_sale_chosen f sid sdiscount w =
    if fits_int64 sid then
      match f SelectSale with
      | Some text =>
          (write (msg_database_error text)
             (set_conn (commit_conn (rollback_conn (conn w))) w), Return tt)
      | None =>
          match select_sale_qty_price sid d with
          | None => (set_conn (commit_conn (conn w)) w, Return tt)
          | Some (sqty, bprice) =>
              let stotal := bprice * sqty - sdiscount in
              if forallb fits_int64 [sdiscount; stotal; sid] then
                match f UpdateSale, f Commit with
                | Some text, _ | None, Some text =>
                    (write (msg_database_error text) (undone w), Return tt)
                | None, None =>
                    (write (msg_sale_updated sid stotal)
                       (set_conn
                          (idle (with_sale
                                   (alter (Sale.set_discount_total sdiscount stotal) sid
                                      (sale d)) d)) w),
                     Return tt)
                end
              else (undone w, Raise OverflowError)
          end
      end
    else (set_conn (rollback_conn (conn w)) w, Raise OverflowError).
Proof.
  intros d. unfold update_sale_chosen, with_conn, update_sale_apply, try_except.
  unfold mbind at 1, py_bind at 1. rewrite execute_select_unfold.
  assert (forallb fits_int64 [sid] = fits_int64 sid) as -> by apply andb_true_r.
  destruct (fits_int64 sid) eqn:Hsid; [|done].
  destruct (f SelectSale) as [e|]; [done|].
  fold d. destruct (select_sale_qty_price sid d) as [[sqty bprice]|]; [|done].
  cbv zeta.
  unfold mbind at 1, py_bind at 1. rewrite execute_dml_unfold. cbv zeta.
  destruct (forallb fits_int64 _).
  2:{ reflexivity. }
  destruct (f UpdateSale) as [e|].
  { rewrite rollback_then. unfold print, undone. cbn [conn set_conn stdin stdout write].
    by rewrite commit_rollback_begin. }
  cbn [update_sale_row conn set_conn stdin stdout tables journal].
  rewrite begin_implicitly_tables. fold d.
  unfold mbind at 1, py_bind at 1. rewrite commit_unfold.
  destruct (f Commit) as [e|].
  { rewrite rollback_then. unfold print, undone. cbn [conn set_conn stdin stdout write].
    by rewrite rollback_after_change, commit_rollback_begin. }
  reflexivity.
Qed.

Lemma delete_sale_chosen_unfold f sid w :
  let d := tables (conn w) in
  delete_sale_chosen f sid w =
    if fits_int64 sid then
      match f DeleteSale, f Commit with
      | Some text, _ | None, Some text =>
          (write (msg_database_error text) (undone w), Return tt)
      | None, None =>
          (write (msg_sale_deleted sid)
             (set_conn (idle (with_sale (delete sid (sale d)) d)) w), Return tt)
      end
    else (undone w, Raise OverflowError).
Proof.
  intros d. unfold delete_sale_chosen, with_conn, delete_sale_apply, try_except.
  unfold mbind at 1, py_bind at 1. rewrite execute_dml_unfold. cbv zeta.
  assert (forallb fits_int64 [sid] = fits_int64 sid) as -> by apply andb_true_r.
  destruct (fits_int64 sid) eqn:Hsid; [|done].
  destruct (f DeleteSale) as [e|].
  { rewrite rollback_then. unfold print, undone. cbn [conn set_conn stdin stdout write].
    by rewrite commit_rollback_begin. }
  cbn [delete_sale_row conn set_conn stdin stdout tables journal].
  rewrite begin_implicitly_tables. fold d.
  unfold mbind at 1, py_bind at 1. rewrite commit_unfold.
  destruct (f Commit) as [e|].
  { rewrite rollback_then. unfold print, undone. cbn [conn set_conn stdin stdout write].
    by rewrite rollback_after_change, commit_rollback_begin. }
  reflexivity.
Qed.

(** ** The listings after a delete *)

Lemma elem_of_sids d k : k ∈ sids d ↔ is_Some (sale d !! k).
Proof.
  unfold sids. rewrite merge_sort_Permutation, list_elem_of_fmap. split.
  - intros [[k' r] [-> Hr]]. apply elem_of_map_to_list in Hr. by eexists.
  - intros [r Hr]. exists (k, r). split; [done|]. by apply elem_of_map_to_list.
Qed.

Lemma NoDup_sids d : NoDup (sids d).
Proof. unfold sids. rewrite merge_sort_Permutation. apply NoDup_fst_map_to_list. Qed.

Lemma StronglySorted_sids d : StronglySorted Z.le (sids d).
Proof. apply (StronglySorted_merge_sort Z.le). Qed.

Lemma StronglySorted_filter_le (P : Z → Prop) `{∀ x, Decision (P x)} (l : list Z) :
  StronglySorted Z.le l → StronglySorted Z.le (filter P l).
Proof.
  induction 1 as [|x l Hl IH Hx]; [constructor|].
  rewrite filter_cons. case_decide; [|done].
  constructor; [done|].
  apply Forall_forall. intros y Hy. apply list_elem_of_filter in Hy as [_ Hy].
  rewrite Forall_forall in Hx. by apply Hx.
Qed.

Lemma sids_delete d sid :
  sids (with_sale (delete sid (sale d)) d) = filter (λ k, k ≠ sid) (sids d).
Proof.
  apply (StronglySorted_unique Z.le).
  - apply StronglySorted_sids.
  - apply StronglySorted_filter_le, StronglySorted_sids.
  - apply NoDup_Permutation.
    + apply NoDup_sids.
    + apply NoDup_filter, NoDup_sids.
    + intros k. rewrite list_elem_of_filter, !elem_of_sids. simpl.
      destruct (decide (k = sid)) as [->|Hne].
      * rewrite lookup_delete_eq. split; [by intros [? ?]|by intros [? _]].
      * rewrite lookup_delete_ne by done. tauto.
Qed.

Lemma omap_filter_agree {A B} (P : A → Prop) `{∀ x, Decision (P x)}
    (Q : B → Prop) `{∀ y, Decision (Q y)} (g g' : A → option B) (l : list A) :
  (∀ x, P x → g' x = g x) →
  (∀ x y, g x = Some y → (Q y ↔ P x)) →
  omap g' (filter P l) = filter Q (omap g l).
Proof.
  intros Hagree HQ. induction l as [|x l IH]; [done|].
  rewrite filter_cons. simpl. case_decide as HP.
  - simpl. rewrite (Hagree x HP). destruct (g x) as [y|] eqn:Hy; [|done].
    rewrite filter_cons. rewrite decide_True by (by apply (HQ x y)). by f_equal.
  - destruct (g x) as [y|] eqn:Hy; [|done].
    rewrite filter_cons. rewrite decide_False; [done|]. by rewrite (HQ x y).
Qed.

Lemma select_sale_list_delete d sid :
  select_sale_list (with_sale (delete sid (sale d)) d)
  = filter (λ r, r.1.1 ≠ sid) (select_sale_list d).
Proof.
  unfold select_sale_list. rewrite sids_delete.
  apply omap_filter_agree.
  - intros k Hk. simpl. by rewrite lookup_delete_ne.
  - intros k r Hr. destruct (sale d !! k) as [s|]; [|done]. simpl in Hr.
    destruct (member d !! Sale.mid s); [|done]. by simplify_eq/=.
Qed.

Lemma select_sale_report_delete d sid :
  select_sale_report (with_sale (delete sid (sale d)) d)
  = filter (λ r, r.1.1.1.1.1.1.1 ≠ sid) (select_sale_report d).
Proof.
  unfold select_sale_report. rewrite sids_delete.
  apply omap_filter_agree.
  - intros k Hk. simpl. by rewrite lookup_delete_ne.
  - intros k r Hr. destruct (sale d !! k) as [s|]; [|done]. simpl in Hr.
    destruct (member d !! Sale.mid s); [|done]. simpl in Hr.
    destruct (book d !! Sale.bid s); [|done]. by simplify_eq/=.
Qed.

(** ** The claims about update *)

(** C5 — updating the discount of a sale that exists (and whose book
    exists) reads the quantity stored with the sale and the price the
    book has now, stores the new discount and
    [price * quantity - discount] as the new total, commits, and leaves
    the books, their stock included, the members and every other sale as
    they were. *)
Theorem update_sale_recomputes_total f sid sdiscount w s b :
  let d := tables (conn w) in
  let stotal := Book.bprice b * Sale.sqty s - sdiscount in
  let w' := (update_sale_chosen f sid sdiscount w).1 in
  sale d !! sid = Some s →
  book d !! Sale.bid s = Some b →
  forallb fits_int64 [sid; sdiscount; stotal] = true →
  f SelectSale = None → f UpdateSale = None → f Commit = None →
  (update_sale_chosen f sid sdiscount w).2 = Return tt
  ∧ sale (tables (conn w'))
    = <[sid := {| Sale.sdate := Sale.sdate s; Sale.mid := Sale.mid s;
                  Sale.bid := Sale.bid s; Sale.sqty := Sale.sqty s;
                  Sale.sdiscount := sdiscount; Sale.stotal := stotal |}]> (sale d)
  ∧ book (tables (conn w')) = book d
  ∧ member (tables (conn w')) = member d
  ∧ sale_seq (tables (conn w')) = sale_seq d
  ∧ journal (conn w') = None
  ∧ stdout w' = (stdout w ++ [msg_sale_updated sid stotal])%list.
Proof.
  intros d stotal w' Hs Hb Hfit H1 H2 H3. subst w'.
  rewrite update_sale_chosen_unfold. fold d.
  simpl in Hfit. rewrite andb_true_r in Hfit.
  apply andb_true_iff in Hfit as [Hsid Hfit]. apply andb_true_iff in Hfit as [Hd Ht].
  unfold select_sale_qty_price. rewrite Hsid, H1, Hs. simpl. rewrite Hb. simpl.
  fold stotal. rewrite Hd, Ht, Hsid, H2, H3. simpl.
  split_and!; try done.
  by rewrite (alter_as_insert _ (sale d) sid s Hs).
Qed.

(** The example of the specification: a sale of 2 copies at 600 with a
    discount of 100 is created (total 1100), the price becomes 700, the
    discount is set to 50: the total is 1350 and the stock stays at 48. *)
Lemma update_sale_recomputes_total_witness :
  let created := (add_sale no_faults "2024-02-01" "M001" "B001" 2 100 (start seed_db)).1 in
  let w := start (reprice "B001" 700 (tables (conn created))) in
  let w' := (update_sale_chosen no_faults 5 50 w).1 in
  Sale.stotal <$> sale (tables (conn created)) !! 5 = Some 1100
  ∧ Sale.stotal <$> sale (tables (conn w')) !! 5 = Some 1350
  ∧ Sale.sdiscount <$> sale (tables (conn w')) !! 5 = Some 50
  ∧ Book.bstock <$> book (tables (conn w')) !! "B001" = Some 48.
Proof.
  intros created w w'.
  destruct (update_sale_recomputes_total no_faults 5 50 w
              {| Sale.sdate := "2024-02-01"; Sale.mid := "M001"; Sale.bid := "B001";
                 Sale.sqty := 2; Sale.sdiscount := 100; Sale.stotal := 1100 |}
              {| Book.btitle := "Python Programming"; Book.bprice := 700;
                 Book.bstock := 48 |})
    as (_ & Hsale & Hbook & _); try reflexivity.
  fold w' in Hsale, Hbook. rewrite Hsale, Hbook.
  split_and!; reflexivity.
Defined.

(** C6 — when the sale id is not in the sale table, the update part of
    [update_sale] does nothing at all: it returns without an exception,
    prints neither a confirmation nor an error, and the tables are what
    they were. *)
Theorem update_sale_missing_is_silent f sid sdiscount w :
  sale (tables (conn w)) !! sid = None →
  fits_int64 sid = true →
  f SelectSale = None →
  update_sale_apply f sid sdiscount w = (w, Return tt)
  ∧ (update_sale_chosen f sid sdiscount w).2 = Return tt
  ∧ tables (conn (update_sale_chosen f sid sdiscount w).1) = tables (conn w)
  ∧ stdout (update_sale_chosen f sid sdiscount w).1 = stdout w.
Proof.
  intros Hs Hsid Hf.
  assert (select_sale_qty_price sid (tables (conn w)) = None) as Hq.
  { unfold select_sale_qty_price. by rewrite Hs. }
  split.
  - unfold update_sale_apply, try_except.
    unfold mbind at 1, py_bind at 1. rewrite execute_select_unfold.
    assert (forallb fits_int64 [sid] = true) as -> by (simpl; by rewrite Hsid).
    by rewrite Hf, Hq.
  - rewrite update_sale_chosen_unfold. by rewrite Hsid, Hf, Hq.
Qed.

Lemma update_sale_missing_is_silent_witness :
  update_sale_apply no_faults 99 50 (start seed_db) = (start seed_db, Return tt)
  ∧ (update_sale_chosen no_faults 99 50 (start seed_db)).2 = Return tt
  ∧ tables (conn (update_sale_chosen no_faults 99 50 (start seed_db)).1) = seed_db
  ∧ stdout (update_sale_chosen no_faults 99 50 (start seed_db)).1 = [].
Proof.
  apply (update_sale_missing_is_silent no_faults 99 50 (start seed_db)); reflexivity.
Defined.

Lemma select_after_update d sid sdiscount stotal :
  select_sale_qty_price sid
    (with_sale (alter (Sale.set_discount_total sdiscount stotal) sid (sale d)) d)
  = select_sale_qty_price sid d.
Proof.
  unfold select_sale_qty_price. simpl. rewrite lookup_alter_eq.
  by destruct (sale d !! sid).
Qed.

Lemma alter_twice_same (t : gmap Z Sale.row) sid sdiscount stotal :
  alter (Sale.set_discount_total sdiscount stotal) sid
    (alter (Sale.set_discount_total sdiscount stotal) sid t)
  = alter (Sale.set_discount_total sdiscount stotal) sid t.
Proof.
  apply map_eq. intros k. destruct (decide (sid = k)) as [->|Hne].
  - rewrite !lookup_alter_eq. by destruct (t !! k).
  - by rewrite !lookup_alter_ne.
Qed.

Lemma update_sale_chosen_idle f sid sdiscount w :
  let d := tables (conn w) in
  journal (conn w) = None →
  update_sale_chosen f sid sdiscount w =
    if fits_int64 sid then
      match f SelectSale with
      | Some text => (write (msg_database_error text) w, Return tt)
      | None =>
          match select_sale_qty_price sid d with
          | None => (w, Return tt)
          | Some (sqty, bprice) =>
              let stotal := bprice * sqty - sdiscount in
              if forallb fits_int64 [sdiscount; stotal; sid] then
                match f UpdateSale, f Commit with
                | Some text, _ | None, Some text =>
                    (write (msg_database_error text) w, Return tt)
                | None, None =>
                    (write (msg_sale_updated sid stotal)
                       (set_conn
                          (idle (with_sale
                                   (alter (Sale.set_discount_total sdiscount stotal) sid
                                      (sale d)) d)) w),
                     Return tt)
                end
              else (w, Raise OverflowError)
          end
      end
    else (w, Raise OverflowError).
Proof.
  intros d Hidle. rewrite update_sale_chosen_unfold. fold d.
  rewrite (undone_idle w Hidle).
  assert (rollback_conn (conn w) = conn w) as ->.
  { unfold rollback_conn. by rewrite Hidle. }
  rewrite (commit_idle _ Hidle). by rewrite set_conn_same.
Qed.

Lemma delete_sale_chosen_idle f sid w :
  let d := tables (conn w) in
  journal (conn w) = None →
  delete_sale_chosen f sid w =
    if fits_int64 sid then
      match f DeleteSale, f Commit with
      | Some text, _ | None, Some text => (write (msg_database_error text) w, Return tt)
      | None, None =>
          (write (msg_sale_deleted sid)
             (set_conn (idle (with_sale (delete sid (sale d)) d)) w), Return tt)
      end
    else (w, Raise OverflowError).
Proof.
  intros d Hidle. rewrite delete_sale_chosen_unfold. fold d.
  by rewrite (undone_idle w Hidle).
Qed.

(** C10 — setting the same discount on the same sale twice in a row
    leaves the connection exactly as setting it once does (the storage
    behaving the same way both times); this holds for every sale id and
    every discount, so in particular for an existing sale and a discount
    that is not negative. *)
Theorem update_sale_idempotent f sid sdiscount w :
  journal (conn w) = None →
  let once := (update_sale_chosen f sid sdiscount w).1 in
  let twice := (update_sale_chosen f sid sdiscount once).1 in
  conn twice = conn once.
Proof.
  intros Hidle once twice. subst twice once.
  pose proof (update_sale_chosen_idle f sid sdiscount w Hidle) as Hw.
  cbv zeta in Hw.
  destruct (fits_int64 sid) eqn:Hsid; [|rewrite Hw; simpl; by rewrite Hw].
  destruct (f SelectSale) as [e|] eqn:Hsel.
  { rewrite Hw. simpl.
    rewrite update_sale_chosen_idle by done. by rewrite Hsid, Hsel. }
  destruct (select_sale_qty_price sid (tables (conn w))) as [[sqty bprice]|] eqn:Hq;
    [|rewrite Hw; simpl; by rewrite Hw].
  destruct (forallb fits_int64 _) eqn:Hfit; [|rewrite Hw; simpl; by rewrite Hw].
  destruct (f UpdateSale) as [e|] eqn:Hupd.
  { rewrite Hw. cbn [fst].
    rewrite update_sale_chosen_idle by done. cbn [conn write].
    by rewrite Hsid, Hsel, Hq, Hfit, Hupd. }
  destruct (f Commit) as [e|] eqn:Hcom.
  { rewrite Hw. cbn [fst].
    rewrite update_sale_chosen_idle by done. cbn [conn write].
    by rewrite Hsid, Hsel, Hq, Hfit, Hupd, Hcom. }
  (* both runs store the same row *)
  rewrite Hw. cbn [fst].
  rewrite update_sale_chosen_idle by done. cbn [conn write set_conn tables idle].
  rewrite Hsid, Hsel, select_after_update, Hq, Hfit, Hupd, Hcom.
  cbn [fst conn write set_conn]. unfold idle, with_sale. cbn [sale member book sale_seq].
  by rewrite alter_twice_same.
Qed.

Lemma update_sale_idempotent_witness :
  let once := (update_sale_chosen no_faults 1 50 (start seed_db)).1 in
  let twice := (update_sale_chosen no_faults 1 50 once).1 in
  Sale.stotal <$> sale (tables (conn once)) !! 1 = Some 1150
  ∧ conn twice = conn once.
Proof.
  split; [reflexivity|].
  apply (update_sale_idempotent no_faults 1 50 (start seed_db)). reflexivity.
Defined.

(** ** The claim about delete *)

(** C7 — deleting a sale takes exactly the row with that [sid] out of the
    sale table, so that the list shown for selection and the report are
    the old ones without the rows of that [sid]; the books with their
    stock, the members and the AUTOINCREMENT counter are as before; and
    when no sale has that [sid] the tables do not change, the call
    returns without an exception and prints the same confirmation. *)
Theorem delete_sale_removes_row f sid w :
  let d := tables (conn w) in
  let w' := (delete_sale_chosen f sid w).1 in
  let d' := tables (conn w') in
  fits_int64 sid = true →
  f DeleteSale = None → f Commit = None →
  (delete_sale_chosen f sid w).2 = Return tt
  ∧ stdout w' = (stdout w ++ [msg_sale_deleted sid])%list
  ∧ sale d' = delete sid (sale d)
  ∧ book d' = book d ∧ member d' = member d ∧ sale_seq d' = sale_seq d
  ∧ journal (conn w') = None
  ∧ select_sale_list d' = filter (λ r, r.1.1 ≠ sid) (select_sale_list d)
  ∧ select_sale_report d' = filter (λ r, r.1.1.1.1.1.1.1 ≠ sid) (select_sale_report d)
  ∧ (sale d !! sid = None → d' = d).
Proof.
  intros d w' d' Hsid Hdel Hcom. subst d' w'.
  rewrite delete_sale_chosen_unfold. fold d. rewrite Hsid, Hdel, Hcom.
  cbn [fst snd conn write set_conn tables journal idle stdout].
  split_and!; try done.
  - apply select_sale_list_delete.
  - apply select_sale_report_delete.
  - intros Hnone. unfold with_sale. rewrite delete_id by done. by destruct d.
Qed.

Lemma delete_sale_removes_row_witness :
  let w' := (delete_sale_chosen no_faults 2 (start seed_db)).1 in
  let w'' := (delete_sale_chosen no_faults 2 w').1 in
  map (λ r, r.1.1) (select_sale_list (tables (conn w'))) = [1; 3; 4]
  ∧ map (λ r, r.1.1.1.1.1.1.1) (select_sale_report (tables (conn w'))) = [1; 3; 4]
  ∧ book (tables (conn w')) = seed_book
  ∧ (delete_sale_chosen no_faults 2 w').2 = Return tt
  ∧ tables (conn w'') = tables (conn w').
Proof.
  intros w' w''.
  destruct (delete_sale_removes_row no_faults 2 (start seed_db))
    as (_ & _ & _ & Hbook & _ & _ & _ & Hlist & Hreport & _); try reflexivity.
  destruct (delete_sale_removes_row no_faults 2 w')
    as (Hret & _ & _ & _ & _ & _ & _ & _ & _ & Hagain); try reflexivity.
  fold w' in Hlist, Hreport, Hbook. fold w'' in Hagain.
  rewrite Hlist, Hreport, Hbook.
  split_and!; [reflexivity | reflexivity | reflexivity | exact Hret |].
  apply Hagain. reflexivity.
Defined.

(** ** Stock never goes below zero *)

(** Create turns down a quantity above the stock, so what it leaves is
    not negative. *)
Lemma add_sale_keeps_stock f sdate mid bid sqty sdiscount w :
  journal (conn w) = None →
  stock_nonneg (tables (conn w)) →
  journal (conn (add_sale f sdate mid bid sqty sdiscount w).1) = None
  ∧ stock_nonneg (tables (conn (add_sale f sdate mid bid sqty sdiscount w).1)).
Proof.
  intros Hidle Hinv.
  destruct (valid_sale_dec (tables (conn w)) sdate mid bid sqty sdiscount) as [[b Hv]|Hn].
  2:{ destruct (add_sale_invalid f _ _ _ _ _ w Hn) as [m Hm].
      rewrite Hm. simpl. by rewrite turned_down_idle. }
  rewrite (add_sale_persist f _ _ _ _ _ w b Hv).
  rewrite (undone_idle w Hidle).
  destruct Hv as (_ & _ & Hb & [Hq1 Hq2] & _).
  destruct (forallb fits_int64 _); [|done].
  destruct (f InsertSale); [done|].
  destruct (next_sid _); [|done].
  destruct (f UpdateBookStock); [done|].
  destruct (f Commit); [done|].
  split; [done|]. unfold stock_nonneg. simpl.
  rewrite (alter_as_insert _ _ bid b Hb).
  apply map_Forall_insert_2; [simpl; lia | done].
Qed.

(** Update never writes to the book table. *)
Lemma update_sale_keeps_books f sid sdiscount w :
  journal (conn w) = None →
  journal (conn (update_sale_chosen f sid sdiscount w).1) = None
  ∧ book (tables (conn (update_sale_chosen f sid sdiscount w).1)) = book (tables (conn w)).
Proof.
  intros Hidle. rewrite update_sale_chosen_idle by done.
  destruct (fits_int64 sid); [|done].
  destruct (f SelectSale); [done|].
  destruct (select_sale_qty_price _ _) as [[sqty bprice]|]; [|done].
  cbv zeta. destruct (forallb fits_int64 _); [|done].
  destruct (f UpdateSale); [done|]. by destruct (f Commit).
Qed.

(** Delete never writes to the book table. *)
Lemma delete_sale_keeps_books f sid w :
  journal (conn w) = None →
  journal (conn (delete_sale_chosen f sid w).1) = None
  ∧ book (tables (conn (delete_sale_chosen f sid w).1)) = book (tables (conn w)).
Proof.
  intros Hidle. rewrite delete_sale_chosen_idle by done.
  destruct (fits_int64 sid); [|done].
  destruct (f DeleteSale); [done|]. by destruct (f Commit).
Qed.

(** No operation leaves a transaction open behind it. *)
Lemma run_op_idle o w :
  journal (conn w) = None → journal (conn (run_op o w).1) = None.
Proof.
  intros Hidle. destruct o as [f sdate mid bid sqty sdiscount|f sid sdiscount|f sid].
  - assert (journal (conn (add_sale f sdate mid bid sqty sdiscount w).1) = None) as H.
    { destruct (valid_sale_dec (tables (conn w)) sdate mid bid sqty sdiscount)
        as [[b Hv]|Hn].
      2:{ destruct (add_sale_invalid f _ _ _ _ _ w Hn) as [m Hm].
          rewrite Hm. simpl. by rewrite turned_down_idle. }
      rewrite (add_sale_persist f _ _ _ _ _ w b Hv), (undone_idle w Hidle).
      destruct (forallb fits_int64 _); [|done].
      destruct (f InsertSale); [done|].
      destruct (next_sid _); [|done].
      destruct (f UpdateBookStock); [done|].
      by destruct (f Commit). }
    unfold run_op, mbind, py_bind.
    by destruct (add_sale f sdate mid bid sqty sdiscount w) as [w' [a|e]].
  - by destruct (update_sale_keeps_books f sid sdiscount w Hidle).
  - by destruct (delete_sale_keeps_books f sid w Hidle).
Qed.

Lemma run_ops_idle ops w :
  journal (conn w) = None → journal (conn (run_ops ops w).1) = None.
Proof.
  revert w. induction ops as [|o ops IH]; intros w Hidle; [done|].
  pose proof (run_op_idle o w Hidle) as Hidle'.
  simpl. unfold mbind, py_bind.
  destruct (run_op o w) as [w' [[]|e]]; simpl in *; [|done].
  by apply IH.
Qed.

Lemma run_op_keeps_stock o w :
  journal (conn w) = None →
  stock_nonneg (tables (conn w)) →
  journal (conn (run_op o w).1) = None ∧ stock_nonneg (tables (conn (run_op o w).1)).
Proof.
  intros Hidle Hinv. destruct o as [f sdate mid bid sqty sdiscount|f sid sdiscount|f sid].
  - pose proof (add_sale_keeps_stock f sdate mid bid sqty sdiscount w Hidle Hinv) as H.
    unfold run_op, mbind, py_bind.
    destruct (add_sale f sdate mid bid sqty sdiscount w) as [w' [a|e]]; exact H.
  - destruct (update_sale_keeps_books f sid sdiscount w Hidle) as [H1 H2].
    split; [done|]. unfold stock_nonneg, run_op. by rewrite H2.
  - destruct (delete_sale_keeps_books f sid w Hidle) as [H1 H2].
    split; [done|]. unfold stock_nonneg, run_op. by rewrite H2.
Qed.

(** C8 — starting from tables in which no stock is negative and with no
    transaction open, whatever creates, updates and deletes are run, with
    whatever failures of the storage layer, no stock is negative
    afterwards. *)
Theorem stock_never_negative ops w :
  journal (conn w) = None →
  stock_nonneg (tables (conn w)) →
  stock_nonneg (tables (conn (run_ops ops w).1)).
Proof.
  revert w. induction ops as [|o ops IH]; intros w Hidle Hinv; [done|].
  destruct (run_op_keeps_stock o w Hidle Hinv) as [Hidle' Hinv'].
  simpl. unfold mbind, py_bind.
  destruct (run_op o w) as [w' [[]|e]]; simpl in *; [|done].
  by apply IH.
Qed.

Lemma stock_never_negative_witness :
  let ops := [Create no_faults "2024-02-01" "M001" "B001" 50 0;
              Create no_faults "2024-02-02" "M002" "B001" 1 0;
              Update no_faults 5 10;
              Delete stock_update_fails 5;
              Create stock_update_fails "2024-02-03" "M003" "B002" 30 0] in
  let d' := tables (conn (run_ops ops (start seed_db)).1) in
  stock_nonneg d'
  ∧ Book.bstock <$> book d' !! "B001" = Some 0
  ∧ Book.bstock <$> book d' !! "B002" = Some 30.
Proof.
  intros ops d'. split; [|split; reflexivity].
  apply (stock_never_negative ops (start seed_db)); [reflexivity|].
  unfold stock_nonneg. simpl. unfold seed_book.
  repeat (apply map_Forall_insert_2; [simpl; lia|]).
  apply map_Forall_empty.
Defined.

(** ** The prompts only choose what the engine is asked to do *)

Section ConsoleFacts.

Variable strip : string → string.
Variable int : string → option Z.

Lemma with_conn_bind_return {A B} (m : py A) (k : A → py B) w w0 a :
  m w = (w0, Return a) → with_conn (m ≫= k) w = with_conn (k a) w0.
Proof. intros H. unfold with_conn. by rewrite (bind_return m k w w0 a H). Qed.

Lemma with_conn_bind_raise {A B} (m : py A) (k : A → py B) w w0 e :
  m w = (w0, Raise e) →
  with_conn (m ≫= k) w = (set_conn (rollback_conn (conn w0)) w0, Raise e).
Proof. intros H. unfold with_conn. by rewrite (bind_raise m k w w0 e H). Qed.

Lemma print_all_keeps lines w :
  ∃ w0, print_all lines w = (w0, Return tt) ∧ conn w0 = conn w.
Proof.
  revert w. induction lines as [|l lines IH]; intros w; [by exists w|].
  simpl. destruct (IH (write l w)) as (w0 & H & Hc).
  exists w0. split; [|done].
  by rewrite (bind_return (print l) _ w (write l w) tt).
Qed.

Lemma print_sale_list_keeps sales w :
  ∃ w0, print_sale_list sales w = (w0, Return tt) ∧ conn w0 = conn w.
Proof.
  unfold print_sale_list.
  destruct (print_all_keeps (imap sale_line sales)
              (write (newline +:+ "======== 銷售記錄列表 ========") w)) as (w1 & H1 & Hc1).
  exists (write rule32 w1). split; [|done].
  rewrite (bind_return (print _) _ w _ tt eq_refl).
  by rewrite (bind_return (print_all _) _ _ w1 tt H1).
Qed.

Lemma choose_sid_keeps prompt sales w :
  ∃ w0 r, choose_sid strip int prompt sales w = (w0, r)
          ∧ conn w0 = conn w
          ∧ ∀ sid, r = Return (Some sid) → ∃ mname sdate, (sid, mname, sdate) ∈ sales.
Proof.
  unfold choose_sid, input, mbind, py_bind.
  destruct (stdin w) as [|line rest];
    [eexists _, _; split_and!; [reflexivity|reflexivity|intros ? [=]]|].
  case_bool_decide;
    [eexists _, _; split_and!; [reflexivity|reflexivity|intros ? [=]]|].
  destruct (int (strip line)) as [choice|];
    [|eexists _, _; split_and!; [reflexivity|reflexivity|intros ? [=]]].
  destruct ((choice <? 1) || (choice >? Z.of_nat (length sales)));
    [eexists _, _; split_and!; [reflexivity|reflexivity|intros ? [=]]|].
  eexists _, _. split_and!; [done|done|].
  intros sid Hsid. unfold mret, py_ret in Hsid.
  destruct (sales !! Z.to_nat (choice - 1)) as [[[sid' mname] sdate]|] eqn:Hrow; [|done].
  simpl in Hsid. simplify_eq. exists mname, sdate.
  by eapply list_elem_of_lookup_2.
Qed.

Lemma read_discount_nonneg lines out rest out' n :
  read_discount strip int lines out = (rest, out', Return n) → 0 ≤ n.
Proof.
  revert out. induction lines as [|line lines IH]; intros out H; [done|].
  simpl in H. destruct (int (strip line)) as [d|]; [|by eapply IH].
  destruct (Z.ltb_spec d 0); [by eapply IH|]. by simplify_eq.
Qed.

Lemma ask_discount_keeps w :
  ∃ w0 r, ask_discount strip int w = (w0, r)
          ∧ conn w0 = conn w
          ∧ ∀ n, r = Return n → 0 ≤ n.
Proof.
  unfold ask_discount.
  destruct (read_discount strip int (stdin w) (stdout w)) as [[rest out] r] eqn:H.
  eexists _, _. split_and!; [done|done|].
  intros n ->. by eapply read_discount_nonneg.
Qed.

(** [update_sale] either writes nothing to the tables, or does what
    [update_sale_chosen] does for a sale of the list it showed and a
    discount that is not negative. *)
Lemma update_sale_cases f w :
  (∃ w0 r, update_sale strip int f w = (w0, r)
           ∧ (conn w0 = commit_conn (conn w) ∨ conn w0 = rollback_conn (conn w)))
  ∨ (∃ sid mname sdate sdiscount w0,
       (sid, mname, sdate) ∈ select_sale_list (tables (conn w))
       ∧ 0 ≤ sdiscount
       ∧ conn w0 = conn w
       ∧ update_sale strip int f w = update_sale_chosen f sid sdiscount w0).
Proof.
  unfold update_sale.
  rewrite (with_conn_bind_return get_tables _ w w (tables (conn w)) eq_refl).
  destruct (select_sale_list (tables (conn w))) as [|row rows] eqn:Hsales.
  { left. by repeat eexists; left. }
  destruct (print_sale_list_keeps (row :: rows) w) as (w1 & H1 & Hc1).
  rewrite (with_conn_bind_return _ _ w w1 tt H1).
  destruct (choose_sid_keeps "請選擇要更新的銷售編號 (輸入數字或按 Enter 取消): "
              (row :: rows) w1) as (w2 & r & H2 & Hc2 & Hin).
  destruct r as [[sid|]|e].
  - rewrite (with_conn_bind_return _ _ w1 w2 _ H2).
    destruct (Hin sid eq_refl) as (mname & sdate & Hrow).
    destruct (ask_discount_keeps w2) as (w3 & r & H3 & Hc3 & Hpos).
    destruct r as [sdiscount|e].
    + right. exists sid, mname, sdate, sdiscount, w3.
      split_and!; [done|by apply Hpos|congruence|].
      by rewrite (with_conn_bind_return _ _ w2 w3 _ H3).
    + left. rewrite (with_conn_bind_raise _ _ w2 w3 e H3).
      eexists _, _. split; [done|]. right. simpl. congruence.
  - rewrite (with_conn_bind_return _ _ w1 w2 _ H2).
    left. eexists _, _. split; [done|]. left. simpl. congruence.
  - rewrite (with_conn_bind_raise _ _ w1 w2 e H2).
    left. eexists _, _. split; [done|]. right. simpl. congruence.
Qed.

(** [delete_sale] likewise. *)
Lemma delete_sale_cases f w :
  (∃ w0 r, delete_sale strip int f w = (w0, r)
           ∧ (conn w0 = commit_conn (conn w) ∨ conn w0 = rollback_conn (conn w)))
  ∨ (∃ sid mname sdate w0,
       (sid, mname, sdate) ∈ select_sale_list (tables (conn w))
       ∧ conn w0 = conn w
       ∧ delete_sale strip int f w = delete_sale_chosen f sid w0).
Proof.
  unfold delete_sale.
  rewrite (with_conn_bind_return get_tables _ w w (tables (conn w)) eq_refl).
  destruct (select_sale_list (tables (conn w))) as [|row rows] eqn:Hsales.
  { left. by repeat eexists; left. }
  destruct (print_sale_list_keeps (row :: rows) w) as (w1 & H1 & Hc1).
  rewrite (with_conn_bind_return _ _ w w1 tt H1).
  destruct (choose_sid_keeps "請選擇要刪除的銷售編號 (輸入數字或按 Enter 取消): "
              (row :: rows) w1) as (w2 & r & H2 & Hc2 & Hin).
  destruct r as [[sid|]|e].
  - rewrite (with_conn_bind_return _ _ w1 w2 _ H2).
    destruct (Hin sid eq_refl) as (mname & sdate & Hrow).
    right. exists sid, mname, sdate, w2. split_and!; [done|congruence|done].
  - rewrite (with_conn_bind_return _ _ w1 w2 _ H2).
    left. eexists _, _. split; [done|]. left. simpl. congruence.
  - rewrite (with_conn_bind_raise _ _ w1 w2 e H2).
    left. eexists _, _. split; [done|]. right. simpl. congruence.
Qed.


End ConsoleFacts.

(** * More of the program *)

(** ** What one operation does to the tables *)

Lemma add_sale_change P f sdate mid bid sqty sdiscount w :
  journal (conn w) = None →
  let w' := (add_sale f sdate mid bid sqty sdiscount w).1 in
  journal (conn w') = None
  ∧ change P (tables (conn w)) (tables (conn w'))
  ∧ stdin w' = stdin w.
Proof.
  intros Hidle w'. subst w'.
  destruct (valid_sale_dec (tables (conn w)) sdate mid bid sqty sdiscount) as [[b Hv]|Hn].
  2:{ destruct (add_sale_invalid f _ _ _ _ _ w Hn) as [m Hm].
      rewrite Hm. simpl. rewrite turned_down_idle by done.
      split_and!; [done|constructor|done]. }
  rewrite (add_sale_persist f _ _ _ _ _ w b Hv), (undone_idle w Hidle).
  destruct (forallb fits_int64 _); [|split_and!; [done|constructor|done]].
  destruct (f InsertSale); [split_and!; [done|constructor|done]|].
  destruct (next_sid _) as [sid|] eqn:Hsid; [|split_and!; [done|constructor|done]].
  destruct (f UpdateBookStock); [split_and!; [done|constructor|done]|].
  destruct (f Commit); [split_and!; [done|constructor|done]|].
  split_and!; [done| |done]. simpl.
  pose proof Hv as (_ & _ & Hb & _).
  rewrite (alter_as_insert _ _ bid b Hb).
  by apply (change_create P _ sdate mid bid sqty sdiscount b sid).
Qed.

Lemma select_sale_qty_price_Some d sid sqty bprice :
  select_sale_qty_price sid d = Some (sqty, bprice) →
  ∃ s b, sale d !! sid = Some s ∧ book d !! Sale.bid s = Some b
         ∧ sqty = Sale.sqty s ∧ bprice = Book.bprice b.
Proof.
  unfold select_sale_qty_price. intros H.
  destruct (sale d !! sid) as [s|] eqn:Hs; [|done]. simpl in H.
  destruct (book d !! Sale.bid s) as [b|] eqn:Hb; [|done]. simpl in H.
  simplify_eq. by exists s, b.
Qed.

Lemma update_sale_chosen_change (P : Z → Prop) f sid sdiscount w :
  journal (conn w) = None →
  P sdiscount →
  let w' := (update_sale_chosen f sid sdiscount w).1 in
  journal (conn w') = None
  ∧ change P (tables (conn w)) (tables (conn w'))
  ∧ stdin w' = stdin w.
Proof.
  intros Hidle HP w'. subst w'. rewrite update_sale_chosen_idle by done.
  destruct (fits_int64 sid); [|split_and!; [done|constructor|done]].
  destruct (f SelectSale); [split_and!; [done|constructor|done]|].
  destruct (select_sale_qty_price _ _) as [[sqty bprice]|] eqn:Hq;
    [|split_and!; [done|constructor|done]].
  cbv zeta. destruct (forallb fits_int64 _); [|split_and!; [done|constructor|done]].
  destruct (f UpdateSale); [split_and!; [done|constructor|done]|].
  destruct (f Commit); [split_and!; [done|constructor|done]|].
  apply select_sale_qty_price_Some in Hq as (s & b & Hs & Hb & -> & ->).
  split_and!; [done| |done]. simpl.
  rewrite (alter_as_insert _ _ sid s Hs).
  by apply (change_update P _ sid sdiscount s b).
Qed.

Lemma delete_sale_chosen_change P f sid w :
  journal (conn w) = None →
  let w' := (delete_sale_chosen f sid w).1 in
  journal (conn w') = None
  ∧ change P (tables (conn w)) (tables (conn w'))
  ∧ stdin w' = stdin w.
Proof.
  intros Hidle w'. subst w'. rewrite delete_sale_chosen_idle by done.
  destruct (fits_int64 sid); [|split_and!; [done|constructor|done]].
  destruct (f DeleteSale); [split_and!; [done|constructor|done]|].
  destruct (f Commit); [split_and!; [done|constructor|done]|].
  split_and!; [done|apply change_delete|done].
Qed.

Lemma run_op_change o w :
  journal (conn w) = None →
  journal (conn (run_op o w).1) = None
  ∧ change (λ _, True) (tables (conn w)) (tables (conn (run_op o w).1)).
Proof.
  intros Hidle. destruct o as [f sdate mid bid sqty sdiscount|f sid sdiscount|f sid].
  - destruct (add_sale_change (λ _, True) f sdate mid bid sqty sdiscount w Hidle)
      as (H1 & H2 & _).
    unfold run_op, mbind, py_bind.
    by destruct (add_sale f sdate mid bid sqty sdiscount w) as [w' [a|e]].
  - by destruct (update_sale_chosen_change (λ _, True) f sid sdiscount w Hidle I)
      as (H1 & H2 & _).
  - by destruct (delete_sale_chosen_change (λ _, True) f sid w Hidle) as (H1 & H2 & _).
Qed.

Lemma run_ops_change ops w :
  journal (conn w) = None →
  journal (conn (run_ops ops w).1) = None
  ∧ rtc (change (λ _, True)) (tables (conn w)) (tables (conn (run_ops ops w).1)).
Proof.
  revert w. induction ops as [|o ops IH]; intros w Hidle; [done|].
  destruct (run_op_change o w Hidle) as [Hidle' Hch].
  simpl. unfold mbind, py_bind.
  destruct (run_op o w) as [w' [[]|e]]; simpl in *.
  - destruct (IH w' Hidle') as [H1 H2]. split; [done|]. by eapply rtc_l.
  - split; [done|]. by apply rtc_once.
Qed.

(** ** What every change keeps *)

Lemma change_stock P d d' : change P d d' → stock_nonneg d → stock_nonneg d'.
Proof.
  unfold stock_nonneg. intros Hch H.
  destruct Hch as [| sdate mid bid sqty sdiscount b sid Hv _ | sid sdiscount s b _ _ _ | sid];
    try done.
  destruct Hv as (_ & _ & Hb & [? ?] & _). simpl.
  apply map_Forall_insert_2; [simpl; lia|done].
Qed.

Lemma change_totals P d d' : change P d d' → totals_hold d → totals_hold d'.
Proof.
  unfold totals_hold.
  intros Hch H.
  destruct Hch as [| sdate mid bid sqty sdiscount b sid Hv Hsid | sid sdiscount s b Hs Hb _ | sid];
    [done|..]; simpl; intros k r c Hr Hc.
  - destruct Hv as (_ & _ & Hb & _).
    assert (∃ c0, book d !! Sale.bid r = Some c0 ∧ Book.bprice c0 = Book.bprice c)
      as (c0 & Hc0 & Hprice).
    { destruct (decide (bid = Sale.bid r)) as [Heq|Hne].
      - rewrite <- Heq in Hc |- *. rewrite lookup_insert_eq in Hc. simplify_eq. by exists b.
      - rewrite lookup_insert_ne in Hc by done. by exists c. }
    destruct (decide (sid = k)) as [->|Hne].
    + rewrite lookup_insert_eq in Hr. simplify_eq. simpl in *.
      rewrite <- Hprice. congruence.
    + rewrite lookup_insert_ne in Hr by done. rewrite <- Hprice. by eapply H.
  - destruct (decide (sid = k)) as [->|Hne].
    + rewrite lookup_insert_eq in Hr. simplify_eq. simpl in *. by simplify_eq.
    + rewrite lookup_insert_ne in Hr by done. by eapply H.
  - apply lookup_delete_Some in Hr as [_ Hr]. by eapply H.
Qed.

Lemma change_references P d d' : change P d d' → references_hold d → references_hold d'.
Proof.
  unfold references_hold.
  intros Hch H.
  destruct Hch as [| sdate mid bid sqty sdiscount b sid Hv Hsid | sid sdiscount s b Hs Hb _ | sid];
    [done|..]; simpl; intros k r Hr.
  - destruct Hv as (_ & Hm & Hb & _).
    assert (∀ x, is_Some (book d !! x) →
                 is_Some (<[bid := Book.set_bstock (Book.bstock b - sqty) b]> (book d) !! x))
      as Hkeep.
    { intros x Hx. destruct (decide (bid = x)) as [->|Hne].
      - rewrite lookup_insert_eq. by eexists.
      - by rewrite lookup_insert_ne. }
    destruct (decide (sid = k)) as [->|Hne].
    + rewrite lookup_insert_eq in Hr. simplify_eq. simpl. split; [done|].
      apply Hkeep. by eexists.
    + rewrite lookup_insert_ne in Hr by done.
      destruct (H k r Hr) as [? ?]. split; [done|]. by apply Hkeep.
  - destruct (decide (sid = k)) as [->|Hne].
    + rewrite lookup_insert_eq in Hr. simplify_eq. simpl. by eapply H.
    + rewrite lookup_insert_ne in Hr by done. by eapply H.
  - apply lookup_delete_Some in Hr as [_ Hr]. by eapply H.
Qed.

Lemma change_quantities P d d' : change P d d' → quantities_hold d → quantities_hold d'.
Proof.
  unfold quantities_hold.
  intros Hch H.
  destruct Hch as [| sdate mid bid sqty sdiscount b sid Hv Hsid | sid sdiscount s b Hs Hb _ | sid];
    [done|..]; simpl; intros k r Hr.
  - destruct Hv as (_ & _ & _ & [? ?] & _).
    destruct (decide (sid = k)) as [->|Hne].
    + rewrite lookup_insert_eq in Hr. by simplify_eq.
    + rewrite lookup_insert_ne in Hr by done. by eapply H.
  - destruct (decide (sid = k)) as [->|Hne].
    + rewrite lookup_insert_eq in Hr. simplify_eq. simpl. by eapply H.
    + rewrite lookup_insert_ne in Hr by done. by eapply H.
  - apply lookup_delete_Some in Hr as [_ Hr]. by eapply H.
Qed.

Lemma change_amounts d d' : change (λ x, 0 ≤ x) d d' → amounts_hold d → amounts_hold d'.
Proof.
  unfold amounts_hold.
  intros Hch H.
  destruct Hch as [| sdate mid bid sqty sdiscount b sid Hv Hsid | sid sdiscount s b Hs Hb Hp | sid];
    [done|..]; simpl; intros k r Hr.
  - destruct Hv as (_ & _ & _ & [? ?] & ?).
    destruct (decide (sid = k)) as [->|Hne].
    + rewrite lookup_insert_eq in Hr. by simplify_eq.
    + rewrite lookup_insert_ne in Hr by done. by eapply H.
  - destruct (decide (sid = k)) as [->|Hne].
    + rewrite lookup_insert_eq in Hr. simplify_eq. simpl. split; [|done]. by eapply H.
    + rewrite lookup_insert_ne in Hr by done. by eapply H.
  - apply lookup_delete_Some in Hr as [_ Hr]. by eapply H.
Qed.

Lemma next_sid_above_all d sid k r :
  next_sid d = Some sid → sale d !! k = Some r → k < sid.
Proof.
  unfold next_sid. intros H Hr.
  destruct (max_rowid_bounds _ _ _ Hr) as (m & Hm & Hle).
  rewrite Hm in H. case_match; [done|]. simplify_eq. lia.
Qed.

Lemma change_sids_counted P d d' : change P d d' → sids_counted d → sids_counted d'.
Proof.
  unfold sids_counted.
  intros Hch H.
  destruct Hch as [| sdate mid bid sqty sdiscount b sid Hv Hsid | sid sdiscount s b Hs Hb _ | sid];
    [done|..]; simpl; intros k r Hr.
  - destruct (decide (sid = k)) as [->|Hne]; [lia|].
    rewrite lookup_insert_ne in Hr by done.
    pose proof (next_sid_above_all _ _ _ _ Hsid Hr). lia.
  - destruct (decide (sid = k)) as [->|Hne].
    + by eapply H.
    + rewrite lookup_insert_ne in Hr by done. by eapply H.
  - apply lookup_delete_Some in Hr as [_ Hr]. by eapply H.
Qed.

(** A [sid] that was handed out and is no longer in the table stays out. *)
Lemma change_retired P d d' sid0 :
  change P d d' →
  sid0 ≤ sale_seq d ∧ sale d !! sid0 = None →
  sid0 ≤ sale_seq d' ∧ sale d' !! sid0 = None.
Proof.
  intros Hch [Hle Hnone].
  destruct Hch as [| sdate mid bid sqty sdiscount b sid Hv Hsid | sid sdiscount s b Hs Hb _ | sid];
    [done|..]; simpl.
  - pose proof (next_sid_above_seq _ _ Hsid) as [? _].
    split; [lia|]. rewrite lookup_insert_ne by lia. done.
  - split; [done|]. rewrite lookup_insert_ne by congruence. done.
  - split; [done|]. apply lookup_delete_None. by right.
Qed.

Lemma books_kept_refl d : books_kept d d.
Proof. split; [done|]. intros k. by destruct (book d !! k). Qed.

Lemma books_kept_trans d1 d2 d3 : books_kept d1 d2 → books_kept d2 d3 → books_kept d1 d3.
Proof.
  intros [Hm1 Hb1] [Hm2 Hb2]. split; [congruence|]. intros k.
  specialize (Hb1 k). specialize (Hb2 k).
  destruct (book d1 !! k), (book d2 !! k), (book d3 !! k); try done.
  destruct Hb1, Hb2. split; congruence.
Qed.

Lemma change_books_kept P d d' : change P d d' → books_kept d d'.
Proof.
  intros Hch.
  destruct Hch as [| sdate mid bid sqty sdiscount b sid Hv Hsid | sid sdiscount s b Hs Hb _ | sid];
    try (split; [done|]; intros k; simpl; by destruct (book d !! k)).
  split; [done|]. intros k. simpl. destruct Hv as (_ & _ & Hb & _).
  destruct (decide (bid = k)) as [->|Hne].
  - by rewrite lookup_insert_eq, Hb.
  - rewrite lookup_insert_ne by done. by destruct (book d !! k).
Qed.

Lemma change_seed_prices P d d' : change P d d' → seed_prices d → seed_prices d'.
Proof.
  intros Hch H k v b' Hin Hb'.
  destruct (change_books_kept P d d' Hch) as [_ Hk]. specialize (Hk k).
  rewrite Hb' in Hk. destruct (book d !! k) as [b|] eqn:Hb; [|done].
  destruct Hk as [_ ->]. by eapply H.
Qed.

Lemma change_seq P d d' : change P d d' → sale_seq d ≤ sale_seq d'.
Proof.
  intros Hch.
  destruct Hch as [| sdate mid bid sqty sdiscount b sid Hv Hsid | sid sdiscount s b _ _ _ | sid];
    simpl; try lia.
  pose proof (next_sid_above_seq _ _ Hsid). lia.
Qed.

Lemma rtc_keeps {A} (R : relation A) (Q : A → Prop) x y :
  (∀ a b, R a b → Q a → Q b) → rtc R x y → Q x → Q y.
Proof. intros HR. induction 1; eauto. Qed.

(** ** What the engine keeps true whatever it is asked to do *)

(** X1 — when every total in the file is the price of the book times the
    quantity minus the discount, this is still so after any creates,
    updates and deletes, with whatever failures of the storage layer. *)
Theorem totals_kept_by_ops ops w :
  journal (conn w) = None →
  totals_hold (tables (conn w)) →
  totals_hold (tables (conn (run_ops ops w).1)).
Proof.
  intros Hidle H. destruct (run_ops_change ops w Hidle) as [_ Hch].
  revert Hch H. apply rtc_keeps. apply change_totals.
Qed.

Lemma seed_db_totals : totals_hold seed_db.
Proof.
  intros sid s b Hs Hb. simpl in Hs. unfold seed_sale in Hs.
  repeat (apply lookup_insert_Some in Hs as [[<- <-]|[_ Hs]];
          [simpl in Hb; unfold seed_book in Hb;
           repeat (apply lookup_insert_Some in Hb as [[? <-]|[_ Hb]]; [by simplify_eq|]);
           by rewrite lookup_empty in Hb|]).
  by rewrite lookup_empty in Hs.
Qed.

Lemma totals_kept_by_ops_witness :
  totals_hold
    (tables (conn (run_ops [Create no_faults "2024-02-01" "M001" "B001" 2 100;
                            Update no_faults 1 0;
                            Delete no_faults 2;
                            Update stock_update_fails 5 7] (start seed_db)).1)).
Proof.
  apply (totals_kept_by_ops _ (start seed_db)); [reflexivity|].
  apply seed_db_totals.
Defined.

(** X2 — when every sale names a member and a book that exist, this is
    still so after any creates, updates and deletes. *)
Theorem references_kept_by_ops ops w :
  journal (conn w) = None →
  references_hold (tables (conn w)) →
  references_hold (tables (conn (run_ops ops w).1)).
Proof.
  intros Hidle H. destruct (run_ops_change ops w Hidle) as [_ Hch].
  revert Hch H. apply rtc_keeps. apply change_references.
Qed.

Lemma seed_db_references : references_hold seed_db.
Proof.
  intros sid s Hs. simpl in Hs. unfold seed_sale in Hs.
  repeat (apply lookup_insert_Some in Hs as [[<- <-]|[_ Hs]];
          [split; eexists; reflexivity|]).
  by rewrite lookup_empty in Hs.
Qed.

Lemma references_kept_by_ops_witness :
  references_hold
    (tables (conn (run_ops [Create no_faults "2024-02-01" "M001" "B001" 2 100;
                            Delete no_faults 2] (start seed_db)).1)).
Proof.
  apply (references_kept_by_ops _ (start seed_db)); [reflexivity|].
  apply seed_db_references.
Defined.

(** X3 — a sale id is never used twice: an id that was handed out and
    whose sale is gone does not come back, whatever creates, updates and
    deletes follow. *)
Theorem sid_never_reused ops w sid :
  journal (conn w) = None →
  sid ≤ sale_seq (tables (conn w)) →
  sale (tables (conn w)) !! sid = None →
  sale (tables (conn (run_ops ops w).1)) !! sid = None.
Proof.
  intros Hidle Hle Hnone. destruct (run_ops_change ops w Hidle) as [_ Hch].
  enough (sid ≤ sale_seq (tables (conn (run_ops ops w).1))
          ∧ sale (tables (conn (run_ops ops w).1)) !! sid = None) as [_ ?] by done.
  revert Hch. generalize (conj Hle Hnone).
  generalize (tables (conn w)) (tables (conn (run_ops ops w).1)).
  intros d d' H Hch. revert H. induction Hch as [|x y z Hxy _ IH]; [done|].
  intros H. apply IH. by eapply change_retired.
Qed.

(** The last sale is deleted and two more are created: they get 6 and 7. *)
Lemma sid_never_reused_witness :
  let w := (run_ops [Create no_faults "2024-02-01" "M001" "B001" 2 100;
                     Delete no_faults 5] (start seed_db)).1 in
  let w' := (run_ops [Create no_faults "2024-02-02" "M002" "B002" 1 0;
                      Create no_faults "2024-02-03" "M003" "B003" 1 0] w).1 in
  sale (tables (conn w')) !! 5 = None
  ∧ sids (tables (conn w')) = [1; 2; 3; 4; 6; 7].
Proof.
  intros w w'. split; [|reflexivity].
  apply (sid_never_reused _ w 5); [reflexivity|vm_compute; congruence|reflexivity].
Defined.

(** X4 — creates, updates and deletes never write to the member table,
    never add or remove a book, and never change the title or the price
    of a book: the stock is all they touch outside the sale table. *)
Theorem books_kept_by_ops ops w :
  journal (conn w) = None →
  books_kept (tables (conn w)) (tables (conn (run_ops ops w).1)).
Proof.
  intros Hidle. destruct (run_ops_change ops w Hidle) as [_ Hch].
  induction Hch as [|x y z Hxy _ IH]; [apply books_kept_refl|].
  eapply books_kept_trans; [|done]. by eapply change_books_kept.
Qed.

Lemma books_kept_by_ops_witness :
  let d' := tables (conn (run_ops [Create no_faults "2024-02-01" "M001" "B001" 2 100;
                                   Update no_faults 5 10;
                                   Delete no_faults 1] (start seed_db)).1) in
  books_kept seed_db d'
  ∧ Book.bstock <$> book d' !! "B001" = Some 48.
Proof.
  intros d'. split; [|reflexivity].
  apply (books_kept_by_ops _ (start seed_db)). reflexivity.
Defined.

(** ** How a create ends *)

(** X5 — a create answers [(True, _)] exactly when the five checks pass,
    the three numbers bound to the INSERT fit 64 bits, a sale id is left,
    and none of INSERT, UPDATE and commit fails in the storage layer. *)
Theorem add_sale_succeeds_iff f sdate mid bid sqty sdiscount w msg :
  let d := tables (conn w) in
  (add_sale f sdate mid bid sqty sdiscount w).2 = Return (true, msg)
  ↔ ∃ b, valid_sale d sdate mid bid sqty sdiscount b
         ∧ forallb fits_int64 [sqty; sdiscount; Book.bprice b * sqty - sdiscount] = true
         ∧ is_Some (next_sid d)
         ∧ f InsertSale = None ∧ f UpdateBookStock = None ∧ f Commit = None
         ∧ msg = msg_sale_added (Book.bprice b * sqty - sdiscount).
Proof.
  intros d. split.
  - intros Hok.
    destruct (valid_sale_dec d sdate mid bid sqty sdiscount) as [[b Hv]|Hn].
    2:{ destruct (add_sale_invalid f _ _ _ _ _ w Hn) as [m Hm].
        by rewrite Hm in Hok. }
    exists b. rewrite (add_sale_persist f _ _ _ _ _ w b Hv) in Hok. fold d in Hok.
    destruct (forallb fits_int64 _); [|done].
    destruct (f InsertSale); [done|].
    destruct (next_sid d) as [sid|]; [|done].
    destruct (f UpdateBookStock); [done|].
    destruct (f Commit); [done|].
    simpl in Hok. split_and!; try done. congruence.
  - intros (b & Hv & Hfit & [sid Hsid] & H1 & H2 & H3 & ->).
    rewrite (add_sale_persist f _ _ _ _ _ w b Hv). fold d.
    by rewrite Hfit, H1, Hsid, H2, H3.
Qed.

Lemma add_sale_succeeds_iff_witness :
  (add_sale no_faults "2024-02-01" "M001" "B001" 2 100 (start seed_db)).2
  = Return (true, "銷售記錄已新增！(銷售總額: 1,100)").
Proof.
  apply (add_sale_succeeds_iff no_faults "2024-02-01" "M001" "B001" 2 100 (start seed_db)).
  exists {| Book.btitle := "Python Programming"; Book.bprice := 600; Book.bstock := 50 |}.
  unfold valid_sale.
  split_and!; try reflexivity; try (simpl; lia); eexists; reflexivity.
Defined.

(** X6 — a number too large for a 64-bit INTEGER is not turned into an
    answer: when the checks pass and the quantity, the discount or the
    total does not fit, the create raises [OverflowError], which
    [except sqlite3.Error] does not catch; the tables stay as they were. *)
Theorem add_sale_overflow f sdate mid bid sqty sdiscount w b :
  valid_sale (tables (conn w)) sdate mid bid sqty sdiscount b →
  forallb fits_int64 [sqty; sdiscount; Book.bprice b * sqty - sdiscount] = false →
  (add_sale f sdate mid bid sqty sdiscount w).2 = Raise OverflowError
  ∧ (journal (conn w) = None → (add_sale f sdate mid bid sqty sdiscount w).1 = w).
Proof.
  intros Hv Hfit. rewrite (add_sale_persist f _ _ _ _ _ w b Hv), Hfit.
  split; [done|]. intros Hidle. simpl. by apply undone_idle.
Qed.

Lemma add_sale_overflow_witness :
  (add_sale no_faults "2024-02-01" "M001" "B001" 2 (2 ^ 63) (start seed_db)).2
  = Raise OverflowError
  ∧ (add_sale no_faults "2024-02-01" "M001" "B001" 2 (2 ^ 63) (start seed_db)).1
    = start seed_db.
Proof.
  destruct (add_sale_overflow no_faults "2024-02-01" "M001" "B001" 2 (2 ^ 63)
              (start seed_db)
              {| Book.btitle := "Python Programming"; Book.bprice := 600;
                 Book.bstock := 50 |}) as [H1 H2].
  - unfold valid_sale.
    split_and!; try reflexivity; try (simpl; lia); eexists; reflexivity.
  - reflexivity.
  - split; [exact H1|]. apply H2. reflexivity.
Defined.

(** X7 — when the AUTOINCREMENT counter has reached the largest 64-bit
    number no sale can be created any more: a create that passes the
    checks answers [(False, _)] with the text of SQLite and changes
    nothing. *)
Theorem add_sale_no_sid_left f sdate mid bid sqty sdiscount w b :
  valid_sale (tables (conn w)) sdate mid bid sqty sdiscount b →
  forallb fits_int64 [sqty; sdiscount; Book.bprice b * sqty - sdiscount] = true →
  f InsertSale = None →
  max_int64 ≤ sale_seq (tables (conn w)) →
  journal (conn w) = None →
  add_sale f sdate mid bid sqty sdiscount w
  = (w, Return (false, msg_database_error "database or disk is full")).
Proof.
  intros Hv Hfit Hf Hseq Hidle.
  rewrite (add_sale_persist f _ _ _ _ _ w b Hv), Hfit, Hf.
  assert (next_sid (tables (conn w)) = None) as ->.
  { unfold next_sid. apply Z.leb_le in Hseq. rewrite Hseq. by rewrite orb_true_r. }
  by rewrite undone_idle.
Qed.

Lemma add_sale_no_sid_left_witness :
  add_sale no_faults "2024-02-01" "M001" "B001" 2 100 (start seed_db_full)
  = (start seed_db_full, Return (false, "錯誤：資料庫操作失敗 - database or disk is full")).
Proof.
  apply (add_sale_no_sid_left no_faults "2024-02-01" "M001" "B001" 2 100
           (start seed_db_full)
           {| Book.btitle := "Python Programming"; Book.bprice := 600;
              Book.bstock := 50 |}).
  - unfold valid_sale.
    split_and!; try reflexivity; try (simpl; lia); eexists; reflexivity.
  - reflexivity.
  - reflexivity.
  - simpl. lia.
  - reflexivity.
Defined.

(** ** Update and delete when the storage fails *)

Lemma last_line_inj (l : list string) a b : (l ++ [a])%list = (l ++ [b])%list → a = b.
Proof. intros H. apply app_inv_head in H. congruence. Qed.

Lemma no_line_added (l : list string) a : l ≠ (l ++ [a])%list.
Proof. intros H. apply (f_equal length) in H. rewrite length_app in H. simpl in H. lia. Qed.

Lemma msg_database_error_inj t t' : msg_database_error t = msg_database_error t' → t = t'.
Proof. unfold msg_database_error. apply String.app_inj. Qed.

Lemma msg_updated_not_error sid stotal t : msg_sale_updated sid stotal ≠ msg_database_error t.
Proof. discriminate. Qed.

Lemma msg_deleted_not_error sid t : msg_sale_deleted sid ≠ msg_database_error t.
Proof. discriminate. Qed.

(** X8 — when the update part of [update_sale] reports a failure of the
    database, the text it prints is that of the SELECT, of the UPDATE or
    of the commit that failed, nothing has changed in the tables, no
    transaction is left open, and the function returns as usual. *)
Theorem update_sale_error_no_effect f sid sdiscount w text :
  journal (conn w) = None →
  stdout (update_sale_chosen f sid sdiscount w).1
  = (stdout w ++ [msg_database_error text])%list →
  conn (update_sale_chosen f sid sdiscount w).1 = conn w
  ∧ (update_sale_chosen f sid sdiscount w).2 = Return tt
  ∧ (f SelectSale = Some text ∨ f UpdateSale = Some text ∨ f Commit = Some text).
Proof.
  intros Hidle. rewrite update_sale_chosen_idle by done.
  destruct (fits_int64 sid); [|by intros ?%no_line_added].
  destruct (f SelectSale) as [e|].
  { intros ->%last_line_inj%msg_database_error_inj. auto. }
  destruct (select_sale_qty_price _ _) as [[sqty bprice]|]; [|by intros ?%no_line_added].
  cbv zeta. destruct (forallb fits_int64 _); [|by intros ?%no_line_added].
  destruct (f UpdateSale) as [e|].
  { intros ->%last_line_inj%msg_database_error_inj. auto. }
  destruct (f Commit) as [e|].
  { intros ->%last_line_inj%msg_database_error_inj. auto. }
  intros H%last_line_inj. by apply msg_updated_not_error in H.
Qed.

Lemma update_sale_error_no_effect_witness :
  let f : faults := λ s, match s with Commit => Some "database is locked" | _ => None end in
  stdout (update_sale_chosen f 1 50 (start seed_db)).1
  = ["錯誤：資料庫操作失敗 - database is locked"]
  ∧ conn (update_sale_chosen f 1 50 (start seed_db)).1 = idle seed_db.
Proof.
  intros f. split; [reflexivity|].
  apply (update_sale_error_no_effect f 1 50 (start seed_db) "database is locked");
    reflexivity.
Defined.

(** X9 — the same for the delete part of [delete_sale]: a failure of the
    DELETE or of the commit is reported with its text and leaves the
    tables as they were. *)
Theorem delete_sale_error_no_effect f sid w text :
  journal (conn w) = None →
  stdout (delete_sale_chosen f sid w).1 = (stdout w ++ [msg_database_error text])%list →
  conn (delete_sale_chosen f sid w).1 = conn w
  ∧ (delete_sale_chosen f sid w).2 = Return tt
  ∧ (f DeleteSale = Some text ∨ f Commit = Some text).
Proof.
  intros Hidle. rewrite delete_sale_chosen_idle by done.
  destruct (fits_int64 sid); [|by intros ?%no_line_added].
  destruct (f DeleteSale) as [e|].
  { intros ->%last_line_inj%msg_database_error_inj. auto. }
  destruct (f Commit) as [e|].
  { intros ->%last_line_inj%msg_database_error_inj. auto. }
  intros H%last_line_inj. by apply msg_deleted_not_error in H.
Qed.

Lemma delete_sale_error_no_effect_witness :
  let f : faults := λ s, match s with Commit => Some "database is locked" | _ => None end in
  stdout (delete_sale_chosen f 1 (start seed_db)).1
  = ["錯誤：資料庫操作失敗 - database is locked"]
  ∧ conn (delete_sale_chosen f 1 (start seed_db)).1 = idle seed_db.
Proof.
  intros f. split; [reflexivity|].
  apply (delete_sale_error_no_effect f 1 (start seed_db) "database is locked");
    reflexivity.
Defined.

(** ** The two functions with their prompts *)

Section PromptFacts.

Variable strip : string → string.
Variable int : string → option Z.

(** X10 — all that [update_sale] can do to the tables is to set the
    discount and the total of one sale of the list it has shown, with a
    discount that is not negative and the total computed from the price
    the book has now; it never leaves a transaction open. *)
Theorem update_sale_effect f w :
  journal (conn w) = None →
  let d := tables (conn w) in
  let w' := (update_sale strip int f w).1 in
  journal (conn w') = None
  ∧ (tables (conn w') = d
     ∨ ∃ sid mname sdate sdiscount s b,
         (sid, mname, sdate) ∈ select_sale_list d
         ∧ 0 ≤ sdiscount
         ∧ sale d !! sid = Some s
         ∧ book d !! Sale.bid s = Some b
         ∧ tables (conn w')
           = with_sale (<[sid := {| Sale.sdate := Sale.sdate s; Sale.mid := Sale.mid s;
                                    Sale.bid := Sale.bid s; Sale.sqty := Sale.sqty s;
                                    Sale.sdiscount := sdiscount;
                                    Sale.stotal := Book.bprice b * Sale.sqty s - sdiscount |}]>
                          (sale d)) d).
Proof.
  intros Hidle d w'. subst w'.
  destruct (update_sale_cases strip int f w)
    as [(w0 & r & -> & Hc)|(sid & mname & sdate & sdiscount & w0 & Hin & Hpos & Hc & ->)].
  { simpl. destruct Hc as [-> | ->].
    - rewrite commit_idle by done. auto.
    - unfold rollback_conn. rewrite Hidle. auto. }
  assert (journal (conn w0) = None) as Hidle0 by congruence.
  rewrite update_sale_chosen_idle by done. rewrite Hc. fold d.
  destruct (fits_int64 sid); [|simpl; rewrite ?Hc; auto].
  destruct (f SelectSale); [simpl; rewrite ?Hc; auto|].
  destruct (select_sale_qty_price sid d) as [[sqty bprice]|] eqn:Hq; [|simpl; rewrite ?Hc; auto].
  cbv zeta. destruct (forallb fits_int64 _); [|simpl; rewrite ?Hc; auto].
  destruct (f UpdateSale); [simpl; rewrite ?Hc; auto|].
  destruct (f Commit); [simpl; rewrite ?Hc; auto|].
  apply select_sale_qty_price_Some in Hq as (s & b & Hs & Hb & -> & ->).
  split; [done|]. right. exists sid, mname, sdate, sdiscount, s, b.
  split_and!; try done. simpl. by rewrite (alter_as_insert _ _ sid s Hs).
Qed.

(** X11 — all that [delete_sale] can do to the tables is to take out one
    sale of the list it has shown; it never leaves a transaction open. *)
Theorem delete_sale_effect f w :
  journal (conn w) = None →
  let d := tables (conn w) in
  let w' := (delete_sale strip int f w).1 in
  journal (conn w') = None
  ∧ (tables (conn w') = d
     ∨ ∃ sid mname sdate,
         (sid, mname, sdate) ∈ select_sale_list d
         ∧ tables (conn w') = with_sale (delete sid (sale d)) d).
Proof.
  intros Hidle d w'. subst w'.
  destruct (delete_sale_cases strip int f w)
    as [(w0 & r & -> & Hc)|(sid & mname & sdate & w0 & Hin & Hc & ->)].
  { simpl. destruct Hc as [-> | ->].
    - rewrite commit_idle by done. auto.
    - unfold rollback_conn. rewrite Hidle. auto. }
  assert (journal (conn w0) = None) as Hidle0 by congruence.
  rewrite delete_sale_chosen_idle by done. rewrite Hc. fold d.
  destruct (fits_int64 sid); [|simpl; rewrite ?Hc; auto].
  destruct (f DeleteSale); [simpl; rewrite ?Hc; auto|].
  destruct (f Commit); [simpl; rewrite ?Hc; auto|].
  split; [done|]. right. by exists sid, mname, sdate.
Qed.

(** X12 — the number typed at the list counts its rows from 1: a number
    from 1 to the length of the list picks the sale id of that row, and a
    blank line, a text that is not a number and a number outside the list
    pick nothing; only the last two are reported as an error. *)
Theorem choose_sid_picks prompt sales line rest w :
  stdin w = line :: rest →
  let out := (stdout w ++ [prompt])%list in
  let quiet := {| conn := conn w; stdin := rest; stdout := out |} in
  let told := {| conn := conn w; stdin := rest;
                 stdout := (out ++ ["錯誤：請輸入有效的數字"])%list |} in
  (strip line = "" → choose_sid strip int prompt sales w = (quiet, Return None))
  ∧ (strip line ≠ "" → int (strip line) = None →
     choose_sid strip int prompt sales w = (told, Return None))
  ∧ (∀ n, strip line ≠ "" → int (strip line) = Some n →
          ¬ (1 ≤ n ≤ Z.of_nat (length sales)) →
          choose_sid strip int prompt sales w = (told, Return None))
  ∧ (∀ n, strip line ≠ "" → int (strip line) = Some n →
          1 ≤ n ≤ Z.of_nat (length sales) →
          ∃ sid mname sdate,
            sales !! Z.to_nat (n - 1) = Some (sid, mname, sdate)
            ∧ choose_sid strip int prompt sales w = (quiet, Return (Some sid))).
Proof.
  intros Hin out quiet told.
  unfold choose_sid, input, mbind, py_bind. rewrite Hin. split_and!.
  - intros ->. by rewrite bool_decide_eq_true_2.
  - intros Hne ->. by rewrite bool_decide_eq_false_2.
  - intros n Hne -> Hn. rewrite bool_decide_eq_false_2 by done.
    destruct (Z.ltb_spec n 1); [done|].
    destruct (Z.gtb_spec n (Z.of_nat (length sales))); [done|]. lia.
  - intros n Hne -> Hn. rewrite bool_decide_eq_false_2 by done.
    destruct (Z.ltb_spec n 1); [lia|].
    destruct (Z.gtb_spec n (Z.of_nat (length sales))); [lia|]. simpl.
    destruct (lookup_lt_is_Some_2 sales (Z.to_nat (n - 1))) as [[[sid mname] sdate] Hrow];
      [lia|].
    exists sid, mname, sdate. split; [done|].
    unfold mret, py_ret. by rewrite Hrow.
Qed.

End PromptFacts.

Lemma choose_sid_picks_witness :
  let w := {| conn := idle seed_db; stdin := ["3"; "50"]; stdout := [] |} in
  choose_sid keep plain_int ">" (select_sale_list seed_db) w
  = ({| conn := idle seed_db; stdin := ["50"]; stdout := [">"] |}, Return (Some 3)).
Proof.
  intros w.
  destruct (choose_sid_picks keep plain_int ">" (select_sale_list seed_db) "3" ["50"] w
              eq_refl) as (_ & _ & _ & H).
  destruct (H 3) as (sid & mname & sdate & Hrow & ->); [done|reflexivity|vm_compute; split; congruence|].
  vm_compute in Hrow. by simplify_eq.
Defined.

Lemma update_sale_effect_witness :
  let w := {| conn := idle seed_db; stdin := ["2"; "-5"; "x"; "10"]; stdout := [] |} in
  let w' := (update_sale keep plain_int no_faults w).1 in
  journal (conn w') = None
  ∧ Sale.stotal <$> sale (tables (conn w')) !! 2 = Some 790
  ∧ stdin w' = [].
Proof.
  intros w w'. split; [|split; reflexivity].
  apply (update_sale_effect keep plain_int no_faults w). reflexivity.
Defined.

Lemma delete_sale_effect_witness :
  let w := {| conn := idle seed_db; stdin := ["4"]; stdout := [] |} in
  let w' := (delete_sale keep plain_int no_faults w).1 in
  journal (conn w') = None
  ∧ sids (tables (conn w')) = [1; 2; 3].
Proof.
  intros w w'. split; [|reflexivity].
  apply (delete_sale_effect keep plain_int no_faults w). reflexivity.
Defined.

(** ** Seeding the file *)

Lemma insert_or_ignore_all_union {A} (rows : list (string * A)) (t : gmap string A) :
  insert_or_ignore_all rows t = t ∪ list_to_map rows.
Proof.
  revert t. induction rows as [|[k v] rows IH]; intros t; simpl.
  { by rewrite (right_id_L ∅ (∪)). }
  rewrite IH. apply map_eq. intros i. rewrite !lookup_union. unfold insert_or_ignore.
  destruct (decide (k = i)) as [->|Hne].
  - rewrite (lookup_insert_eq (list_to_map rows)). destruct (t !! i) as [x|] eqn:Ht.
    + rewrite Ht. by destruct (list_to_map rows !! i).
    + rewrite lookup_insert_eq. by destruct (list_to_map rows !! i).
  - rewrite (lookup_insert_ne (list_to_map rows)) by done.
    destruct (t !! k); [done|]. by rewrite lookup_insert_ne.
Qed.

Lemma insert_sale_inr r d d' :
  insert_sale r d = inr d' →
  ∃ sid, next_sid d = Some sid
         ∧ d' = {| member := member d; book := book d;
                   sale := <[sid := r]> (sale d); sale_seq := sid |}.
Proof.
  unfold insert_sale. destruct (next_sid d) as [sid|]; [|done].
  intros [= <-]. by exists sid.
Qed.

Lemma insert_sale_inl r d text :
  insert_sale r d = inl text → text = "database or disk is full".
Proof. unfold insert_sale. destruct (next_sid d); [done|]. by intros [= <-]. Qed.

(** The world after [initialize_db], from the tables it leaves. *)
Lemma initialize_db_unfold w :
  let d := tables (conn w) in
  let d1 := with_member (insert_or_ignore_all seed_member_rows (member d)) d in
  let d2 := with_book (insert_or_ignore_all seed_book_rows (book d1)) d1 in
  initialize_db w =
    match insert_sales seed_sale_rows d2 with
    | inl text => (set_conn (idle d2) w, Raise (SqliteError text))
    | inr d3 => (set_conn (idle d3) w, Return tt)
    end.
Proof.
  intros d d1 d2. unfold initialize_db, with_conn, run_seed_script.
  unfold mbind, py_bind, on_conn, get_tables, raise.
  cbn [tables conn set_conn commit_conn]. fold d. fold d1. fold d2.
  by destruct (insert_sales seed_sale_rows d2).
Qed.

(** X13 — seeding never overwrites: after [initialize_db] the member and
    the book table are what they were, with the seed rows added for the
    keys that were missing; a member or a book that was in the file,
    with its stock, is left as it is.  This holds also when the
    statement for the sales fails. *)
Theorem initialize_db_keeps_rows w :
  let d := tables (conn w) in
  let d' := tables (conn (initialize_db w).1) in
  member d' = member d ∪ seed_member
  ∧ book d' = book d ∪ seed_book
  ∧ (∀ k r, member d !! k = Some r → member d' !! k = Some r)
  ∧ (∀ k b, book d !! k = Some b → book d' !! k = Some b).
Proof.
  intros d d'. subst d'. rewrite initialize_db_unfold. fold d.
  set (d2 := with_book _ _).
  assert (member d2 = member d ∪ seed_member ∧ book d2 = book d ∪ seed_book) as [Hm Hb].
  { subst d2. unfold with_book, with_member. cbn [member book].
    by rewrite !insert_or_ignore_all_union. }
  assert (∀ d3, insert_sales seed_sale_rows d2 = inr d3 →
                member d3 = member d2 ∧ book d3 = book d2) as Hsales.
  { intros d3. unfold seed_sale_rows. simpl.
    repeat (destruct (insert_sale _ _) as [?|?] eqn:?; [done|];
            match goal with H : insert_sale _ _ = inr _ |- _ =>
              apply insert_sale_inr in H as (? & _ & ->) end).
    by intros [= <-]. }
  assert (member (tables (conn (match insert_sales seed_sale_rows d2 with
                                | inl text => (set_conn (idle d2) w, Raise (SqliteError text))
                                | inr d3 => (set_conn (idle d3) w, Return tt)
                                end).1)) = member d ∪ seed_member
          ∧ book (tables (conn (match insert_sales seed_sale_rows d2 with
                                | inl text => (set_conn (idle d2) w, Raise (SqliteError text))
                                | inr d3 => (set_conn (idle d3) w, Return tt)
                                end).1)) = book d ∪ seed_book) as [-> ->].
  { destruct (insert_sales seed_sale_rows d2) as [?|d3] eqn:H3; simpl; [done|].
    destruct (Hsales d3 eq_refl) as [-> ->]. done. }
  split_and!; try done.
  - intros k r Hk. by apply lookup_union_Some_raw; left.
  - intros k b Hk. by apply lookup_union_Some_raw; left.
Qed.

(** X14 — every run of [initialize_db] puts the four seed sales in again:
    when it returns, four rows were added under four new sale ids above
    the counter and above every id of the table, the old rows are all
    still there, and the table has four rows more; when the ids run out
    it raises the error of SQLite and the sale table is as before.  No
    transaction is left open. *)
Theorem initialize_db_adds_sales w :
  let d := tables (conn w) in
  let w' := (initialize_db w).1 in
  let d' := tables (conn w') in
  journal (conn w') = None
  ∧ match (initialize_db w).2 with
    | Return _ =>
        ∃ s1 s2 s3 s4,
          sale_seq d < s1 ∧ s1 < s2 ∧ s2 < s3 ∧ s3 < s4 ∧ sale_seq d' = s4
          ∧ (∀ k, is_Some (sale d !! k) → k < s1)
          ∧ sale d'
            = <[s4 := seed_row "2024-01-18" "M003" "B001" 1 0 600]>
              (<[s3 := seed_row "2024-01-17" "M001" "B003" 3 200 3400]>
              (<[s2 := seed_row "2024-01-16" "M002" "B002" 1 50 750]>
              (<[s1 := seed_row "2024-01-15" "M001" "B001" 2 100 1100]> (sale d))))
          ∧ size (sale d') = (size (sale d) + 4)%nat
    | Raise e =>
        e = SqliteError "database or disk is full"
        ∧ sale d' = sale d ∧ sale_seq d' = sale_seq d
    end.
Proof.
  intros d w' d'. subst d' w'. rewrite initialize_db_unfold. fold d.
  remember (with_book _ _) as d2 eqn:Hd2.
  assert (sale d2 = sale d ∧ sale_seq d2 = sale_seq d) as [Hs Hq] by (by subst d2).
  clear Hd2.
  unfold seed_sale_rows, insert_sales.
  destruct (insert_sale _ d2) as [t1|e1] eqn:H1.
  { apply insert_sale_inl in H1 as ->. simpl. by rewrite Hs, Hq. }
  destruct (insert_sale _ e1) as [t2|e2] eqn:H2.
  { apply insert_sale_inl in H2 as ->. simpl. by rewrite Hs, Hq. }
  destruct (insert_sale _ e2) as [t3|e3] eqn:H3.
  { apply insert_sale_inl in H3 as ->. simpl. by rewrite Hs, Hq. }
  destruct (insert_sale _ e3) as [t4|e4] eqn:H4.
  { apply insert_sale_inl in H4 as ->. simpl. by rewrite Hs, Hq. }
  apply insert_sale_inr in H1 as (s1 & N1 & ->).
  apply insert_sale_inr in H2 as (s2 & N2 & ->).
  apply insert_sale_inr in H3 as (s3 & N3 & ->).
  apply insert_sale_inr in H4 as (s4 & N4 & ->).
  simpl. split; [done|]. exists s1, s2, s3, s4.
  pose proof (next_sid_above_seq _ _ N1) as [L1 _].
  pose proof (next_sid_above_seq _ _ N2) as [L2 _].
  pose proof (next_sid_above_seq _ _ N3) as [L3 _].
  pose proof (next_sid_above_seq _ _ N4) as [L4 _].
  simpl in *. rewrite Hq in L1. rewrite Hs.
  pose proof (next_sid_fresh _ _ N1) as F1.
  pose proof (next_sid_fresh _ _ N2) as F2.
  pose proof (next_sid_fresh _ _ N3) as F3.
  pose proof (next_sid_fresh _ _ N4) as F4.
  simpl in *. rewrite Hs in F1, F2, F3, F4.
  split_and!; try done.
  - intros k [r Hr]. eapply next_sid_above_all; [exact N1|]. by rewrite Hs.
  - rewrite !map_size_insert_None by done. lia.
Qed.

Lemma initialize_db_keeps_rows_witness :
  Book.bstock <$>
    book (tables (conn (initialize_db
      (add_sale no_faults "2024-02-01" "M001" "B001" 2 0 (start seed_db)).1).1)) !! "B001"
  = Some 48.
Proof.
  destruct (initialize_db_keeps_rows
              (add_sale no_faults "2024-02-01" "M001" "B001" 2 0 (start seed_db)).1)
    as (_ & _ & _ & H).
  rewrite (H "B001" {| Book.btitle := "Python Programming"; Book.bprice := 600;
                       Book.bstock := 48 |}); reflexivity.
Defined.

Lemma initialize_db_adds_sales_witness :
  journal (conn (initialize_db (start seed_db)).1) = None
  ∧ journal (conn (initialize_db (start seed_db_full)).1) = None.
Proof.
  split.
  - exact (proj1 (initialize_db_adds_sales (start seed_db))).
  - exact (proj1 (initialize_db_adds_sales (start seed_db_full))).
Defined.

(** On a new file the seeding gives the seed data; a second run gives the
    four seed sales twice. *)
Lemma initialize_db_twice :
  let once := (initialize_db (start empty_db)).1 in
  let twice := (initialize_db once).1 in
  tables (conn once) = seed_db
  ∧ member (tables (conn twice)) = seed_member
  ∧ book (tables (conn twice)) = seed_book
  ∧ sids (tables (conn twice)) = [1; 2; 3; 4; 5; 6; 7; 8]
  ∧ Sale.sdate <$> sale (tables (conn twice)) !! 5 = Some "2024-01-15".
Proof. repeat split; reflexivity. Qed.

(** ** The report *)


(** ** The report *)

Lemma StronglySorted_le_lt (l : list Z) :
  StronglySorted Z.le l → NoDup l → StronglySorted Z.lt l.
Proof.
  induction 1 as [|x l Hl IH Hx]; intros Hnd; [constructor|].
  apply NoDup_cons in Hnd as [Hnotin Hnd]. constructor; [by apply IH|].
  rewrite Forall_forall in Hx |- *. intros y Hy.
  assert (x ≠ y) by (by intros ->). specialize (Hx y Hy). lia.
Qed.

Lemma StronglySorted_lt_sids d : StronglySorted Z.lt (sids d).
Proof. apply StronglySorted_le_lt; [apply StronglySorted_sids|apply NoDup_sids]. Qed.

Lemma omap_sorted {B} (key : B → Z) (g : Z → option B) (l : list Z) :
  (∀ k y, g k = Some y → key y = k) →
  StronglySorted Z.lt l → StronglySorted Z.lt (key <$> omap g l).
Proof.
  intros Hkey. induction 1 as [|x l Hl IH Hx]; [constructor|].
  simpl. destruct (g x) as [y|] eqn:Hy; [|done].
  simpl. constructor; [done|]. rewrite (Hkey x y Hy).
  rewrite Forall_forall in Hx |- *. intros k Hk.
  apply list_elem_of_fmap in Hk as (z & -> & Hz).
  apply list_elem_of_omap in Hz as (k' & Hk' & Hz).
  rewrite (Hkey k' z Hz). by apply Hx.
Qed.

Lemma omap_total_length {B} (g : Z → option B) (l : list Z) :
  (∀ k, k ∈ l → is_Some (g k)) → length (omap g l) = length l.
Proof.
  induction l as [|x l IH]; intros H; [done|].
  simpl. destruct (H x) as [y ->]; [by left|].
  simpl. f_equal. apply IH. intros k Hk. apply H. by right.
Qed.

Lemma length_sids d : length (sids d) = size (sale d).
Proof.
  unfold sids. rewrite merge_sort_Permutation, length_fmap. apply length_map_to_list.
Qed.

(** X15 — the report has a row exactly for every sale whose member and
    whose book exist, with the name, the title and the price as they are
    now and the quantity, discount and total as stored; the rows come in
    ascending order of sale id and no id comes twice; and when every sale
    names an existing member and book, every sale is in the report. *)
Theorem select_sale_report_rows d :
  (∀ row, row ∈ select_sale_report d ↔
          ∃ sid s m b,
            sale d !! sid = Some s
            ∧ member d !! Sale.mid s = Some m
            ∧ book d !! Sale.bid s = Some b
            ∧ row = (sid, Sale.sdate s, Member.mname m, Book.btitle b, Book.bprice b,
                     Sale.sqty s, Sale.sdiscount s, Sale.stotal s))
  ∧ StronglySorted Z.lt (sid_of_report <$> select_sale_report d)
  ∧ (references_hold d → length (select_sale_report d) = size (sale d)).
Proof.
  unfold select_sale_report. split_and!.
  - intros row. rewrite list_elem_of_omap. split.
    + intros (sid & _ & H).
      destruct (sale d !! sid) as [s|] eqn:Hs; [|done]. simpl in H.
      destruct (member d !! Sale.mid s) as [m|] eqn:Hm; [|done]. simpl in H.
      destruct (book d !! Sale.bid s) as [b|] eqn:Hb; [|done]. simpl in H.
      exists sid, s, m, b. by simplify_eq.
    + intros (sid & s & m & b & Hs & Hm & Hb & ->). exists sid. split.
      * apply elem_of_sids. by eexists.
      * rewrite Hs. simpl. rewrite Hm. simpl. by rewrite Hb.
  - apply omap_sorted; [|apply StronglySorted_lt_sids].
    intros k y H.
    destruct (sale d !! k) as [s|]; [|done]. simpl in H.
    destruct (member d !! Sale.mid s) as [m|]; [|done]. simpl in H.
    destruct (book d !! Sale.bid s) as [b|]; [|done]. simpl in H. by simplify_eq.
  - intros Href. rewrite omap_total_length; [apply length_sids|].
    intros k [s Hs]%elem_of_sids. rewrite Hs. simpl.
    destruct (Href k s Hs) as [[m ->] [b ->]]. by eexists.
Qed.

Lemma select_sale_report_rows_witness :
  length (select_sale_report seed_db) = 4%nat.
Proof.
  destruct (select_sale_report_rows seed_db) as (_ & _ & H).
  rewrite (H seed_db_references). reflexivity.
Defined.

Lemma print_all_unfold lines w :
  print_all lines w
  = ({| conn := conn w; stdin := stdin w; stdout := stdout w ++ lines |}, Return tt).
Proof.
  revert w. induction lines as [|l lines IH]; intros w; simpl.
  { rewrite app_nil_r. by destruct w. }
  rewrite (bind_return (print l) _ w (write l w) tt eq_refl), IH.
  unfold write. simpl. by rewrite <- app_assoc.
Qed.



(** ** How the pieces of the program end *)

Lemma polite_mild {A} (m : py A) : polite m → mild m.
Proof. intros H w. destruct (H w) as (? & ? & _). done. Qed.

Lemma polite_ret {A} (a : A) : polite (mret a : py A).
Proof. intros w. by split_and!. Qed.

Lemma polite_bind {A B} (m : py A) (k : A → py B) :
  polite m → (∀ a, polite (k a)) → polite (m ≫= k).
Proof.
  intros Hm Hk w. unfold mbind, py_bind.
  destruct (Hm w) as (H1 & H2 & H3). destruct (m w) as [w' [a|e]]; simpl in *.
  - destruct (Hk a w') as (K1 & K2 & K3). split_and!; [lia|done|done].
  - split_and!; [done|done|]. intros text [= ->]. by apply (H3 text).
Qed.

Lemma mild_bind {A B} (m : py A) (k : A → py B) :
  mild m → (∀ a, mild (k a)) → mild (m ≫= k).
Proof.
  intros Hm Hk w. unfold mbind, py_bind.
  destruct (Hm w) as (H1 & H2). destruct (m w) as [w' [a|e]]; simpl in *.
  - destruct (Hk a w') as (K1 & K2). split_and!; [lia|done].
  - by split_and!.
Qed.

Lemma polite_print line : polite (print line).
Proof. intros w. by split_and!. Qed.

Lemma polite_input prompt : polite (input prompt).
Proof.
  intros w. unfold input. destruct (stdin w) as [|l rest] eqn:Hw; simpl.
  - rewrite Hw. by split_and!.
  - split_and!; [lia|done|done].
Qed.

Lemma polite_on_conn g : polite (on_conn g).
Proof. intros w. by split_and!. Qed.

Lemma polite_get_tables : polite get_tables.
Proof. intros w. by split_and!. Qed.

Lemma polite_bind_int params : polite (bind_int params).
Proof. intros w. unfold bind_int. destruct (forallb _ _); by split_and!. Qed.

Lemma mild_storage f s : mild (storage f s).
Proof. intros w. unfold storage. destruct (f s); by split_and!. Qed.

Lemma mild_execute_dml f s params run : mild (execute_dml f s params run).
Proof.
  unfold execute_dml.
  apply mild_bind; [apply polite_mild, polite_on_conn|intros _].
  apply mild_bind; [apply polite_mild, polite_bind_int|intros _].
  apply mild_bind; [apply mild_storage|intros _].
  apply mild_bind; [apply polite_mild, polite_get_tables|intros d].
  destruct (run d); [by intros w|apply polite_mild, polite_on_conn].
Qed.

Lemma mild_execute_select {A} f s params (query : database → A) :
  mild (execute_select f s params query).
Proof.
  unfold execute_select.
  apply mild_bind; [apply polite_mild, polite_bind_int|intros _].
  apply mild_bind; [apply mild_storage|intros _].
  apply mild_bind; [apply polite_mild, polite_get_tables|intros d].
  apply polite_mild, polite_ret.
Qed.

Lemma mild_commit f : mild (commit f).
Proof.
  unfold commit. apply mild_bind; [apply mild_storage|intros _].
  apply polite_mild, polite_on_conn.
Qed.

Lemma polite_try_except {A} (body : py A) (handler : string → py A) :
  mild body → (∀ e, polite (handler e)) → polite (try_except body handler).
Proof.
  intros Hb Hh w. unfold try_except.
  destruct (Hb w) as (H1 & H2). destruct (body w) as [w' [a|[text| |]]]; simpl in *.
  - by split_and!.
  - destruct (Hh text w') as (K1 & K2 & K3). split_and!; [lia|done|done].
  - by split_and!.
  - by split_and!.
Qed.

Lemma polite_with_conn {A} (m : py A) : polite m → polite (with_conn m).
Proof.
  intros Hm w. unfold with_conn.
  destruct (Hm w) as (H1 & H2 & H3). destruct (m w) as [w' [a|e]]; simpl in *.
  - by split_and!.
  - split_and!; [done|by destruct e|done].
Qed.

Lemma polite_rollback_then {A} (k : py A) : polite k → polite (rollback ≫= λ _, k).
Proof. intros Hk. apply polite_bind; [apply polite_on_conn|done]. Qed.

Lemma polite_add_sale f sdate mid bid sqty sdiscount :
  polite (add_sale f sdate mid bid sqty sdiscount).
Proof.
  unfold add_sale. destruct (negb _); [apply polite_ret|].
  apply polite_with_conn, polite_bind; [apply polite_get_tables|intros d].
  destruct (select_member mid d); [|apply polite_ret].
  destruct (select_book bid d) as [[bprice bstock]|]; [|apply polite_ret].
  destruct (sqty <=? 0); [apply polite_ret|].
  destruct (sqty >? bstock); [apply polite_ret|].
  destruct (sdiscount <? 0); [apply polite_ret|].
  apply polite_try_except.
  - apply mild_bind; [apply mild_execute_dml|intros _].
    apply mild_bind; [apply mild_execute_dml|intros _].
    apply mild_bind; [apply mild_commit|intros _].
    apply polite_mild, polite_ret.
  - intros e. apply polite_rollback_then, polite_ret.
Qed.

Lemma polite_update_sale_apply f sid sdiscount : polite (update_sale_apply f sid sdiscount).
Proof.
  unfold update_sale_apply. apply polite_try_except.
  - apply mild_bind; [apply mild_execute_select|intros [[sqty bprice]|]].
    + apply mild_bind; [apply mild_execute_dml|intros _].
      apply mild_bind; [apply mild_commit|intros _].
      apply polite_mild, polite_print.
    + apply polite_mild, polite_ret.
  - intros e. apply polite_rollback_then, polite_print.
Qed.

Lemma polite_delete_sale_apply f sid : polite (delete_sale_apply f sid).
Proof.
  unfold delete_sale_apply. apply polite_try_except.
  - apply mild_bind; [apply mild_execute_dml|intros _].
    apply mild_bind; [apply mild_commit|intros _].
    apply polite_mild, polite_print.
  - intros e. apply polite_rollback_then, polite_print.
Qed.

Lemma polite_print_all lines : polite (print_all lines).
Proof.
  induction lines as [|l lines IH]; [apply polite_ret|].
  simpl. apply polite_bind; [apply polite_print|done].
Qed.

Lemma polite_print_sale_list sales : polite (print_sale_list sales).
Proof.
  unfold print_sale_list. apply polite_bind; [apply polite_print|intros _].
  apply polite_bind; [apply polite_print_all|intros _]. apply polite_print.
Qed.

Lemma polite_print_sale_report : polite print_sale_report.
Proof.
  unfold print_sale_report. apply polite_with_conn.
  apply polite_bind; [apply polite_get_tables|intros d]. cbv zeta.
  apply polite_bind; [apply polite_print|intros _]. apply polite_print_all.
Qed.

Section MenuFacts.

Variable strip : string → string.
Variable int : string → option Z.
Variable storage_in : nat → faults.

Lemma polite_choose_sid prompt sales : polite (choose_sid strip int prompt sales).
Proof.
  unfold choose_sid. apply polite_bind; [apply polite_input|intros choice]. cbv zeta.
  case_bool_decide; [apply polite_ret|].
  destruct (int (strip choice)) as [n|].
  - destruct (_ || _); [|apply polite_ret].
    apply polite_bind; [apply polite_print|intros _]. apply polite_ret.
  - apply polite_bind; [apply polite_print|intros _]. apply polite_ret.
Qed.

Lemma read_discount_ends lines out :
  let '(rest, _, r) := read_discount strip int lines out in
  (length rest ≤ length lines)%nat
  ∧ match r with Raise EOFError => rest = [] | Raise _ => False | Return n => 0 ≤ n end.
Proof.
  revert out. induction lines as [|line lines IH]; intros out; simpl; [done|].
  destruct (int (strip line)) as [n|].
  - destruct (Z.ltb_spec n 0).
    + specialize (IH (out ++ ["請輸入新的折扣金額："; "錯誤：折扣金額不能為負數，請重新輸入"])%list).
      destruct (read_discount strip int lines _) as [[rest out'] r].
      destruct IH as [? ?]. split; [lia|done].
    + split; [lia|done].
  - specialize (IH (out ++ ["請輸入新的折扣金額："; "錯誤：折扣金額必須為整數，請重新輸入"])%list).
    destruct (read_discount strip int lines _) as [[rest out'] r].
    destruct IH as [? ?]. split; [lia|done].
Qed.

Lemma polite_ask_discount : polite (ask_discount strip int).
Proof.
  intros w. unfold ask_discount.
  pose proof (read_discount_ends (stdin w) (stdout w)) as H.
  destruct (read_discount strip int (stdin w) (stdout w)) as [[rest out] r].
  destruct H as [H1 H2]. simpl. split_and!; [done| |].
  - by destruct r as [n|[]].
  - intros text ->. done.
Qed.

Lemma read_number_ends prompt bad msg_bad msg_not_int lines out :
  let '(rest, _, r) := read_number strip int prompt bad msg_bad msg_not_int lines out in
  (length rest ≤ length lines)%nat
  ∧ match r with
    | Raise EOFError => rest = []
    | Raise _ => False
    | Return n => bad n = false
    end.
Proof.
  revert out. induction lines as [|line lines IH]; intros out; simpl; [done|].
  destruct (int (strip line)) as [n|].
  - destruct (bad n) eqn:Hbad.
    + specialize (IH (out ++ [prompt; msg_bad])%list).
      destruct (read_number strip int _ _ _ _ lines _) as [[rest out'] r].
      destruct IH as [? ?]. split; [lia|done].
    + split; [lia|done].
  - specialize (IH (out ++ [prompt; msg_not_int])%list).
    destruct (read_number strip int _ _ _ _ lines _) as [[rest out'] r].
    destruct IH as [? ?]. split; [lia|done].
Qed.

Lemma polite_ask_number prompt bad msg_bad msg_not_int :
  polite (ask_number strip int prompt bad msg_bad msg_not_int).
Proof.
  intros w. unfold ask_number.
  pose proof (read_number_ends prompt bad msg_bad msg_not_int (stdin w) (stdout w)) as H.
  destruct (read_number strip int _ _ _ _ (stdin w) (stdout w)) as [[rest out] r].
  destruct H as [H1 H2]. simpl. split_and!; [done| |].
  - by destruct r as [n|[]].
  - intros text ->. done.
Qed.

Lemma polite_update_sale f : polite (update_sale strip int f).
Proof.
  unfold update_sale. apply polite_with_conn.
  apply polite_bind; [apply polite_get_tables|intros d]. cbv zeta.
  destruct (select_sale_list d); [apply polite_print|].
  apply polite_bind; [apply polite_print_sale_list|intros _].
  apply polite_bind; [apply polite_choose_sid|intros [sid|]]; [|apply polite_ret].
  apply polite_bind; [apply polite_ask_discount|intros sdiscount].
  apply polite_update_sale_apply.
Qed.

Lemma polite_delete_sale f : polite (delete_sale strip int f).
Proof.
  unfold delete_sale. apply polite_with_conn.
  apply polite_bind; [apply polite_get_tables|intros d]. cbv zeta.
  destruct (select_sale_list d); [apply polite_print|].
  apply polite_bind; [apply polite_print_sale_list|intros _].
  apply polite_bind; [apply polite_choose_sid|intros [sid|]]; [|apply polite_ret].
  apply polite_delete_sale_apply.
Qed.

Lemma polite_add_sale_dialog f : polite (add_sale_dialog strip int f).
Proof.
  unfold add_sale_dialog.
  apply polite_bind; [apply polite_input|intros sdate].
  apply polite_bind; [apply polite_input|intros mid].
  apply polite_bind; [apply polite_input|intros bid].
  apply polite_bind; [apply polite_ask_number|intros sqty].
  apply polite_bind; [apply polite_ask_number|intros sdiscount].
  apply polite_bind; [apply polite_add_sale|intros [success message]].
  apply polite_print.
Qed.

Lemma polite_dispatch round choice body :
  dispatch strip int storage_in round choice = Run body → polite body.
Proof.
  unfold dispatch. repeat case_bool_decide; intros [= <-].
  - apply polite_add_sale_dialog.
  - apply polite_print_sale_report.
  - apply polite_update_sale.
  - apply polite_delete_sale.
  - apply polite_print.
Qed.

End MenuFacts.

(** ** What the pieces of the program do to the tables *)

Lemma calm_careful {A} (m : py A) : calm m → careful m.
Proof. intros H w Hidle. rewrite (H w). by split. Qed.

Lemma careful_bind {A B} (m : py A) (k : A → py B) :
  careful m → (∀ a, careful (k a)) → careful (m ≫= k).
Proof.
  intros Hm Hk w Hidle. unfold mbind, py_bind.
  destruct (Hm w Hidle) as [H1 H2]. destruct (m w) as [w' [a|e]]; simpl in *; [|done].
  destruct (Hk a w' H1) as [K1 K2]. split; [done|]. by etrans.
Qed.

Lemma calm_ret {A} (a : A) : calm (mret a : py A).
Proof. done. Qed.

Lemma calm_bind {A B} (m : py A) (k : A → py B) :
  calm m → (∀ a, calm (k a)) → calm (m ≫= k).
Proof.
  intros Hm Hk w. unfold mbind, py_bind. specialize (Hm w).
  destruct (m w) as [w' [a|e]]; simpl in *; [|done]. by rewrite (Hk a w').
Qed.

Lemma calm_print line : calm (print line).
Proof. done. Qed.

Lemma calm_input prompt : calm (input prompt).
Proof. intros w. unfold input. by destruct (stdin w). Qed.

Lemma calm_print_all lines : calm (print_all lines).
Proof. intros w. by rewrite print_all_unfold. Qed.

Lemma careful_add_sale f sdate mid bid sqty sdiscount :
  careful (add_sale f sdate mid bid sqty sdiscount).
Proof.
  intros w Hidle.
  destruct (add_sale_change (λ x, 0 ≤ x) f sdate mid bid sqty sdiscount w Hidle)
    as (H1 & H2 & _).
  split; [done|]. by apply rtc_once.
Qed.

Lemma careful_print_sale_report : careful print_sale_report.
Proof.
  intros w Hidle. unfold print_sale_report, with_conn.
  rewrite (bind_return get_tables _ w w (tables (conn w)) eq_refl). cbv zeta.
  rewrite (bind_return (print _) _ w _ tt eq_refl), print_all_unfold.
  cbn [fst conn set_conn write]. by rewrite commit_idle.
Qed.

Lemma change_sound d d' : change (λ x, 0 ≤ x) d d' → sound d → sound d'.
Proof.
  intros Hch (H1 & H2 & H3 & H4 & H5 & H6). split_and!.
  - by eapply change_stock.
  - by eapply change_totals.
  - by eapply change_references.
  - by eapply change_amounts.
  - by eapply change_sids_counted.
  - by eapply change_seed_prices.
Qed.

(** ** Seeding keeps the file sound *)

Lemma insert_sale_sound r d d' :
  insert_sale r d = inr d' → sound d → row_fine d r →
  sound d' ∧ member d' = member d ∧ book d' = book d.
Proof.
  intros (sid & Hsid & ->)%insert_sale_inr (H1 & H2 & H3 & H4 & H5 & H6)
    (Hm & (b & Hb & Ht) & Hq & Hd).
  split; [|done]. split_and!; try done.
  - intros k s c Hs Hc. simpl in *. destruct (decide (sid = k)) as [->|Hne].
    + rewrite lookup_insert_eq in Hs. by simplify_eq.
    + rewrite lookup_insert_ne in Hs by done. by eapply H2.
  - intros k s Hs. simpl in *. destruct (decide (sid = k)) as [->|Hne].
    + rewrite lookup_insert_eq in Hs. simplify_eq. split; [done|by eexists].
    + rewrite lookup_insert_ne in Hs by done. by eapply H3.
  - intros k s Hs. simpl in *. destruct (decide (sid = k)) as [->|Hne].
    + rewrite lookup_insert_eq in Hs. by simplify_eq.
    + rewrite lookup_insert_ne in Hs by done. by eapply H4.
  - intros k s Hs. simpl in *. destruct (decide (sid = k)) as [->|Hne]; [lia|].
    rewrite lookup_insert_ne in Hs by done.
    pose proof (next_sid_above_all _ _ _ _ Hsid Hs). lia.
Qed.

Lemma row_fine_same d d' r :
  member d' = member d → book d' = book d → row_fine d r → row_fine d' r.
Proof. unfold row_fine. by intros -> ->. Qed.

Lemma seed_book_rows_lookup k b :
  seed_book !! k = Some b → (k, b) ∈ seed_book_rows.
Proof.
  unfold seed_book, seed_book_rows. intros H.
  repeat (apply lookup_insert_Some in H as [[<- <-]|[_ H]];
          [repeat (first [by left | right])|]).
  by rewrite lookup_empty in H.
Qed.

Lemma seed_book_rows_price k v v' :
  (k, v) ∈ seed_book_rows → (k, v') ∈ seed_book_rows → Book.bprice v = Book.bprice v'.
Proof.
  unfold seed_book_rows. intros H H'.
  repeat (apply elem_of_cons in H as [H|H]); [..|by apply elem_of_nil in H];
    repeat (apply elem_of_cons in H' as [H'|H']); try (by apply elem_of_nil in H');
    by simplify_eq.
Qed.

(** The tables after the two statements for members and books. *)
Lemma seeded_sound d :
  sound d →
  let d1 := with_member (insert_or_ignore_all seed_member_rows (member d)) d in
  let d2 := with_book (insert_or_ignore_all seed_book_rows (book d1)) d1 in
  sound d2 ∧ Forall (row_fine d2) seed_sale_rows.
Proof.
  intros (H1 & H2 & H3 & H4 & H5 & H6) d1 d2.
  assert (member d2 = member d ∪ seed_member) as Hm.
  { unfold d2, d1, with_book, with_member. cbn [member].
    by rewrite insert_or_ignore_all_union. }
  assert (book d2 = book d ∪ seed_book) as Hb.
  { unfold d2, d1, with_book, with_member. cbn [book].
    by rewrite insert_or_ignore_all_union. }
  assert (sale d2 = sale d ∧ sale_seq d2 = sale_seq d) as [Hs Hq] by done.
  assert (seed_prices d2) as Hprices.
  { intros k v b Hin Hk. rewrite Hb in Hk.
    apply lookup_union_Some_raw in Hk as [Hk|[_ Hk]]; [by eapply H6|].
    apply seed_book_rows_lookup in Hk. by eapply seed_book_rows_price. }
  assert (sound d2) as Hsound.
  { split_and!; [| | | | |done].
    - unfold stock_nonneg. rewrite Hb. intros k b Hk.
      apply lookup_union_Some_raw in Hk as [Hk|[_ Hk]]; [by eapply H1|].
      unfold seed_book in Hk.
      repeat (apply lookup_insert_Some in Hk as [[_ <-]|[_ Hk]]; [simpl; lia|]).
      by rewrite lookup_empty in Hk.
    - intros k s b. rewrite Hs, Hb. intros Hk Hc.
      destruct (H3 k s Hk) as [_ [b0 Hb0]].
      rewrite (lookup_union_l' (book d) seed_book) in Hc by (by eexists).
      by eapply H2.
    - intros k s. rewrite Hs, Hm, Hb. intros Hk.
      destruct (H3 k s Hk) as [Hx Hy].
      by rewrite !lookup_union_l' by done.
    - intros k s. rewrite Hs. by apply H4.
    - intros k s. rewrite Hs, Hq. by apply H5. }
  split; [done|].
  assert (∀ k, is_Some (seed_member !! k) → is_Some (member d2 !! k)) as HM.
  { intros k [m Hk]. rewrite Hm, lookup_union. rewrite Hk. by destruct (member d !! k). }
  assert (∀ k v, (k, v) ∈ seed_book_rows →
                 ∃ b, book d2 !! k = Some b ∧ Book.bprice b = Book.bprice v) as HB.
  { intros k v Hin.
    assert (is_Some (book d2 !! k)) as [b Hk].
    { rewrite Hb, lookup_union.
      assert (is_Some (seed_book !! k)) as [b0 ->].
      { unfold seed_book_rows in Hin.
        repeat (apply elem_of_cons in Hin as [[= -> ->]|Hin]; [by eexists|]).
        by apply elem_of_nil in Hin. }
      by destruct (book d !! k). }
    exists b. split; [done|]. by eapply Hprices. }
  assert (∀ sdate mid bid sqty sdiscount stotal v,
            is_Some (seed_member !! mid) → (bid, v) ∈ seed_book_rows →
            stotal = Book.bprice v * sqty - sdiscount → 0 < sqty → 0 ≤ sdiscount →
            row_fine d2 (seed_row sdate mid bid sqty sdiscount stotal)) as Hrow.
  { intros sdate mid bid sqty sdiscount stotal v Hmid Hbid Htot Hqty Hdis.
    unfold row_fine, seed_row. cbn [Sale.mid Sale.bid Sale.sqty Sale.sdiscount Sale.stotal].
    split_and!; [by apply HM| |done|done].
    destruct (HB bid v Hbid) as (b & Hk & Hp). exists b. split; [done|]. by rewrite Hp. }
  unfold seed_sale_rows.
  apply Forall_cons; split;
    [eapply Hrow; [by eexists|by left|reflexivity|lia|lia]|].
  apply Forall_cons; split;
    [eapply Hrow; [by eexists|by right; left|reflexivity|lia|lia]|].
  apply Forall_cons; split;
    [eapply Hrow; [by eexists|by right; right; left|reflexivity|lia|lia]|].
  apply Forall_cons; split;
    [eapply Hrow; [by eexists|by left|reflexivity|lia|lia]|].
  apply Forall_nil_2.
Qed.

Lemma insert_sales_sound rows d d' :
  insert_sales rows d = inr d' → sound d → Forall (row_fine d) rows → sound d'.
Proof.
  revert d. induction rows as [|r rows IH]; intros d; simpl.
  { by intros [= <-]. }
  destruct (insert_sale r d) as [?|d1] eqn:H1; [done|].
  intros Hrest Hsound Hrows. apply Forall_cons in Hrows as [Hr Hrows].
  destruct (insert_sale_sound r d d1 H1 Hsound Hr) as (Hs1 & Hm & Hb).
  apply (IH d1 Hrest Hs1).
  eapply Forall_impl; [exact Hrows|]. intros x. by apply row_fine_same.
Qed.


Lemma initialize_db_sound w :
  sound (tables (conn w)) →
  journal (conn (initialize_db w).1) = None
  ∧ sound (tables (conn (initialize_db w).1)).
Proof.
  intros Hsound. rewrite initialize_db_unfold.
  destruct (seeded_sound _ Hsound) as [H2 Hrows]. cbv zeta in H2, Hrows.
  destruct (insert_sales seed_sale_rows _) as [text|d3] eqn:H3; simpl; [done|].
  split; [done|]. by eapply insert_sales_sound.
Qed.

(** ** The menu *)

Section MainFacts.

Variable strip : string → string.
Variable int : string → option Z.
Variable storage_in : nat → faults.

Lemma calm_ask_discount : calm (ask_discount strip int).
Proof.
  intros w. unfold ask_discount.
  by destruct (read_discount strip int (stdin w) (stdout w)) as [[rest out] r].
Qed.

Lemma calm_ask_number prompt bad msg_bad msg_not_int :
  calm (ask_number strip int prompt bad msg_bad msg_not_int).
Proof.
  intros w. unfold ask_number.
  by destruct (read_number strip int _ _ _ _ (stdin w) (stdout w)) as [[rest out] r].
Qed.

Lemma careful_update_sale f : careful (update_sale strip int f).
Proof.
  intros w Hidle.
  destruct (update_sale_cases strip int f w)
    as [(w0 & r & -> & Hc)|(sid & mname & sdate & sdiscount & w0 & Hin & Hpos & Hc & ->)].
  { simpl. destruct Hc as [-> | ->].
    - by rewrite commit_idle.
    - unfold rollback_conn. by rewrite Hidle. }
  assert (journal (conn w0) = None) as Hidle0 by congruence.
  destruct (update_sale_chosen_change (λ x, 0 ≤ x) f sid sdiscount w0 Hidle0 Hpos)
    as (H1 & H2 & _).
  split; [done|]. rewrite <- Hc. by apply rtc_once.
Qed.

Lemma careful_delete_sale f : careful (delete_sale strip int f).
Proof.
  intros w Hidle.
  destruct (delete_sale_cases strip int f w)
    as [(w0 & r & -> & Hc)|(sid & mname & sdate & w0 & Hin & Hc & ->)].
  { simpl. destruct Hc as [-> | ->].
    - by rewrite commit_idle.
    - unfold rollback_conn. by rewrite Hidle. }
  assert (journal (conn w0) = None) as Hidle0 by congruence.
  destruct (delete_sale_chosen_change (λ x, 0 ≤ x) f sid w0 Hidle0) as (H1 & H2 & _).
  split; [done|]. rewrite <- Hc. by apply rtc_once.
Qed.

Lemma careful_add_sale_dialog f : careful (add_sale_dialog strip int f).
Proof.
  unfold add_sale_dialog.
  apply careful_bind; [apply calm_careful, calm_input|intros sdate].
  apply careful_bind; [apply calm_careful, calm_input|intros mid].
  apply careful_bind; [apply calm_careful, calm_input|intros bid].
  apply careful_bind; [apply calm_careful, calm_ask_number|intros sqty].
  apply careful_bind; [apply calm_careful, calm_ask_number|intros sdiscount].
  apply careful_bind; [apply careful_add_sale|intros [success message]].
  apply calm_careful, calm_print.
Qed.

Lemma careful_dispatch round choice body :
  dispatch strip int storage_in round choice = Run body → careful body.
Proof.
  unfold dispatch. repeat case_bool_decide; intros [= <-].
  - apply careful_add_sale_dialog.
  - apply careful_print_sale_report.
  - apply careful_update_sale.
  - apply careful_delete_sale.
  - apply calm_careful, calm_print.
Qed.

Lemma menu_loop_ends rounds round w :
  journal (conn w) = None →
  (length (stdin w) < rounds)%nat →
  ∃ w' r, menu_loop strip int storage_in rounds round w = Some (w', r)
          ∧ journal (conn w') = None
          ∧ rtc (change (λ x, 0 ≤ x)) (tables (conn w)) (tables (conn w'))
          ∧ ends_well r w'
          ∧ ∀ text, r ≠ Raise (SqliteError text).
Proof.
  revert round w. induction rounds as [|rounds IH]; intros round w Hidle Hlen; [lia|].
  simpl.
  rewrite (bind_return (print_all (menu)) _ w _ tt (print_all_unfold _ w)).
  unfold input. cbn [stdin conn stdout].
  destruct (stdin w) as [|line rest] eqn:Hw.
  { eexists _, _. split_and!; [done|done|done|done|done]. }
  destruct (dispatch strip int storage_in round (strip line)) as [|body] eqn:Hbody.
  { eexists _, _. split_and!; [done|done|done|done|done]. }
  set (w1 := {| conn := conn w; stdin := rest; stdout := _ |}).
  destruct (polite_dispatch _ _ _ _ _ _ Hbody w1) as (P1 & P2 & P3).
  destruct (careful_dispatch _ _ _ Hbody w1 Hidle) as (C1 & C2).
  destruct (body w1) as [w2 [[]|e]] eqn:Hw2; simpl in *.
  - destruct (IH (S round) w2 C1) as (w' & r & -> & H1 & H2 & H3 & H4); [lia|].
    exists w', r. split_and!; try done. by etrans.
  - eexists _, _. split_and!; done.
Qed.


Lemma empty_db_sound : sound empty_db.
Proof.
  split_and!.
  - apply map_Forall_empty.
  - intros sid s b H. simpl in H. by rewrite lookup_empty in H.
  - intros sid s H. simpl in H. by rewrite lookup_empty in H.
  - intros sid s H. simpl in H. by rewrite lookup_empty in H.
  - intros sid s H. simpl in H. by rewrite lookup_empty in H.
  - intros k v b _ H. simpl in H. by rewrite lookup_empty in H.
Qed.

(** X18 — whatever is typed and whatever fails in the storage layer, a
    run of [main] on a sound file leaves a sound file: no stock below
    zero, every total equal to the price of the book times the quantity
    minus the discount, every sale naming a member and a book that
    exist, every quantity positive and every discount not negative, no
    sale id above the AUTOINCREMENT counter, and the books of the seed
    data at the price the seed data gives them.  The empty file is
    sound, so this holds after any number of runs from a new file. *)
Theorem main_keeps_sound file typed w r :
  sound file →
  main strip int storage_in file typed = Some (w, r) →
  sound (tables (conn w)).
Proof.
  intros Hsound. unfold main, connect_db.
  set (w0 := {| conn := idle file; stdin := typed; stdout := [] |}).
  destruct (initialize_db_sound w0 Hsound) as [Hidle1 Hsound1].
  revert Hidle1 Hsound1. rewrite initialize_db_unfold. cbn [tables conn idle w0].
  destruct (insert_sales seed_sale_rows _) as [text|d3] eqn:H3.
  { simpl. by intros _ ? [= <- <-]. }
  cbn [fst snd]. set (w1 := set_conn (idle d3) _). intros Hidle1 Hsound1.
  destruct (menu_loop_ends (S (length typed)) 0 w1 Hidle1) as (w' & r' & -> & H1 & H2 & _);
    [simpl; lia|].
  assert (sound (tables (conn w'))) as Hsound'.
  { revert H2 Hsound1. apply rtc_keeps. apply change_sound. }
  destruct r' as [[]|e]; intros [= <- <-]; [|done].
  simpl. unfold rollback_conn. by rewrite H1.
Qed.

End MainFacts.

Lemma main_keeps_sound_witness :
  ∃ w, main keep plain_int (λ _, no_faults) empty_db
         ["1"; "2024-02-01"; "M001"; "B001"; "x"; "0"; "2"; "-1"; "100";
          "2"; "3"; "5"; "50"; "4"; "9"; "7"; "5"] = Some (w, Return tt)
       ∧ sound (tables (conn w))
       ∧ Sale.stotal <$> sale (tables (conn w)) !! 5 = Some 1150
       ∧ Book.bstock <$> book (tables (conn w)) !! "B001" = Some 48
       ∧ stdin w = [].
Proof.
  destruct (main keep plain_int (λ _, no_faults) empty_db
              ["1"; "2024-02-01"; "M001"; "B001"; "x"; "0"; "2"; "-1"; "100";
               "2"; "3"; "5"; "50"; "4"; "9"; "7"; "5"]) as [[w [[]|e]]|] eqn:H;
    [|exfalso; vm_compute in H; discriminate..].
  exists w. split; [done|]. split.
  { exact (main_keeps_sound keep plain_int (λ _, no_faults) empty_db _ w (Return tt)
             empty_db_sound H). }
  vm_compute in H. injection H as <-. split_and!; reflexivity.
Defined.

(** ** More on the prompts and the validator *)



Section LoopFacts.

Variable strip : string → string.
Variable int : string → option Z.

(** X20 — the prompt for the new discount in [update_sale] asks again for
    every line that is not a whole number or is negative, takes the first
    line that is a number from 0 on, and leaves the lines after it
    unread; when no line typed will do it ends with [EOFError]. *)
Theorem read_discount_takes_first skipped out :
  Forall (no_discount strip int) skipped →
  (∀ line rest n,
     int (strip line) = Some n → 0 ≤ n →
     ∃ out', read_discount strip int (skipped ++ line :: rest) out = (rest, out', Return n)
             ∧ length out' = (length out + 2 * length skipped + 1)%nat)
  ∧ (∃ out', read_discount strip int skipped out = ([], out', Raise EOFError)).
Proof.
  intros Hskip. revert out.
  induction Hskip as [|l skipped Hl Hskip IH]; intros out.
  - split.
    + intros line rest n Hn Hpos. simpl. rewrite Hn.
      destruct (Z.ltb_spec n 0); [lia|]. eexists. split; [done|].
      rewrite length_app. simpl. lia.
    + by eexists.
  - unfold no_discount in Hl. simpl. destruct (int (strip l)) as [k|].
    + destruct (Z.ltb_spec k 0); [|lia].
      destruct (IH (out ++ ["請輸入新的折扣金額："; "錯誤：折扣金額不能為負數，請重新輸入"])%list)
        as [IH1 IH2].
      split; [|done]. intros line rest n Hn Hpos.
      destruct (IH1 line rest n Hn Hpos) as (out' & -> & Hlen).
      exists out'. split; [done|]. rewrite Hlen, length_app. simpl. lia.
    + destruct (IH (out ++ ["請輸入新的折扣金額："; "錯誤：折扣金額必須為整數，請重新輸入"])%list)
        as [IH1 IH2].
      split; [|done]. intros line rest n Hn Hpos.
      destruct (IH1 line rest n Hn Hpos) as (out' & -> & Hlen).
      exists out'. split; [done|]. rewrite Hlen, length_app. simpl. lia.
Qed.

(** X21 — the two prompts of [main] for the quantity and the discount do
    the same with their own test: every line that is not a whole number
    or fails the test is asked again, the first good one is taken and the
    rest is left unread; with no good line the loop ends with
    [EOFError]. *)
Theorem read_number_takes_first prompt bad msg_bad msg_not_int skipped out :
  Forall (no_number strip int bad) skipped →
  (∀ line rest n,
     int (strip line) = Some n → bad n = false →
     ∃ out', read_number strip int prompt bad msg_bad msg_not_int
               (skipped ++ line :: rest) out = (rest, out', Return n)
             ∧ length out' = (length out + 2 * length skipped + 1)%nat)
  ∧ (∃ out', read_number strip int prompt bad msg_bad msg_not_int skipped out
             = ([], out', Raise EOFError)).
Proof.
  intros Hskip. revert out.
  induction Hskip as [|l skipped Hl Hskip IH]; intros out.
  - split.
    + intros line rest n Hn Hok. simpl. rewrite Hn, Hok. eexists. split; [done|].
      rewrite length_app. simpl. lia.
    + by eexists.
  - unfold no_number in Hl. simpl. destruct (int (strip l)) as [k|].
    + rewrite Hl. destruct (IH (out ++ [prompt; msg_bad])%list) as [IH1 IH2].
      split; [|done]. intros line rest n Hn Hok.
      destruct (IH1 line rest n Hn Hok) as (out' & -> & Hlen).
      exists out'. split; [done|]. rewrite Hlen, length_app. simpl. lia.
    + destruct (IH (out ++ [prompt; msg_not_int])%list) as [IH1 IH2].
      split; [|done]. intros line rest n Hn Hok.
      destruct (IH1 line rest n Hn Hok) as (out' & -> & Hlen).
      exists out'. split; [done|]. rewrite Hlen, length_app. simpl. lia.
Qed.

End LoopFacts.

Lemma read_discount_takes_first_witness :
  ∃ out', read_discount keep plain_int ["-3"; "ten"; "10"; "7"] [] = (["7"], out', Return 10)
          ∧ length out' = 5%nat.
Proof.
  destruct (read_discount_takes_first keep plain_int ["-3"; "ten"] []) as [H _].
  - repeat constructor.
  - apply (H "10" ["7"] 10); [reflexivity|lia].
Defined.

Lemma read_number_takes_first_witness :
  ∃ out', read_number keep plain_int "?" (λ n, n <=? 0) "a" "b" ["0"; "x"; "2"; "7"] []
          = (["7"], out', Return 2)
          ∧ length out' = 5%nat.
Proof.
  destruct (read_number_takes_first keep plain_int "?" (λ n, n <=? 0) "a" "b" ["0"; "x"] [])
    as [H _].
  - repeat constructor.
  - apply (H "2" ["7"] 2); reflexivity.
Defined.



(** ** The numbers in the messages *)

Lemma group3_filter k l : List.filter no_comma (Text.group3 k l) = List.filter no_comma l.
Proof.
  revert k. induction l as [|c l IH]; intros k; [done|].
  simpl. destruct (k =? 3)%nat; simpl; by rewrite IH.
Qed.

Lemma filter_all {A} (f : A → bool) l : forallb f l = true → List.filter f l = l.
Proof.
  induction l as [|a l IH]; [done|]. simpl.
  intros [-> Hl]%andb_true_iff. by rewrite IH.
Qed.

Lemma pretty_N_go_plain x s :
  forallb no_comma (list_ascii_of_string s) = true →
  forallb no_comma (list_ascii_of_string (pretty_N_go x s)) = true.
Proof.
  revert s. induction (N.lt_wf_0 x) as [x _ IH]; intros s Hs.
  assert (x = 0 ∨ 0 < x)%N as [->|Hx] by lia.
  - by rewrite pretty_N_go_0.
  - rewrite pretty_N_go_step by done. apply IH.
    { by apply N.div_lt. }
    simpl. rewrite Hs, andb_true_r.
    unfold pretty_N_char. by repeat case_match.
Qed.

Lemma pretty_abs_plain n :
  forallb no_comma (list_ascii_of_string (pretty (Z.abs n))) = true.
Proof.
  assert (∀ p, forallb no_comma (list_ascii_of_string (pretty (Z.pos p))) = true) as Hp.
  { intros p. unfold pretty, pretty_Z, pretty, pretty_positive, pretty, pretty_N.
    destruct (decide (N.pos p = 0%N)); [done|]. by apply pretty_N_go_plain. }
  destruct n; [done|apply Hp..].
Qed.

Lemma grouped_read_back n :
  List.filter no_comma
    (rev (Text.group3 0 (rev (list_ascii_of_string (pretty (Z.abs n))))))
  = list_ascii_of_string (pretty (Z.abs n)).
Proof.
  rewrite List.filter_rev, group3_filter, <- List.filter_rev, rev_involutive.
  apply filter_all, pretty_abs_plain.
Qed.

(** X23 — the commas of [{n:,}] in the messages and in the report are
    the only thing added to the number: with the commas taken out, the
    text is [str(n)], sign and all. *)
Theorem with_commas_read_back n : without_commas (Text.with_commas n) = Text.str n.
Proof.
  unfold without_commas, Text.with_commas, Text.str.
  destruct (Z.ltb_spec n 0) as [Hn|Hn].
  - change ("-" +:+ ?s) with (String "-" s).
    cbn [list_ascii_of_string List.filter]. change (no_comma "-") with true. cbv iota.
    rewrite list_ascii_of_string_of_list_ascii, grouped_read_back.
    cbn [string_of_list_ascii]. rewrite string_of_list_ascii_of_string.
    destruct n; [lia|lia|done].
  - change ("" +:+ ?s) with s.
    rewrite list_ascii_of_string_of_list_ascii, grouped_read_back.
    rewrite string_of_list_ascii_of_string.
    by destruct n; [| |lia].
Qed.
